(** * Prusa-Link: the telemetry gatherer, the start-up getters, the module
      data classes, the configuration guards and the legacy file handlers

    A shallow embedding of the Python sources.  Python objects live in
    explicit stores and are named by their index; a method is a function
    in a small state-and-exception monad over the store.  What another
    thread or the printer decides (the state manager's fields, whether
    the serial port takes a line, what an instruction matched) is read from
    an environment indexed by the number of interactions made so far. *)

From Stdlib Require Import ZArith String Ascii List Lia PrimFloat.
From stdpp Require Import base option list strings pretty gmap.

Local Open Scope string_scope.
Local Open Scope list_scope.
Local Open Scope Z_scope.

(* ===================================================================== *)
(** ** Python values, exceptions and the method monad *)
(* ===================================================================== *)

Module Py.

(** The exceptions the modelled sources raise or let through. *)
Inductive exn : Type :=
| WriteIgnored
| AssertionError (msg : string)
| RuntimeError (msg : string)
| ValueError (msg : string)
| TypeError
| IndexError
| AttributeError (attr : string)
| PermissionError
| FileCurrentlyPrinted
| DestinationSameAsSource
| FileNotFound
| OtherError (name : string).

(** How a call ends.  [Stuck] is the model's own: a reference that names no
    object of the store, which Python excludes by construction. *)
Inductive outcome (A : Type) : Type :=
| Return (a : A)
| Raise (e : exn)
| Stuck.
Arguments Return {A} a.
Arguments Raise {A} e.
Arguments Stuck {A}.

Definition M (W A : Type) : Type := W -> outcome A * W.

Definition ret {W A} (a : A) : M W A := fun w => (Return a, w).

Definition bind {W A B} (m : M W A) (k : A -> M W B) : M W B :=
  fun w =>
    match m w with
    | (Return a, w') => k a w'
    | (Raise e, w') => (Raise e, w')
    | (Stuck, w') => (Stuck, w')
    end.

Definition raise {W A} (e : exn) : M W A := fun w => (Raise e, w).
Definition stuck {W A} : M W A := fun w => (Stuck, w).
Definition get {W} : M W W := fun w => (Return w, w).
Definition put {W} (w : W) : M W unit := fun _ => (Return tt, w).
Definition modify {W} (f : W -> W) : M W unit := fun w => (Return tt, f w).

(** [try: body except E: handler].  [handler e] is [None] when no [except]
    clause takes [e]; the exception then travels on.  The handler runs in
    the store the body left behind. *)
Definition try_except {W A} (body : M W A) (handler : exn -> option (M W A))
  : M W A :=
  fun w =>
    match body w with
    | (Raise e, w') =>
        match handler e with
        | Some h => h w'
        | None => (Raise e, w')
        end
    | r => r
    end.

(** Lifting a lookup in a store. *)
Definition of_option {W A} (o : option A) : M W A :=
  match o with Some a => ret a | None => stuck end.

Declare Scope py_scope.
Delimit Scope py_scope with py.
Notation "x <- m ;; k" := (bind m (fun x => k))
  (at level 100, m at next level, right associativity) : py_scope.
Notation "m ;;; k" := (bind m (fun _ => k))
  (at level 100, right associativity) : py_scope.

(** Every run of [m] takes a store to one related to it by [R], however
    the run ends. *)
Definition preserves {W A} (R : W -> W -> Prop) (m : M W A) : Prop :=
  forall w, R w (snd (m w)).

(** *** [int(s)] on the captures of [\d+] and [-?\d+] *)

Definition is_digit (c : ascii) : bool :=
  let n := nat_of_ascii c in (48 <=? n)%nat && (n <=? 57)%nat.

Definition digit_value (c : ascii) : Z := Z.of_nat (nat_of_ascii c) - 48.

Fixpoint digits_value (acc : Z) (s : string) : option Z :=
  match s with
  | EmptyString => Some acc
  | String c rest =>
      if is_digit c then digits_value (10 * acc + digit_value c) rest
      else None
  end.

(** One or more decimal digits. *)
Definition nat_literal (s : string) : option Z :=
  match s with
  | EmptyString => None
  | _ => digits_value 0 s
  end.

(** An optional sign, then one or more decimal digits. *)
Definition int_literal (s : string) : option Z :=
  match s with
  | String "-" rest => Z.opp <$> nat_literal rest
  | String "+" rest => nat_literal rest
  | _ => nat_literal s
  end.

(** [int(x)] for [x] a group of a match: [None] (a group that took no part
    in the match) is a [TypeError], text that is no literal a
    [ValueError]. *)
Definition int {W} (x : option string) : M W Z :=
  match x with
  | None => raise TypeError
  | Some s =>
      match int_literal s with
      | Some z => ret z
      | None => raise (ValueError "invalid literal for int()")
      end
  end.

(** [groups[i]] on the tuple [match.groups()]. *)
Definition item {W A} (groups : list A) (i : nat) : M W A :=
  match groups !! i with
  | Some g => ret g
  | None => raise IndexError
  end.

End Py.

Import Py.
Local Open Scope py_scope.

(** Modelled from the spec: the states of the printer, an enumeration the
    sources import ([States] of [connect_api], [State] of the Connect SDK)
    and do not define.  The spec names [READY], [BUSY], [ERROR] and
    [ATTENTION] as base states and [PRINTING], [PAUSED] and [FINISHING] as
    printing states. *)
Inductive State : Type :=
| READY | BUSY | ERROR | ATTENTION | PRINTING | PAUSED | FINISHING.

#[global] Instance State_eq_dec : EqDecision State.
Proof. solve_decision. Defined.

(** [state.name] *)
Definition State_name (s : State) : string :=
  match s with
  | READY => "READY" | BUSY => "BUSY" | ERROR => "ERROR"
  | ATTENTION => "ATTENTION" | PRINTING => "PRINTING"
  | PAUSED => "PAUSED" | FINISHING => "FINISHING"
  end.

(* ===================================================================== *)
(** ** old_buddy/modules/telemetry_gatherer.py *)
(* ===================================================================== *)

Module OldBuddy.

Abbreviation States := State.

(** Modelled from the spec: the [Telemetry] class of [connect_api], which
    is not among the sources.  The spec makes it a bag of optional fields,
    all unset in a new object; the fields are those the gatherer assigns. *)
Record Telemetry : Type := {
  state : option string;
  temp_nozzle : option float;
  target_nozzle : option float;
  temp_bed : option float;
  target_bed : option float;
  axis_x : option float;
  axis_y : option float;
  axis_z : option float;
  e_fan : option float;
  p_fan : option float;
  printing_time : option Z;
  estimated_time : option Z;
  progress : option Z;
  flow : option Z;
  speed : option Z
}.

(** [Telemetry()] *)
Definition Telemetry_blank : Telemetry :=
  {| state := None; temp_nozzle := None; target_nozzle := None;
     temp_bed := None; target_bed := None; axis_x := None; axis_y := None;
     axis_z := None; e_fan := None; p_fan := None; printing_time := None;
     estimated_time := None; progress := None; flow := None; speed := None |}.

(** Attribute assignment [t.field = v], one function per field. *)
Definition set_state v t :=
  {| state := v; temp_nozzle := temp_nozzle t; target_nozzle := target_nozzle t;
     temp_bed := temp_bed t; target_bed := target_bed t; axis_x := axis_x t;
     axis_y := axis_y t; axis_z := axis_z t; e_fan := e_fan t; p_fan := p_fan t;
     printing_time := printing_time t; estimated_time := estimated_time t;
     progress := progress t; flow := flow t; speed := speed t |}.
Definition set_temp_nozzle v t :=
  {| state := state t; temp_nozzle := v; target_nozzle := target_nozzle t;
     temp_bed := temp_bed t; target_bed := target_bed t; axis_x := axis_x t;
     axis_y := axis_y t; axis_z := axis_z t; e_fan := e_fan t; p_fan := p_fan t;
     printing_time := printing_time t; estimated_time := estimated_time t;
     progress := progress t; flow := flow t; speed := speed t |}.
Definition set_target_nozzle v t :=
  {| state := state t; temp_nozzle := temp_nozzle t; target_nozzle := v;
     temp_bed := temp_bed t; target_bed := target_bed t; axis_x := axis_x t;
     axis_y := axis_y t; axis_z := axis_z t; e_fan := e_fan t; p_fan := p_fan t;
     printing_time := printing_time t; estimated_time := estimated_time t;
     progress := progress t; flow := flow t; speed := speed t |}.
Definition set_temp_bed v t :=
  {| state := state t; temp_nozzle := temp_nozzle t;
     target_nozzle := target_nozzle t; temp_bed := v;
     target_bed := target_bed t; axis_x := axis_x t;
     axis_y := axis_y t; axis_z := axis_z t; e_fan := e_fan t; p_fan := p_fan t;
     printing_time := printing_time t; estimated_time := estimated_time t;
     progress := progress t; flow := flow t; speed := speed t |}.
Definition set_target_bed v t :=
  {| state := state t; temp_nozzle := temp_nozzle t;
     target_nozzle := target_nozzle t; temp_bed := temp_bed t;
     target_bed := v; axis_x := axis_x t;
     axis_y := axis_y t; axis_z := axis_z t; e_fan := e_fan t; p_fan := p_fan t;
     printing_time := printing_time t; estimated_time := estimated_time t;
     progress := progress t; flow := flow t; speed := speed t |}.
Definition set_axis_x v t :=
  {| state := state t; temp_nozzle := temp_nozzle t;
     target_nozzle := target_nozzle t; temp_bed := temp_bed t;
     target_bed := target_bed t; axis_x := v;
     axis_y := axis_y t; axis_z := axis_z t; e_fan := e_fan t; p_fan := p_fan t;
     printing_time := printing_time t; estimated_time := estimated_time t;
     progress := progress t; flow := flow t; speed := speed t |}.
Definition set_axis_y v t :=
  {| state := state t; temp_nozzle := temp_nozzle t;
     target_nozzle := target_nozzle t; temp_bed := temp_bed t;
     target_bed := target_bed t; axis_x := axis_x t;
     axis_y := v; axis_z := axis_z t; e_fan := e_fan t; p_fan := p_fan t;
     printing_time := printing_time t; estimated_time := estimated_time t;
     progress := progress t; flow := flow t; speed := speed t |}.
Definition set_axis_z v t :=
  {| state := state t; temp_nozzle := temp_nozzle t;
     target_nozzle := target_nozzle t; temp_bed := temp_bed t;
     target_bed := target_bed t; axis_x := axis_x t;
     axis_y := axis_y t; axis_z := v; e_fan := e_fan t; p_fan := p_fan t;
     printing_time := printing_time t; estimated_time := estimated_time t;
     progress := progress t; flow := flow t; speed := speed t |}.
Definition set_e_fan v t :=
  {| state := state t; temp_nozzle := temp_nozzle t;
     target_nozzle := target_nozzle t; temp_bed := temp_bed t;
     target_bed := target_bed t; axis_x := axis_x t;
     axis_y := axis_y t; axis_z := axis_z t; e_fan := v; p_fan := p_fan t;
     printing_time := printing_time t; estimated_time := estimated_time t;
     progress := progress t; flow := flow t; speed := speed t |}.
Definition set_p_fan v t :=
  {| state := state t; temp_nozzle := temp_nozzle t;
     target_nozzle := target_nozzle t; temp_bed := temp_bed t;
     target_bed := target_bed t; axis_x := axis_x t;
     axis_y := axis_y t; axis_z := axis_z t; e_fan := e_fan t; p_fan := v;
     printing_time := printing_time t; estimated_time := estimated_time t;
     progress := progress t; flow := flow t; speed := speed t |}.
Definition set_printing_time v t :=
  {| state := state t; temp_nozzle := temp_nozzle t;
     target_nozzle := target_nozzle t; temp_bed := temp_bed t;
     target_bed := target_bed t; axis_x := axis_x t;
     axis_y := axis_y t; axis_z := axis_z t; e_fan := e_fan t; p_fan := p_fan t;
     printing_time := v; estimated_time := estimated_time t;
     progress := progress t; flow := flow t; speed := speed t |}.
Definition set_estimated_time v t :=
  {| state := state t; temp_nozzle := temp_nozzle t;
     target_nozzle := target_nozzle t; temp_bed := temp_bed t;
     target_bed := target_bed t; axis_x := axis_x t;
     axis_y := axis_y t; axis_z := axis_z t; e_fan := e_fan t; p_fan := p_fan t;
     printing_time := printing_time t; estimated_time := v;
     progress := progress t; flow := flow t; speed := speed t |}.
Definition set_progress v t :=
  {| state := state t; temp_nozzle := temp_nozzle t;
     target_nozzle := target_nozzle t; temp_bed := temp_bed t;
     target_bed := target_bed t; axis_x := axis_x t;
     axis_y := axis_y t; axis_z := axis_z t; e_fan := e_fan t; p_fan := p_fan t;
     printing_time := printing_time t; estimated_time := estimated_time t;
     progress := v; flow := flow t; speed := speed t |}.
Definition set_flow v t :=
  {| state := state t; temp_nozzle := temp_nozzle t;
     target_nozzle := target_nozzle t; temp_bed := temp_bed t;
     target_bed := target_bed t; axis_x := axis_x t;
     axis_y := axis_y t; axis_z := axis_z t; e_fan := e_fan t; p_fan := p_fan t;
     printing_time := printing_time t; estimated_time := estimated_time t;
     progress := progress t; flow := v; speed := speed t |}.
Definition set_speed v t :=
  {| state := state t; temp_nozzle := temp_nozzle t;
     target_nozzle := target_nozzle t; temp_bed := temp_bed t;
     target_bed := target_bed t; axis_x := axis_x t;
     axis_y := axis_y t; axis_z := axis_z t; e_fan := e_fan t; p_fan := p_fan t;
     printing_time := printing_time t; estimated_time := estimated_time t;
     progress := progress t; flow := flow t; speed := v |}.

(** References into the two object stores. *)
Definition tref : Type := nat.   (* a [Telemetry] object *)
Definition gref : Type := nat.   (* a [TelemetryGatherer] object *)

(** The attributes the methods keep in a gatherer's own dictionary; [None]
    is an attribute not bound yet.  ([state_manager] and [serial] are
    bound once and reached through the environment below.) *)
Record Gatherer : Type := {
  instance : option gref;
  current_telemetry : option tref;
  last_telemetry : option tref;
  running : option bool
}.

Definition Gatherer_blank : Gatherer :=
  {| instance := None; current_telemetry := None; last_telemetry := None;
     running := None |}.

Definition set_instance v g :=
  {| instance := v; current_telemetry := current_telemetry g;
     last_telemetry := last_telemetry g; running := running g |}.
Definition set_current_telemetry v g :=
  {| instance := instance g; current_telemetry := v;
     last_telemetry := last_telemetry g; running := running g |}.
Definition set_last_telemetry v g :=
  {| instance := instance g; current_telemetry := current_telemetry g;
     last_telemetry := v; running := running g |}.
Definition set_running v g :=
  {| instance := instance g; current_telemetry := current_telemetry g;
     last_telemetry := last_telemetry g; running := v |}.

(** The patterns registered with the serial port, by their names. *)
Inductive Pattern : Type :=
| TEMPERATURE_REGEX | POSITION_REGEX | E_FAN_REGEX | P_FAN_REGEX
| PRINT_TIME_REGEX | PROGRESS_REGEX | TIME_REMAINING_REGEX
| HEATING_REGEX | HEATING_HOTEND_REGEX.

Inductive Level : Type := LOG_DEBUG | LOG_INFO | LOG_WARNING | LOG_ERROR.

(** What a method does to the outside, in the order it does it. *)
Inductive Event : Type :=
| Registered (pattern : Pattern) (handler : string)
    (* serial.register_output_handler(pattern, self.handler) *)
| ThreadStarted (self : gref)
| Sent (self : gref) (telemetry : tref) (snapshot : Telemetry)
    (* send_telemetry_signal.send(self, telemetry=...): the object passed
       and what it held at that moment *)
| Wrote (gcode : string) (raised : option exn)
    (* serial.write(gcode) and the exception it ended with, if any *)
| Logged (level : Level) (msg : string).

Record World : Type := {
  telemetries : list Telemetry;
  gatherers : list Gatherer;
  class_instance : option gref;  (* the class attribute TelemetryGatherer.instance *)
  now : nat;                     (* interactions with the environment so far *)
  trace : list Event
}.

Definition set_telemetries v w :=
  {| telemetries := v; gatherers := gatherers w;
     class_instance := class_instance w; now := now w; trace := trace w |}.
Definition set_gatherers v w :=
  {| telemetries := telemetries w; gatherers := v;
     class_instance := class_instance w; now := now w; trace := trace w |}.
Definition set_now v w :=
  {| telemetries := telemetries w; gatherers := gatherers w;
     class_instance := class_instance w; now := v; trace := trace w |}.
Definition set_trace v w :=
  {| telemetries := telemetries w; gatherers := gatherers w;
     class_instance := class_instance w; now := now w; trace := v |}.

(** The module as loaded: no object yet, [instance = None] in the class. *)
Definition World_initial : World :=
  {| telemetries := []; gatherers := []; class_instance := None;
     now := 0%nat; trace := [] |}.

(** What the gatherer cannot decide: the state manager's answers and the
    serial port's, each at the moment of asking. *)
Record Env : Type := {
  env_get_state : nat -> States;           (* state_manager.get_state() *)
  env_base_state : nat -> States;          (* state_manager.base_state *)
  env_write : nat -> string -> option exn  (* what serial.write(gcode) raises *)
}.

Definition TELEMETRY_GCODES : list string :=
  ["M105"; "M114"; "PRUSA FAN"; "M27"; "M73"].

(** [match.groups()] *)
Definition Match : Type := list (option string).

(** *** The methods of [TelemetryGatherer] *)

Section Methods.

Variable env : Env.
(** [PRINTING_STATES] of [state_manager], a constant the sources import. *)
Variable PRINTING_STATES : list States.
(** The built-in [float(s)]; [None] where it raises [ValueError]. *)
Variable py_float : string -> option float.

Definition Meth (A : Type) : Type := M World A.

Definition emit (e : Event) : Meth unit :=
  modify (fun w => set_trace (trace w ++ [e]) w).

(** One more question to the environment; answers its number. *)
Definition tick : Meth nat :=
  w <- get;; modify (set_now (S (now w)));;; ret (now w).

Definition log_debug (msg : string) : Meth unit := emit (Logged LOG_DEBUG msg).

(** [self.state_manager.get_state()] *)
Definition state_manager_get_state : Meth States :=
  n <- tick;; ret (env_get_state env n).

(** [self.state_manager.base_state] *)
Definition state_manager_base_state : Meth States :=
  n <- tick;; ret (env_base_state env n).

(** [self.serial.write(gcode)] *)
Definition serial_write (gcode : string) : Meth unit :=
  n <- tick;;
  let r := env_write env n gcode in
  emit (Wrote gcode r);;;
  match r with
  | None => ret tt
  | Some e => raise e
  end.

(** [float(x)] for [x] a group of a match. *)
Definition float_ (x : option string) : Meth float :=
  match x with
  | None => raise TypeError
  | Some s =>
      match py_float s with
      | Some f => ret f
      | None => raise (ValueError "could not convert string to float")
      end
  end.

(** Reading and writing the objects behind references. *)
Definition load_gatherer (self : gref) : Meth Gatherer :=
  w <- get;; of_option (gatherers w !! self).

Definition store_gatherer (self : gref) (g : Gatherer) : Meth unit :=
  modify (fun w => set_gatherers (<[self := g]> (gatherers w)) w).

Definition load_telemetry (t : tref) : Meth Telemetry :=
  w <- get;; of_option (telemetries w !! t).

Definition store_telemetry (t : tref) (v : Telemetry) : Meth unit :=
  modify (fun w => set_telemetries (<[t := v]> (telemetries w)) w).

(** [Telemetry()]: a new object, every field unset. *)
Definition Telemetry_new : Meth tref :=
  w <- get;;
  modify (set_telemetries (telemetries w ++ [Telemetry_blank]));;;
  ret (length (telemetries w)).

(** [self.current_telemetry] *)
Definition self_current_telemetry (self : gref) : Meth tref :=
  g <- load_gatherer self;;
  match current_telemetry g with
  | Some t => ret t
  | None => raise (AttributeError "current_telemetry")
  end.

(** [self.instance]: the object's own attribute when bound, the class
    attribute otherwise. *)
Definition self_instance (self : gref) : Meth (option gref) :=
  g <- load_gatherer self;;
  match instance g with
  | Some i => ret (Some i)
  | None => w <- get;; ret (class_instance w)
  end.

(** [self.attr = v] *)
Definition setattr_self (self : gref) (f : Gatherer -> Gatherer) : Meth unit :=
  g <- load_gatherer self;; store_gatherer self (f g).

(** [self.current_telemetry.field = v] *)
Definition setattr_current (self : gref) (f : Telemetry -> Telemetry)
  : Meth unit :=
  t <- self_current_telemetry self;;
  v <- load_telemetry t;;
  store_telemetry t (f v).

Definition register_output_handler (p : Pattern) (handler : string)
  : Meth unit :=
  emit (Registered p handler).

(** [TelemetryGatherer.__init__], on the new object [self]. *)
Definition __init__ (self : gref) : Meth unit :=
  i <- self_instance self;;
  match i with
  | Some _ =>
      raise (AssertionError
        "If this is required, we need the signals moved from class to instance variables.")
  | None =>
      setattr_self self (set_instance (Some self));;;
      register_output_handler TEMPERATURE_REGEX "temperature_handler";;;
      register_output_handler POSITION_REGEX "position_handler";;;
      register_output_handler E_FAN_REGEX "e_fan_handler";;;
      register_output_handler P_FAN_REGEX "p_fan_handler";;;
      register_output_handler PRINT_TIME_REGEX "print_time_handler";;;
      register_output_handler PROGRESS_REGEX "progress_handler";;;
      register_output_handler TIME_REMAINING_REGEX "time_remaining_handler";;;
      register_output_handler HEATING_REGEX "heating_handler";;;
      register_output_handler HEATING_HOTEND_REGEX "heating_hotend_handler";;;
      t <- Telemetry_new;;
      setattr_self self (set_current_telemetry (Some t));;;
      t' <- self_current_telemetry self;;
      setattr_self self (set_last_telemetry (Some t'));;;
      setattr_self self (set_running (Some true));;;
      emit (ThreadStarted self)
  end.

(** [TelemetryGatherer(serial, state_manager)]: a new object with an empty
    dictionary, handed to [__init__]. *)
Definition TelemetryGatherer_new : Meth gref :=
  w <- get;;
  let self := length (gatherers w) in
  modify (set_gatherers (gatherers w ++ [Gatherer_blank]));;;
  __init__ self;;;
  ret self.

Definition send_telemetry (self : gref) : Meth unit :=
  state <- state_manager_get_state;;
  setattr_current self (set_state (Some (State_name state)));;;
  (if bool_decide (state ∈ PRINTING_STATES) then ret tt
   else
     setattr_current self (set_printing_time None);;;
     setattr_current self (set_estimated_time None);;;
     setattr_current self (set_progress None));;;
  (if bool_decide (state = PRINTING) then
     setattr_current self (set_axis_x None);;;
     setattr_current self (set_axis_y None)
   else ret tt);;;
  t <- self_current_telemetry self;;
  v <- load_telemetry t;;
  emit (Sent self t v).

Definition ping_printer (self : gref) : Meth unit :=
  try_except (serial_write "PRUSA PING")
    (fun e => match e with
              | WriteIgnored => Some (ret tt)
              | _ => None
              end).

(** The [for gcode in TELEMETRY_GCODES] loop; [break] leaves it. *)
Fixpoint query_loop (gcodes : list string) : Meth unit :=
  match gcodes with
  | [] => ret tt
  | gcode :: rest =>
      b <- state_manager_base_state;;
      if bool_decide (b = BUSY) then ret tt
      else
        try_except (serial_write gcode)
          (fun e => match e with
                    | WriteIgnored =>
                        Some (log_debug
                          "Telemetry request got ignored, serial is exclusive for something else")
                    | _ => None
                    end);;;
        query_loop rest
  end.

Definition update_telemetry (self : gref) : Meth unit :=
  send_telemetry self;;;
  t <- self_current_telemetry self;;
  setattr_self self (set_last_telemetry (Some t));;;
  t' <- Telemetry_new;;
  setattr_self self (set_current_telemetry (Some t'));;;
  b <- state_manager_base_state;;
  (if bool_decide (b = BUSY) then
     log_debug "Printer seems busy, not asking for telemetry";;;
     ping_printer self
   else ret tt);;;
  query_loop TELEMETRY_GCODES.

(** The output handlers; [groups] is [match.groups()]. *)

Definition temperature_handler (self : gref) (groups : Match) : Meth unit :=
  g0 <- item groups 0;; v0 <- float_ g0;;
  setattr_current self (set_temp_nozzle (Some v0));;;
  g1 <- item groups 1;; v1 <- float_ g1;;
  setattr_current self (set_target_nozzle (Some v1));;;
  g2 <- item groups 2;; v2 <- float_ g2;;
  setattr_current self (set_temp_bed (Some v2));;;
  g3 <- item groups 3;; v3 <- float_ g3;;
  setattr_current self (set_target_bed (Some v3)).

Definition position_handler (self : gref) (groups : Match) : Meth unit :=
  g4 <- item groups 4;; v4 <- float_ g4;;
  setattr_current self (set_axis_x (Some v4));;;
  g5 <- item groups 5;; v5 <- float_ g5;;
  setattr_current self (set_axis_y (Some v5));;;
  g6 <- item groups 6;; v6 <- float_ g6;;
  setattr_current self (set_axis_z (Some v6)).

Definition e_fan_handler (self : gref) (groups : Match) : Meth unit :=
  g0 <- item groups 0;; v0 <- float_ g0;;
  setattr_current self (set_e_fan (Some v0)).

Definition p_fan_handler (self : gref) (groups : Match) : Meth unit :=
  g0 <- item groups 0;; v0 <- float_ g0;;
  setattr_current self (set_p_fan (Some v0)).

Definition print_time_handler (self : gref) (groups : Match) : Meth unit :=
  g1 <- item groups 1;;
  match g1 with
  | None | Some "" => ret tt
  | Some _ =>
      g2 <- item groups 2;; printing_time_hours <- int g2;;
      g3 <- item groups 3;; printing_time_mins <- int g3;;
      let printing_time_sec :=
        printing_time_mins * 60 + printing_time_hours * 60 * 60 in
      setattr_current self (set_printing_time (Some printing_time_sec))
  end.

Definition progress_handler (self : gref) (groups : Match) : Meth unit :=
  g0 <- item groups 0;;
  progress <- int g0;;
  if (0 <=? progress) && (progress <=? 100) then
    setattr_current self (set_progress (Some progress))
  else ret tt.

Definition time_remaining_handler (self : gref) (groups : Match) : Meth unit :=
  g1 <- item groups 1;;
  mins_remaining <- int g1;;
  let secs_remaining := mins_remaining * 60 in
  if 0 <=? mins_remaining then
    setattr_current self (set_estimated_time (Some secs_remaining))
  else ret tt.

Definition flow_rate_handler (self : gref) (groups : Match) : Meth unit :=
  g0 <- item groups 0;;
  flow <- int g0;;
  if (0 <=? flow) && (flow <=? 100) then
    setattr_current self (set_flow (Some flow))
  else ret tt.

Definition speed_multiplier_handler (self : gref) (groups : Match)
  : Meth unit :=
  g0 <- item groups 0;;
  speed <- int g0;;
  if (0 <=? speed) && (speed <=? 100) then
    setattr_current self (set_speed (Some speed))
  else ret tt.

Definition heating_handler (self : gref) (groups : Match) : Meth unit :=
  g0 <- item groups 0;; v0 <- float_ g0;;
  setattr_current self (set_temp_nozzle (Some v0));;;
  g1 <- item groups 1;; v1 <- float_ g1;;
  setattr_current self (set_temp_bed (Some v1)).

Definition heating_hotend_handler (self : gref) (groups : Match)
  : Meth unit :=
  g0 <- item groups 0;; v0 <- float_ g0;;
  setattr_current self (set_temp_nozzle (Some v0)).

End Methods.

(** *** Reading the stores and the trace *)

(** The serial port calls the handler registered for the pattern a line
    matched: the pairs of [__init__]. *)
Definition dispatch (py_float : string -> option float) (p : Pattern)
    (self : gref) (groups : Match) : M World unit :=
  match p with
  | TEMPERATURE_REGEX => temperature_handler py_float self groups
  | POSITION_REGEX => position_handler py_float self groups
  | E_FAN_REGEX => e_fan_handler py_float self groups
  | P_FAN_REGEX => p_fan_handler py_float self groups
  | PRINT_TIME_REGEX => print_time_handler self groups
  | PROGRESS_REGEX => progress_handler self groups
  | TIME_REMAINING_REGEX => time_remaining_handler self groups
  | HEATING_REGEX => heating_handler py_float self groups
  | HEATING_HOTEND_REGEX => heating_hotend_handler py_float self groups
  end.

(** Matched lines arriving one after the other; a handler that raises
    leaves the store as it was when it raised. *)
Fixpoint dispatch_all (py_float : string -> option float)
    (lines : list (Pattern * Match)) (self : gref) (w : World) : World :=
  match lines with
  | [] => w
  | (p, groups) :: rest =>
      dispatch_all py_float rest self (snd (dispatch py_float p self groups w))
  end.

(** The gatherer [self] has [c] for its current telemetry, an object that
    holds [t]. *)
Definition current_is (self : gref) (c : tref) (t : Telemetry) (w : World)
  : Prop :=
  exists g, gatherers w !! self = Some g /\ current_telemetry g = Some c /\
            telemetries w !! c = Some t.

(** [self.last_telemetry] is the object [l], which holds [t]. *)
Definition last_is (self : gref) (l : tref) (t : Telemetry) (w : World)
  : Prop :=
  exists g, gatherers w !! self = Some g /\ last_telemetry g = Some l /\
            telemetries w !! l = Some t.

(** The lines handed to [serial.write], in order. *)
Definition written (evs : list Event) : list string :=
  omap (fun e => match e with Wrote gcode _ => Some gcode | _ => None end) evs.

(** The lines the port refused with [WriteIgnored]. *)
Definition refused (evs : list Event) : list string :=
  omap (fun e => match e with
                 | Wrote gcode (Some WriteIgnored) => Some gcode
                 | _ => None
                 end) evs.

(** The levels of the log records. *)
Definition log_levels (evs : list Event) : list Level :=
  omap (fun e => match e with Logged l _ => Some l | _ => None end) evs.

(** The snapshots sent out. *)
Definition published (evs : list Event) : list (tref * Telemetry) :=
  omap (fun e => match e with Sent _ t v => Some (t, v) | _ => None end) evs.

(** What [send_telemetry] leaves in the object it sends, from what the
    object held and the state read. *)
Definition gated (PRINTING_STATES : list States) (s : States)
    (t : Telemetry) : Telemetry :=
  let t1 := set_state (Some (State_name s)) t in
  let t2 := if bool_decide (s ∈ PRINTING_STATES) then t1
            else set_progress None
                   (set_estimated_time None (set_printing_time None t1)) in
  if bool_decide (s = PRINTING) then set_axis_y None (set_axis_x None t2)
  else t2.

(** The rule as the specification words it: while printing, every position
    field is unset. *)
Definition position_unset (t : Telemetry) : Prop :=
  axis_x t = None /\ axis_y t = None /\ axis_z t = None.

Definition job_fields_unset (t : Telemetry) : Prop :=
  printing_time t = None /\ estimated_time t = None /\ progress t = None.

(** The rule as claimed, for one call of [send_telemetry]: whatever it
    sends has the job fields unset outside the printing states and every
    position field unset while printing. *)
Definition gating_as_claimed (env : Env) (PRINTING_STATES : list States)
    (self : gref) (w : World) : Prop :=
  forall c v,
    published (drop (length (trace w))
                 (trace (snd (send_telemetry env PRINTING_STATES self w))))
      = [(c, v)] ->
    (env_get_state env (now w) ∉ PRINTING_STATES -> job_fields_unset v) /\
    (env_get_state env (now w) = PRINTING -> position_unset v).

(** The part of [update_telemetry] that talks to the printer, after the
    two snapshots changed places. *)
Definition ask_printer (env : Env) (self : gref) : M World unit :=
  b <- state_manager_base_state env;;
  (if bool_decide (b = BUSY) then
     log_debug "Printer seems busy, not asking for telemetry";;;
     ping_printer env self
   else ret tt);;;
  query_loop env TELEMETRY_GCODES.

(** The write either goes through or is refused with [WriteIgnored]. *)
Definition taken_or_ignored (r : option exn) : Prop :=
  r = None \/ r = Some WriteIgnored.

(** What a handler may do to the stores: write into the object that is the
    current telemetry of [self], and nothing else. *)
Definition touches_current (self : gref) (w w' : World) : Prop :=
  gatherers w' = gatherers w /\ trace w' = trace w /\
  length (telemetries w') = length (telemetries w) /\
  forall l,
    (forall g, gatherers w !! self = Some g -> current_telemetry g <> Some l) ->
    telemetries w' !! l = telemetries w !! l.

(** What talking to the printer may do: add to the trace, and send no
    snapshot. *)
Definition talks_only (w w' : World) : Prop :=
  telemetries w' = telemetries w /\ gatherers w' = gatherers w /\
  exists evs, trace w' = trace w ++ evs /\ published evs = [].

(** The stores after a stretch of talking to the printer that added [evs]
    to the trace. *)
Definition talked (w w' : World) (evs : list Event) : Prop :=
  telemetries w' = telemetries w /\ gatherers w' = gatherers w /\
  class_instance w' = class_instance w /\ trace w' = trace w ++ evs.

(** *** Environments and stores to run the methods on *)

Definition SAMPLE_PRINTING_STATES : list States := [PRINTING; PAUSED; FINISHING].

(** The state manager answers [s] to everything; the port takes every line. *)
Definition env_steady (s : States) : Env :=
  {| env_get_state := fun _ => s; env_base_state := fun _ => s;
     env_write := fun _ _ => None |}.

(** The same, the port refusing every line. *)
Definition env_refusing (s : States) : Env :=
  {| env_get_state := fun _ => s; env_base_state := fun _ => s;
     env_write := fun _ _ => Some WriteIgnored |}.

(** The printer turns [BUSY] at the [k]-th question of the cycle. *)
Definition env_busy_from (k : nat) : Env :=
  {| env_get_state := fun _ => READY;
     env_base_state := fun n => if (k <=? n)%nat then BUSY else READY;
     env_write := fun _ _ => None |}.

(** One gatherer, constructed in the module as loaded. *)
Definition world_one : World := snd (TelemetryGatherer_new World_initial).

(** [world_one] after a position line and a progress line came in. *)
Definition telemetry_filled : Telemetry :=
  set_progress (Some 40)
    (set_axis_z (Some 0.25%float)
       (set_axis_y (Some 20%float)
          (set_axis_x (Some 10%float) Telemetry_blank))).

Definition world_filled : World := set_telemetries [telemetry_filled] world_one.

(** A stand-in for [float] that reads every text as one. *)
Definition float_one (s : string) : option float := Some 1%float.

(** The gatherer of [world_one], once constructed. *)
Definition gatherer_one : Gatherer :=
  {| instance := Some 0%nat; current_telemetry := Some 0%nat;
     last_telemetry := Some 0%nat; running := Some true |}.

(** *** More vocabulary: fields, whole cycles, failing ports *)

(** The fields no registered handler assigns: the state name, and the flow
    and speed whose handlers [__init__] never registers. *)
Definition unhandled_fields (t : Telemetry)
  : option string * option Z * option Z :=
  (state t, flow t, speed t).

(** Every telemetry object of [w] is still there in [w'], with the same
    unhandled fields; the gatherers are as they were. *)
Definition keeps_unhandled (w w' : World) : Prop :=
  gatherers w' = gatherers w /\
  forall l t, telemetries w !! l = Some t ->
    exists t', telemetries w' !! l = Some t' /\
               unhandled_fields t' = unhandled_fields t.

(** The events a run added to the trace. *)
Definition new_events (w w' : World) : list Event :=
  drop (length (trace w)) (trace w').

(** The port fails every write with an error that is no [WriteIgnored];
    nothing is busy. *)
Definition env_failing : Env :=
  {| env_get_state := fun _ => READY; env_base_state := fun _ => READY;
     env_write := fun _ _ => Some (OtherError "SerialException") |}.

(** The nine registrations of [__init__], in its order. *)
Definition REGISTRATIONS : list Event :=
  [Registered TEMPERATURE_REGEX "temperature_handler";
   Registered POSITION_REGEX "position_handler";
   Registered E_FAN_REGEX "e_fan_handler";
   Registered P_FAN_REGEX "p_fan_handler";
   Registered PRINT_TIME_REGEX "print_time_handler";
   Registered PROGRESS_REGEX "progress_handler";
   Registered TIME_REMAINING_REGEX "time_remaining_handler";
   Registered HEATING_REGEX "heating_handler";
   Registered HEATING_HOTEND_REGEX "heating_hotend_handler"].

(** A gatherer as [__init__] leaves it, its two snapshots one object. *)
Definition Gatherer_started (self : gref) (t : tref) : Gatherer :=
  {| instance := Some self; current_telemetry := Some t;
     last_telemetry := Some t; running := Some true |}.

End OldBuddy.

(* ===================================================================== *)
(** ** prusa/link/printer_adapter/informers/getters.py *)
(* ===================================================================== *)

Module Getters.

(** [match.groups()] *)
Definition Match : Type := list (option string).

(** The two members of the SDK's [PrinterType] the table names. *)
Inductive PrinterType : Type := I3MK3 | I3MK3S.

(** The matchers of [structures.regular_expressions], by their names. *)
Inductive Regex : Type := PRINTER_TYPE_REGEX | FW_REGEX | NOZZLE_REGEX.

Definition PRINTER_TYPES (code : Z) : option PrinterType :=
  if code =? 300 then Some I3MK3
  else if code =? 20300 then Some I3MK3
  else if code =? 302 then Some I3MK3S
  else if code =? 20302 then Some I3MK3S
  else None.

(** *** [distutils.version.StrictVersion] *)

Record StrictVersion : Type := {
  version : Z * Z * Z;
  prerelease : option (ascii * Z)
}.

(** The longest prefix of decimal digits, as its value, and the rest;
    [None] when there is no digit. *)
Fixpoint digits_rest (acc : Z) (seen : bool) (s : string)
  : option (Z * string) :=
  match s with
  | String c rest =>
      if is_digit c then digits_rest (10 * acc + digit_value c) true rest
      else if seen then Some (acc, s) else None
  | EmptyString => if seen then Some (acc, s) else None
  end.

Definition number (s : string) : option (Z * string) := digits_rest 0 false s.

(** [$]: the end of the text, or a last line feed. *)
Definition at_end (s : string) : bool :=
  match s with
  | EmptyString => true
  | String c EmptyString => bool_decide (c = "010"%char)
  | _ => false
  end.

(** The tail [([ab](\d+))?$] of the version pattern. *)
Definition parse_prerelease (s : string) : option (option (ascii * Z)) :=
  if at_end s then Some None
  else
    match s with
    | String c rest =>
        if bool_decide (c = "a"%char) || bool_decide (c = "b"%char) then
          match number rest with
          | Some (n, rest') => if at_end rest' then Some (Some (c, n)) else None
          | None => None
          end
        else None
    | EmptyString => None
    end.

(** A dot at the head of the text, and what follows it. *)
Definition dot_rest (s : string) : option string :=
  match s with
  | String c rest => if bool_decide (c = "."%char) then Some rest else None
  | EmptyString => None
  end.

(** [StrictVersion.parse]: [^(\d+) \. (\d+) (\. (\d+))? ([ab](\d+))?$],
    verbose; [None] where it raises [ValueError]. *)
Definition StrictVersion_parse (s : string) : option StrictVersion :=
  '(major, s0) ← number s;
  s1 ← dot_rest s0;
  '(minor, s2) ← number s1;
  match dot_rest s2 with
  | Some s3 =>
      '(patch, s4) ← number s3;
      pre ← parse_prerelease s4;
      Some {| version := (major, minor, patch); prerelease := pre |}
  | None =>
      pre ← parse_prerelease s2;
      Some {| version := (major, minor, 0); prerelease := pre |}
  end.

Definition tuple3_ltb (a b : Z * Z * Z) : bool :=
  let '(a1, a2, a3) := a in
  let '(b1, b2, b3) := b in
  (a1 <? b1) || ((a1 =? b1) && ((a2 <? b2) || ((a2 =? b2) && (a3 <? b3)))).

Definition tuple3_eqb (a b : Z * Z * Z) : bool :=
  let '(a1, a2, a3) := a in
  let '(b1, b2, b3) := b in
  (a1 =? b1) && (a2 =? b2) && (a3 =? b3).

Definition pre_ltb (a b : ascii * Z) : bool :=
  let n1 := nat_of_ascii (fst a) in
  let n2 := nat_of_ascii (fst b) in
  (n1 <? n2)%nat || ((n1 =? n2)%nat && (snd a <? snd b)).

Definition pre_eqb (a b : ascii * Z) : bool :=
  (nat_of_ascii (fst a) =? nat_of_ascii (fst b))%nat && (snd a =? snd b).

(** [StrictVersion._cmp] *)
Definition StrictVersion_cmp (a b : StrictVersion) : Z :=
  if negb (tuple3_eqb (version a) (version b)) then
    if tuple3_ltb (version a) (version b) then -1 else 1
  else
    match prerelease a, prerelease b with
    | None, None => 0
    | Some _, None => -1
    | None, Some _ => 1
    | Some p, Some q =>
        if pre_eqb p q then 0 else if pre_ltb p q then -1 else 1
    end.

(** [a >= b] *)
Definition StrictVersion_ge (a b : StrictVersion) : bool :=
  0 <=? StrictVersion_cmp a b.

(** *** The serial queue *)

(** Modelled from the spec: the [Instruction] of the serial queue, which is
    not among the sources: its sequence id, the line to send, the matcher
    and the tier. *)
Record Instruction : Type := {
  seq_id : nat;
  payload : string;
  matcher : option Regex;
  front : bool
}.

#[global] Instance Regex_eq_dec : EqDecision Regex.
Proof. solve_decision. Defined.

#[global] Instance Instruction_eq_dec : EqDecision Instruction.
Proof. solve_decision. Defined.

(** Modelled from the spec: the state of [SerialQueue], which is not among
    the sources: two tiers of pending instructions, each in the order of
    arrival, the instructions the scheduling loop has taken out of the
    tiers and sent, in the order it sent them, and the write-exclusivity
    flag. *)
Record SerialQueue : Type := {
  front_tier : list Instruction;
  normal_tier : list Instruction;
  sent : list Instruction;
  exclusive : bool;
  next_id : nat
}.

(** Modelled from the spec: [enqueue(instruction, to_front)], which is not
    among the sources: refused with [WriteIgnored] while write-exclusivity
    is held, else appended to its tier. *)
Definition enqueue (q : SerialQueue) (i : Instruction) (to_front : bool)
  : option SerialQueue :=
  if exclusive q then None
  else if to_front then
    Some {| front_tier := front_tier q ++ [i]; normal_tier := normal_tier q;
            sent := sent q; exclusive := exclusive q;
            next_id := S (next_id q) |}
  else
    Some {| front_tier := front_tier q; normal_tier := normal_tier q ++ [i];
            sent := sent q; exclusive := exclusive q;
            next_id := S (next_id q) |}.

(** Modelled from the spec: the instruction the scheduling loop sends
    next, the oldest of the front tier and, that tier empty, the oldest of
    the normal one. *)
Definition next_to_send (q : SerialQueue) : option Instruction :=
  match front_tier q with
  | i :: _ => Some i
  | [] => head (normal_tier q)
  end.

(** Modelled from the spec: one turn of the scheduling loop.  It idles
    while write-exclusivity is held and while nothing is pending; else it
    pops the instruction to send next out of its tier and sends it. *)
Definition pop (q : SerialQueue) : SerialQueue :=
  if exclusive q then q
  else
    match front_tier q, normal_tier q with
    | i :: rest, _ =>
        {| front_tier := rest; normal_tier := normal_tier q;
           sent := sent q ++ [i]; exclusive := exclusive q;
           next_id := next_id q |}
    | [], i :: rest =>
        {| front_tier := []; normal_tier := rest;
           sent := sent q ++ [i]; exclusive := exclusive q;
           next_id := next_id q |}
    | [], [] => q
    end.

(** [n] turns of the loop. *)
Fixpoint pop_n (n : nat) (q : SerialQueue) : SerialQueue :=
  match n with
  | O => q
  | S n' => pop_n n' (pop q)
  end.

(** The place of an instruction in a tier. *)
Fixpoint position (i : Instruction) (tier : list Instruction) : option nat :=
  match tier with
  | [] => None
  | j :: rest =>
      if bool_decide (j = i) then Some O else S <$> position i rest
  end.

(** The turns of the loop it takes until the pending instruction [i] has
    been sent: the front tier goes first. *)
Definition turns_to_send (i : Instruction) (q : SerialQueue) : nat :=
  match position i (front_tier q) with
  | Some k => S k
  | None =>
      match position i (normal_tier q) with
      | Some k => (length (front_tier q) + S k)%nat
      | None => O
      end
  end.

(** A call of one of the helpers of [serial.helpers], with its
    arguments. *)
Inductive Call : Type :=
| EnqueueMatchable (message : string) (regex : Regex) (to_front : bool)
| EnqueueInstruction (message : string) (to_front : bool)
| WaitFor (i : Instruction).

Record World : Type := {
  serial_queue : SerialQueue;
  ID_ok : bool;      (* errors.ID.ok *)
  FW_ok : bool;      (* errors.FW.ok *)
  calls : list Call
}.

Definition set_serial_queue v w :=
  {| serial_queue := v; ID_ok := ID_ok w; FW_ok := FW_ok w; calls := calls w |}.
Definition set_ID_ok v w :=
  {| serial_queue := serial_queue w; ID_ok := v; FW_ok := FW_ok w;
     calls := calls w |}.
Definition set_FW_ok v w :=
  {| serial_queue := serial_queue w; ID_ok := ID_ok w; FW_ok := v;
     calls := calls w |}.
Definition set_calls v w :=
  {| serial_queue := serial_queue w; ID_ok := ID_ok w; FW_ok := FW_ok w;
     calls := v |}.

Section Functions.

(** [instruction.match()] once [wait_for_instruction] has returned: the
    groups of the match, or [None]. *)
Variable instruction_match : Instruction -> option Match.
(** The turns the scheduling loop, which runs beside the caller, has taken
    by the time [wait_for_instruction] returns for the instruction. *)
Variable loop_turns : Instruction -> nat.
(** [StrictVersion(SUPPORTED_FIRMWARE)], of a constant the sources import. *)
Variable MINIMAL_FIRMWARE : StrictVersion.
(** The built-in [float(s)]; [None] where it raises [ValueError]. *)
Variable py_float : string -> option float.

Definition Fn (A : Type) : Type := M World A.

Definition call (c : Call) : Fn unit :=
  modify (fun w => set_calls (calls w ++ [c]) w).

Definition submit (i : Instruction) (to_front : bool) : Fn Instruction :=
  w <- get;;
  match enqueue (serial_queue w) i to_front with
  | Some q => modify (set_serial_queue q);;; ret i
  | None => raise WriteIgnored
  end.

(** Modelled from the spec: [enqueue_matchable(queue, message, regex,
    to_front)] of [serial.helpers], which is not among the sources: makes
    the instruction, enqueues it and answers it. *)
Definition enqueue_matchable (message : string) (regex : Regex)
    (to_front : bool) : Fn Instruction :=
  call (EnqueueMatchable message regex to_front);;;
  w <- get;;
  submit {| seq_id := next_id (serial_queue w); payload := message;
            matcher := Some regex; front := to_front |} to_front.

(** Modelled from the spec: [enqueue_instruction(queue, message, to_front)]
    of [serial.helpers], the same without a matcher. *)
Definition enqueue_instruction (message : string) (to_front : bool)
  : Fn Instruction :=
  call (EnqueueInstruction message to_front);;;
  w <- get;;
  submit {| seq_id := next_id (serial_queue w); payload := message;
            matcher := None; front := to_front |} to_front.

(** The turns of the loop during the wait for [i] on the queue [q]: those
    it has taken by the return, and, when [i] holds a match by then, no
    fewer than it takes to send [i]: an instruction is given lines to match
    only once it has been popped and sent. *)
Definition turns_waited (i : Instruction) (q : SerialQueue) : nat :=
  Nat.max (loop_turns i)
    match instruction_match i with
    | Some _ => turns_to_send i q
    | None => O
    end.

(** Modelled from the spec: [wait_for_instruction(instruction,
    should_wait)] of [serial.helpers], which is not among the sources:
    taken to return, because the instruction was resolved or because
    [should_wait] gave up.  The scheduling loop has run meanwhile; what the
    instruction holds by then is [instruction_match]. *)
Definition wait_for_instruction (i : Instruction) : Fn unit :=
  call (WaitFor i);;;
  modify (fun w =>
            set_serial_queue
              (pop_n (turns_waited i (serial_queue w)) (serial_queue w)) w).

Definition float_ (x : option string) : Fn float :=
  match x with
  | None => raise TypeError
  | Some s =>
      match py_float s with
      | Some f => ret f
      | None => raise (ValueError "could not convert string to float")
      end
  end.

(** [StrictVersion(vstring) >= MINIMAL_FIRMWARE].  The constructor parses
    only a text that is not empty; an object that parsed nothing has no
    [version] to compare. *)
Definition supported (vstring : option string) : Fn bool :=
  match vstring with
  | None | Some "" => raise (AttributeError "version")
  | Some s =>
      match StrictVersion_parse s with
      | Some v => ret (StrictVersion_ge v MINIMAL_FIRMWARE)
      | None => raise (ValueError "invalid version number")
      end
  end.

Definition get_printer_type : Fn PrinterType :=
  instruction <- enqueue_matchable "M862.2 Q" PRINTER_TYPE_REGEX true;;
  wait_for_instruction instruction;;;
  match instruction_match instruction with
  | None =>
      modify (set_ID_ok false);;;
      raise (RuntimeError "Printer responded with something unexpected")
  | Some groups =>
      g0 <- item groups 0;;
      code <- int g0;;
      modify (set_ID_ok true);;;
      match PRINTER_TYPES code with
      | Some t => ret t
      | None =>
          modify (set_ID_ok false);;;
          enqueue_instruction "M117 Unsupported printer" true;;;
          raise (RuntimeError
                   ("Unsupported printer model '" +:+ pretty code +:+ "'"))
      end
  end.

Definition get_firmware_version : Fn (option string) :=
  instruction <- enqueue_matchable "M115" FW_REGEX true;;
  wait_for_instruction instruction;;;
  match instruction_match instruction with
  | None => raise (RuntimeError "Printer responded with something unexpected")
  | Some groups =>
      firmware_version <- item groups 0;;
      ok <- supported firmware_version;;
      modify (set_FW_ok ok);;;
      ret firmware_version
  end.

Definition get_nozzle_diameter : Fn float :=
  instruction <- enqueue_matchable "M862.1 Q" NOZZLE_REGEX true;;
  wait_for_instruction instruction;;;
  match instruction_match instruction with
  | None => raise (RuntimeError "Printer responded with something unexpected")
  | Some groups =>
      g0 <- item groups 0;;
      float_ g0
  end.

End Functions.

(** Modelled from the spec: what the firmware-version matcher captures,
    [(\d+\.\d+)]: digits, a dot, digits. *)
Definition fw_capture (s : string) : bool :=
  match number s with
  | Some (_, s0) =>
      match dot_rest s0 with
      | Some s1 =>
          match number s1 with
          | Some (_, EmptyString) => true
          | _ => false
          end
      | None => false
      end
  | None => false
  end.

(** *** Reading the calls and the queue *)

(** The [to_front] argument of a call that enqueues. *)
Definition to_front_of (c : Call) : option bool :=
  match c with
  | EnqueueMatchable _ _ b => Some b
  | EnqueueInstruction _ b => Some b
  | WaitFor _ => None
  end.

(** The instruction a probe makes of its line and matcher, in the queue
    [q]. *)
Definition probe (message : string) (regex : Regex) (q : SerialQueue)
  : Instruction :=
  {| seq_id := next_id q; payload := message; matcher := Some regex;
     front := true |}.

(** The order of sending: the instructions sent, then those of the front
    tier, which go before any of the normal tier. *)
Definition sending_order (q : SerialQueue) : list Instruction :=
  sent q ++ front_tier q.

(** What the loop and an enqueue to the front do to a queue: nothing joins
    the normal tier, which only loses the instructions the loop sends, and
    the order of sending grows at its end. *)
Definition sends_on (q q' : SerialQueue) : Prop :=
  exclusive q' = exclusive q /\
  (exists n, normal_tier q' = drop n (normal_tier q)) /\
  (exists more, sending_order q' = sending_order q ++ more).

(** What a getter does after its first call: it enqueues to the front
    only, while the loop sends. *)
Definition fronts_only (w w' : World) : Prop :=
  sends_on (serial_queue w) (serial_queue w') /\
  (exists rest,
     calls w' = calls w ++ rest /\
     Forall (fun c => to_front_of c <> Some false) rest).

(** The getter [f] is a probe for [message] and [regex]: in every store its
    first call enqueues that line with that matcher to the front, and no
    later call of it enqueues to the normal tier.  With write-exclusivity
    free, by the return of the getter nothing has joined the normal tier,
    and in the order of sending the instruction comes right behind the
    front instructions that were pending at the call: whatever has been
    sent or enqueued since, any instruction of the normal tier among it,
    comes behind the probe.  With no other front instruction pending, the
    instruction is, once enqueued, the next one sent, whatever waits in
    the normal tier. *)
Definition front_probe {A} (f : M World A) (message : string) (regex : Regex)
  : Prop :=
  forall w,
    (exists rest,
       calls (snd (f w))
         = calls w ++ EnqueueMatchable message regex true :: rest /\
       Forall (fun c => to_front_of c <> Some false) rest) /\
    (exclusive (serial_queue w) = false ->
     (exists n,
        normal_tier (serial_queue (snd (f w)))
          = drop n (normal_tier (serial_queue w))) /\
     (exists more,
        sending_order (serial_queue (snd (f w)))
          = sending_order (serial_queue w)
              ++ probe message regex (serial_queue w) :: more) /\
     (front_tier (serial_queue w) = [] ->
      next_to_send
        (serial_queue (snd (enqueue_matchable message regex true w)))
        = Some (probe message regex (serial_queue w)))).

(** The store once the probe is enqueued. *)
Definition enqueued (message : string) (regex : Regex) (w : World) : World :=
  let q := serial_queue w in
  {| serial_queue :=
       {| front_tier := front_tier q ++ [probe message regex q];
          normal_tier := normal_tier q; sent := sent q;
          exclusive := exclusive q; next_id := S (next_id q) |};
     ID_ok := ID_ok w; FW_ok := FW_ok w;
     calls := calls w ++ [EnqueueMatchable message regex true] |}.

(** The store once the probe is enqueued and waited for. *)
Definition submitted (instruction_match : Instruction -> option Match)
    (loop_turns : Instruction -> nat) (message : string) (regex : Regex)
    (w : World) : World :=
  let i := probe message regex (serial_queue w) in
  let q := serial_queue (enqueued message regex w) in
  {| serial_queue := pop_n (turns_waited instruction_match loop_turns i q) q;
     ID_ok := ID_ok w; FW_ok := FW_ok w;
     calls := calls w ++ [EnqueueMatchable message regex true; WaitFor i] |}.

(** The outcome as claimed: whatever the first group of the match the
    instruction holds, [get_firmware_version] returns it. *)
Definition returns_first_group
    (instruction_match : Instruction -> option Match)
    (loop_turns : Instruction -> nat) (MINIMAL_FIRMWARE : StrictVersion)
    (w : World) : Prop :=
  forall groups g,
    instruction_match (probe "M115" FW_REGEX (serial_queue w)) = Some groups ->
    groups !! 0%nat = Some g ->
    fst (get_firmware_version instruction_match loop_turns MINIMAL_FIRMWARE w)
      = Return g.

(** *** A queue and answers to run the getters on *)

(** A queue with one normal instruction pending. *)
Definition world_pending : World :=
  {| serial_queue :=
       {| front_tier := [];
          normal_tier := [{| seq_id := 0; payload := "M105"; matcher := None;
                             front := false |}];
          sent := []; exclusive := false; next_id := 1 |};
     ID_ok := true; FW_ok := true; calls := [] |}.

(** The printer answers every instruction with the one group [text]. *)
Definition answers (text : string) (i : Instruction) : option Match :=
  Some [Some text].

(** No instruction comes to hold a match. *)
Definition unanswered (i : Instruction) : option Match := None.

(** The wait returns before the loop has taken a turn it need not have
    taken. *)
Definition returns_at_once (i : Instruction) : nat := O.

(** A queue whose write-exclusivity is held by someone. *)
Definition world_exclusive : World :=
  {| serial_queue :=
       {| front_tier := []; normal_tier := []; sent := []; exclusive := true;
          next_id := 0 |};
     ID_ok := true; FW_ok := true; calls := [] |}.

(** A stand-in for [float] that reads every text as one. *)
Definition float_one_ (s : string) : option float := Some 1%float.

Definition FIRMWARE_3_9 : StrictVersion :=
  {| version := (3, 9, 0); prerelease := None |}.

End Getters.

(* ===================================================================== *)
(** ** prusa/link/printer_adapter/structures/module_data_classes.py *)
(* ===================================================================== *)

Module ModuleDataClasses.

Record StateManagerData : Type := {
  base_state : option State;
  printing_state : option State;
  override_state : option State;
  last_state : option State;
  current_state : option State;
  state_history : option (list State);
  error_count : option Z
}.

(** The keyword arguments of a construction: [None] is an argument not
    given, [Some v] the value given (itself optional, as the fields are). *)
Record StateManagerData_kwargs : Type := {
  kw_base_state : option (option State);
  kw_printing_state : option (option State);
  kw_override_state : option (option State);
  kw_last_state : option (option State);
  kw_current_state : option (option State);
  kw_state_history : option (option (list State));
  kw_error_count : option (option Z)
}.

Definition no_kwargs : StateManagerData_kwargs :=
  {| kw_base_state := None; kw_printing_state := None;
     kw_override_state := None; kw_last_state := None;
     kw_current_state := None; kw_state_history := None;
     kw_error_count := None |}.

(** [StateManagerData] called with keyword arguments: a field takes the argument given for it,
    else the default of its declaration, else [None]. *)
Definition StateManagerData_new (kw : StateManagerData_kwargs)
  : StateManagerData :=
  {| base_state := default (Some READY) (kw_base_state kw);
     printing_state := default None (kw_printing_state kw);
     override_state := default None (kw_override_state kw);
     last_state := default None (kw_last_state kw);
     current_state := default None (kw_current_state kw);
     state_history := default None (kw_state_history kw);
     error_count := default None (kw_error_count kw) |}.

End ModuleDataClasses.

(* ===================================================================== *)
(** ** prusa/link/config/__init__.py *)
(* ===================================================================== *)

Module Config.

Section Classes.

(** What the command line gives, and what the two objects hold once their
    sections are read. *)
Variables Args ConfigData SettingsData : Type.
(** The body of [Config.__init__] between the guard and its last line:
    reading the file, the sections and the loggers; it raises or fills the
    object. *)
Variable Config_read : Args -> exn + ConfigData.
(** The same for [Settings.__init__], the check of the printer type
    included. *)
Variable Settings_read : string -> exn + SettingsData.

Definition cref : Type := nat.
Definition sref : Type := nat.

Record World : Type := {
  Config_instance : option cref;      (* the class attribute Config.instance *)
  Settings_instance : option sref;    (* the class attribute Settings.instance *)
  configs : list (option ConfigData);
  settings : list (option SettingsData)
}.

Definition World_initial : World :=
  {| Config_instance := None; Settings_instance := None;
     configs := []; settings := [] |}.

Definition set_Config_instance v w :=
  {| Config_instance := v; Settings_instance := Settings_instance w;
     configs := configs w; settings := settings w |}.
Definition set_Settings_instance v w :=
  {| Config_instance := Config_instance w; Settings_instance := v;
     configs := configs w; settings := settings w |}.
Definition set_configs v w :=
  {| Config_instance := Config_instance w;
     Settings_instance := Settings_instance w;
     configs := v; settings := settings w |}.
Definition set_settings v w :=
  {| Config_instance := Config_instance w;
     Settings_instance := Settings_instance w;
     configs := configs w; settings := v |}.

(** [Config.__init__(self, args)] *)
Definition Config_init (self : cref) (args : Args) : M World unit :=
  w <- get;;
  match Config_instance w with
  | Some _ => raise (RuntimeError "Config is singleton")
  | None =>
      match Config_read args with
      | inl e => raise e
      | inr d =>
          modify (fun w => set_configs (<[self := Some d]> (configs w)) w);;;
          modify (set_Config_instance (Some self))
      end
  end.

(** [Config(args)] *)
Definition Config_new (args : Args) : M World cref :=
  w <- get;;
  let self := length (configs w) in
  modify (set_configs (configs w ++ [None]));;;
  Config_init self args;;;
  ret self.

(** [Settings.__init__(self, settings_file)] *)
Definition Settings_init (self : sref) (settings_file : string)
  : M World unit :=
  w <- get;;
  match Settings_instance w with
  | Some _ => raise (RuntimeError "Config is singleton")
  | None =>
      match Settings_read settings_file with
      | inl e => raise e
      | inr d =>
          modify (fun w => set_settings (<[self := Some d]> (settings w)) w);;;
          modify (set_Settings_instance (Some self))
      end
  end.

(** [Settings(settings_file)] *)
Definition Settings_new (settings_file : string) : M World sref :=
  w <- get;;
  let self := length (settings w) in
  modify (set_settings (settings w ++ [None]));;;
  Settings_init self settings_file;;;
  ret self.

End Classes.

Arguments Config_instance {ConfigData SettingsData} w.
Arguments Settings_instance {ConfigData SettingsData} w.
Arguments configs {ConfigData SettingsData} w.
Arguments settings {ConfigData SettingsData} w.
Arguments World_initial {ConfigData SettingsData}.
Arguments Config_init {Args ConfigData SettingsData} Config_read self args.
Arguments Config_new {Args ConfigData SettingsData} Config_read args.
Arguments Settings_init {ConfigData SettingsData} Settings_read self
  settings_file.
Arguments Settings_new {ConfigData SettingsData} Settings_read settings_file.

End Config.

(* ===================================================================== *)
(** ** prusa/link/web/files_legacy.py *)
(* ===================================================================== *)

Module FilesLegacy.

(** *** [posixpath.join] and [posixpath.dirname] *)

Definition is_sep (c : ascii) : bool := bool_decide (c = "/"%char).

Definition startswith_sep (s : string) : bool :=
  match s with
  | String c _ => is_sep c
  | EmptyString => false
  end.

Fixpoint endswith_sep (s : string) : bool :=
  match s with
  | EmptyString => false
  | String c EmptyString => is_sep c
  | String _ rest => endswith_sep rest
  end.

(** [join(a, b)] *)
Definition join (a b : string) : string :=
  if startswith_sep b then b
  else if bool_decide (a = "") || endswith_sep a then a +:+ b
  else a +:+ "/" +:+ b.

Fixpoint drop_while (f : ascii -> bool) (l : list ascii) : list ascii :=
  match l with
  | c :: rest => if f c then drop_while f rest else l
  | [] => []
  end.

(** [dirname(p)]: the text up to the last separator, its trailing
    separators stripped unless it is made of separators only. *)
Definition dirname (p : string) : string :=
  let rhead := drop_while (fun c => negb (is_sep c))
                          (rev (list_ascii_of_string p)) in
  if forallb is_sep rhead then string_of_list_ascii (rev rhead)
  else string_of_list_ascii (rev (drop_while is_sep rhead)).

(** *** The handler *)

Inductive JobState : Type := IDLE | IN_PROGRESS | ENDING.

(** [Job.get_instance().data], the two fields read. *)
Record JobData : Type := {
  job_state : JobState;
  selected_file_path : string
}.

#[global] Instance JobState_eq_dec : EqDecision JobState.
Proof. solve_decision. Defined.

(** [req.json], the two keys read; [None] is what [get] answers for a key
    that is absent. *)
Record Request : Type := {
  json_source : option string;
  json_destination : option string
}.

Record Response : Type := { status_code : Z }.

Definition HTTP_CREATED : Z := 201.

(** The calls that change the file system. *)
Inductive OsCall : Type :=
| Makedirs (path : string)
| Move (source destination : string).

Section Handlers.

(** The file system and the four operations on it the handler uses. *)
Variable FS : Type.
Variable exists_ : FS -> string -> bool.
Variable makedirs : FS -> string -> exn + FS.
Variable move : FS -> string -> string -> exn + FS.
(** [LOCAL_STORAGE_NAME] of [const] and [get_os_path] of [lib.files], which
    the sources import. *)
Variable LOCAL_STORAGE_NAME : string.
Variable get_os_path : string -> option string.

Record World : Type := {
  fs : FS;
  job : JobData;
  os_calls : list OsCall
}.

Definition set_fs v w := {| fs := v; job := job w; os_calls := os_calls w |}.
Definition set_os_calls v w := {| fs := fs w; job := job w; os_calls := v |}.

Definition os_call (c : OsCall) (run : FS -> exn + FS) : M World unit :=
  modify (fun w => set_os_calls (os_calls w ++ [c]) w);;;
  w <- get;;
  match run (fs w) with
  | inl e => raise e
  | inr fs' => modify (set_fs fs')
  end.

(** [join(a, b)] on values that may be [None]. *)
Definition join_ (a b : option string) : M World string :=
  match a, b with
  | Some a, Some b => ret (join a b)
  | _, _ => raise TypeError
  end.

(** The body of [api_modify(req, storage)], after its decorators let the
    request through. *)
Definition api_modify (req : Request) : M World Response :=
  let os_path := get_os_path ("/" +:+ LOCAL_STORAGE_NAME) in
  source <- join_ os_path (json_source req);;
  destination <- join_ os_path (json_destination req);;
  let path := dirname destination in
  w <- get;;
  if bool_decide (job_state (job w) = IN_PROGRESS)
     && bool_decide (Some source = get_os_path (selected_file_path (job w)))
  then raise FileCurrentlyPrinted
  else if bool_decide (source = destination) then raise DestinationSameAsSource
  else if negb (exists_ (fs w) source) then raise FileNotFound
  else
    (if negb (exists_ (fs w) path) then
       try_except
         (os_call (Makedirs path) (fun f => makedirs f path);;;
          os_call (Move source destination)
                  (fun f => move f source destination))
         (fun e => match e with
                   | PermissionError => Some (raise PermissionError)
                   | _ => None
                   end)
     else ret tt);;;
    ret {| status_code := HTTP_CREATED |}.

End Handlers.

Arguments fs {FS} w.
Arguments job {FS} w.
Arguments os_calls {FS} w.
Arguments Build_World {FS} fs job os_calls.

(** *** A file system to run the handler on: the paths that exist *)

Definition Paths : Type := list string.

Definition Paths_exists (f : Paths) (p : string) : bool :=
  bool_decide (p ∈ f).

Definition Paths_makedirs (f : Paths) (p : string) : exn + Paths :=
  if Paths_exists f p then inl (OtherError "FileExistsError")
  else inr (p :: f).

Definition Paths_move (f : Paths) (s d : string) : exn + Paths :=
  if Paths_exists f s then inr (d :: filter (fun p => p ≠ s) f)
  else inl (OtherError "FileNotFoundError").

(** A request to rename [a.gcode] to [b.gcode] in the storage directory
    [/data], where both the directory and the file exist and nothing is
    printed. *)
Definition sample_os_path (p : string) : option string := Some "/data".

Definition sample_request : Request :=
  {| json_source := Some "a.gcode"; json_destination := Some "b.gcode" |}.

Definition sample_world : World Paths :=
  {| fs := ["/data"; "/data/a.gcode"];
     job := {| job_state := IDLE; selected_file_path := "" |};
     os_calls := [] |}.

End FilesLegacy.

(* ===================================================================== *)
(** ** prusa/link/config/__init__.py: the model dictionary and the loggers *)
(* ===================================================================== *)

Module ConfigLogging.

(** *** [Model], a dictionary read and written through attributes *)

Section ModelDict.

Variable V : Type.
(** The names ordinary attribute lookup finds on a [Model] before
    [__getattr__] is asked: the attributes of [dict] and [Model.get]. *)
Variable class_attributes : list string.

(** What [m.key] evaluates to. *)
Inductive Attr : Type :=
| ClassAttribute (name : string)   (* a method of the class, not an item *)
| Item (v : V).

(** [m.key]: ordinary lookup first, then [__getattr__], which reads the
    item and turns a [KeyError] into an [AttributeError]. *)
Definition Model_getattr (m : gmap string V) (key : string)
  : M (gmap string V) Attr :=
  if bool_decide (key ∈ class_attributes) then ret (ClassAttribute key)
  else
    match m !! key with
    | Some v => ret (Item v)
    | None => raise (AttributeError key)
    end.

(** [m.key = val]: [__setattr__] stores the item, whatever the name. *)
Definition Model_setattr (m : gmap string V) (key : string) (val : V)
  : gmap string V :=
  <[key := val]> m.

End ModelDict.

Arguments ClassAttribute {V} name.
Arguments Item {V} v.
Arguments Model_getattr {V} class_attributes m key.
Arguments Model_setattr {V} m key val.

(** *** The loggers *)

Definition LOG_FORMAT_FOREGROUND : string :=
  "%(asctime)s %(levelname)s {%(module)s.%(funcName)s():%(lineno)d} [%(threadName)s]: %(message)s ".
Definition LOG_FORMAT_SYSLOG : string :=
  "%(name)s[%(process)d]: %(levelname)s: %(message)s {%(funcName)s():%(lineno)d}".

Definition LOG_LEVELS : list string :=
  ["CRITICAL"; "ERROR"; "WARNING"; "INFO"; "DEBUG"].

Definition SERVER_TYPES : list string := ["single"; "threading"; "forking"].

(** The command line, as far as the loggers read it. *)
Record Args : Type := {
  debug : bool;
  info : bool;
  foreground : bool
}.

Inductive HandlerKind : Type :=
| StreamHandler
| SysLogHandler (address : string)
| OtherHandler.

(** A handler object: what it is and the format it was given, if any. *)
Record Handler : Type := {
  kind : HandlerKind;
  formatter : option string
}.

Definition href : Type := nat.

Record World : Type := {
  levels : list (string * string);  (* the calls getLogger(name).setLevel(level) *)
  handlers : list Handler;          (* the handler objects *)
  root_handlers : list href         (* logger.root.handlers *)
}.

Definition set_levels v w :=
  {| levels := v; handlers := handlers w; root_handlers := root_handlers w |}.
Definition set_handlers v w :=
  {| levels := levels w; handlers := v; root_handlers := root_handlers w |}.
Definition set_root_handlers v w :=
  {| levels := levels w; handlers := handlers w; root_handlers := v |}.

(** [l.remove(x)]: the first occurrence goes. *)
Fixpoint list_remove (x : href) (l : list href) : list href :=
  match l with
  | [] => []
  | y :: rest => if bool_decide (y = x) then rest else y :: list_remove x rest
  end.

(** [Logger.removeHandler(hdlr)] *)
Definition removeHandler (hdlr : href) (l : list href) : list href :=
  if bool_decide (hdlr ∈ l) then list_remove hdlr l else l.

(** [Logger.addHandler(hdlr)] *)
Definition addHandler (hdlr : href) (l : list href) : list href :=
  if bool_decide (hdlr ∈ l) then l else l ++ [hdlr].

(** [for hdlr in handlers: removeHandler(hdlr)], on the list itself: the
    iterator keeps an index into the list as it is at each step, and stops
    when the index is past its end.  Every step removes one element, so the
    length of the list bounds the steps. *)
Fixpoint remove_each (steps : nat) (index : nat) (l : list href)
  : list href :=
  match steps with
  | O => l
  | S steps' =>
      match l !! index with
      | None => l
      | Some hdlr => remove_each steps' (S index) (removeHandler hdlr l)
      end
  end.

Section Loggers.

(** [self.get(section, option)] of the parsed file; [None] where the
    fallback is taken. *)
Variable cfg_get : string -> string -> option string.
(** What [SysLogHandler(address, LOG_DAEMON)] raises, if anything. *)
Variable SysLogHandler_raises : string -> option exn.
(** What [Formatter(fmt)] raises, if anything. *)
Variable Formatter_raises : string -> option exn.

Definition check_log_level (value : string) : M World unit :=
  if bool_decide (value ∈ LOG_LEVELS) then ret tt
  else raise (ValueError ("Invalid value " +:+ value)).

Definition check_server_type (value : string) : M World unit :=
  if bool_decide (value ∈ SERVER_TYPES) then ret tt
  else raise (ValueError ("Invalid value " +:+ value)).

(** [getLogger(name).setLevel(level)] *)
Definition setLevel (name level : string) : M World unit :=
  modify (fun w => set_levels (levels w ++ [(name, level)]) w).

Definition get_logger (name : string) (args : Args) (fallback : string)
  : M World unit :=
  log_level <-
    (if debug args then ret "DEBUG"
     else if info args then ret "INFO"
     else
       let log_level := default fallback (cfg_get "logging" name) in
       check_log_level log_level;;;
       ret log_level);;
  if bool_decide (name = "main") then
    setLevel "prusa-link" log_level;;;
    setLevel "urllib3" log_level;;;
    setLevel "connect-printer" log_level
  else
    setLevel ("prusa-link." +:+ name) log_level.

(** A new handler object. *)
Definition new_handler (k : HandlerKind) : M World href :=
  w <- get;;
  modify (set_handlers (handlers w ++ [{| kind := k; formatter := None |}]));;;
  ret (length (handlers w)).

Definition setFormatter (h : href) (fmt : string) : M World unit :=
  w <- get;;
  match handlers w !! h with
  | Some o =>
      modify (set_handlers
                (<[h := {| kind := kind o; formatter := Some fmt |}]>
                   (handlers w)))
  | None => stuck
  end.

Definition set_logger (args : Args) : M World unit :=
  get_logger "main" args "WARNING";;;
  get_logger "adapter" args "WARNING";;;
  get_logger "http" args "INFO";;;
  chosen <-
    (if foreground args then
       handler <- new_handler StreamHandler;;
       ret (LOG_FORMAT_FOREGROUND, handler)
     else
       let log_syslog := default "/dev/log" (cfg_get "logging" "syslog") in
       match SysLogHandler_raises log_syslog with
       | Some e => raise e
       | None =>
           handler <- new_handler (SysLogHandler log_syslog);;
           ret (LOG_FORMAT_SYSLOG, handler)
       end);;
  let handler := snd chosen in
  let log_format := default (fst chosen) (cfg_get "logging" "format") in
  modify (fun w =>
    set_root_handlers
      (remove_each (length (root_handlers w)) 0 (root_handlers w)) w);;;
  modify (fun w => set_root_handlers (addHandler handler (root_handlers w)) w);;;
  match Formatter_raises log_format with
  | Some e => raise e
  | None => setFormatter handler log_format
  end.

End Loggers.

(** *** Reading the outcome *)

(** The elements at the odd positions, counting from zero. *)
Fixpoint odds {A} (l : list A) : list A :=
  match l with
  | _ :: y :: rest => y :: odds rest
  | _ => []
  end.

(** The level [get_logger] settles on for [name]. *)
Definition chosen_level (cfg_get : string -> string -> option string)
    (args : Args) (name fallback : string) : string :=
  if debug args then "DEBUG"
  else if info args then "INFO"
  else default fallback (cfg_get "logging" name).

(** The level is taken without a check, or passes it. *)
Definition level_accepted (cfg_get : string -> string -> option string)
    (args : Args) (name fallback : string) : bool :=
  debug args || info args
  || bool_decide (default fallback (cfg_get "logging" name) ∈ LOG_LEVELS).

(** The loggers [get_logger] sets for [name]. *)
Definition loggers_of (name : string) : list string :=
  if bool_decide (name = "main")
  then ["prusa-link"; "urllib3"; "connect-printer"]
  else ["prusa-link." +:+ name].

(** *** Files and stores to run on *)

Definition no_file (section key : string) : option string := None.

(** A file whose adapter level is misspelt. *)
Definition file_bad_adapter (section key : string) : option string :=
  if bool_decide (section = "logging") && bool_decide (key = "adapter")
  then Some "VERBOSE" else None.

Definition never_raises (s : string) : option exn := None.

Definition args_daemon : Args :=
  {| debug := false; info := false; foreground := false |}.
Definition args_debug : Args :=
  {| debug := true; info := false; foreground := true |}.

(** Three handlers on the root logger. *)
Definition world_three : World :=
  {| levels := [];
     handlers := [{| kind := OtherHandler; formatter := None |};
                  {| kind := OtherHandler; formatter := None |};
                  {| kind := OtherHandler; formatter := None |}];
     root_handlers := [0; 1; 2]%nat |}.

(** Readings of a configuration and of a settings file that fail for some
    inputs. *)
Definition Config_read_sample (good : bool) : exn + nat :=
  if good then inr 1%nat else inl (OtherError "KeyError").

(** The module as loaded: neither class has an instance. *)
Definition world_unconfigured : Config.World nat nat := Config.World_initial.

Definition Settings_read_sample (file : string) : exn + nat :=
  if bool_decide (file = "mk3.ini") then inr 0%nat
  else inl (ValueError "Settings file for different printer!").

End ConfigLogging.

(* ===================================================================== *)
(** ** prusa/link/web/files_legacy.py: folders, starting a print, thumbnails *)
(* ===================================================================== *)

Module FilesLegacyHandlers.

Import FilesLegacy.

Definition HTTP_OK : Z := 200.
Definition HTTP_NO_CONTENT : Z := 204.
Definition HTTP_BAD_REQUEST : Z := 400.

(** The exceptions of [conditions] these handlers raise. *)
Definition FolderAlreadyExists : exn := OtherError "FolderAlreadyExists".
Definition FolderNotFound : exn := OtherError "FolderNotFound".
Definition CurrentlyPrinting : exn := OtherError "CurrentlyPrinting".

(** *** [api_create_folder] and [api_delete_folder] *)

Inductive FolderCall : Type :=
| MakedirsCall (path : string)
| RmtreeCall (path : string).

Section Folders.

Variable FS : Type.
Variable exists_ : FS -> string -> bool.
Variable makedirs : FS -> string -> exn + FS.
Variable rmtree : FS -> string -> exn + FS.
Variable LOCAL_STORAGE_NAME : string.
Variable get_os_path : string -> option string.

Record FolderWorld : Type := {
  folder_fs : FS;
  folder_calls : list FolderCall
}.

Definition folder_call (c : FolderCall) (run : FS -> exn + FS)
  : M FolderWorld unit :=
  modify (fun w => {| folder_fs := folder_fs w;
                      folder_calls := folder_calls w ++ [c] |});;;
  w <- get;;
  match run (folder_fs w) with
  | inl e => raise e
  | inr fs' => modify (fun w => {| folder_fs := fs';
                                   folder_calls := folder_calls w |})
  end.

(** [join(os_path, path)]; [os_path] may be [None]. *)
Definition join_os (os_path : option string) (path : string)
  : M FolderWorld string :=
  match os_path with
  | Some a => ret (join a path)
  | None => raise TypeError
  end.

(** The body of [api_create_folder(req, storage, path)]. *)
Definition api_create_folder (path : string) : M FolderWorld Response :=
  let os_path := get_os_path ("/" +:+ LOCAL_STORAGE_NAME) in
  path <- join_os os_path path;;
  w <- get;;
  if exists_ (folder_fs w) path then raise FolderAlreadyExists
  else
    folder_call (MakedirsCall path) (fun f => makedirs f path);;;
    ret {| status_code := HTTP_CREATED |}.

(** The body of [api_delete_folder(req, storage, path)]. *)
Definition api_delete_folder (path : string) : M FolderWorld Response :=
  let os_path := get_os_path ("/" +:+ LOCAL_STORAGE_NAME) in
  path <- join_os os_path path;;
  w <- get;;
  if negb (exists_ (folder_fs w) path) then raise FolderNotFound
  else
    folder_call (RmtreeCall path) (fun f => rmtree f path);;;
    ret {| status_code := HTTP_OK |}.

End Folders.

Arguments folder_fs {FS} _.
Arguments folder_calls {FS} _.
Arguments Build_FolderWorld {FS} folder_fs folder_calls.

(** *** [api_start_print] *)

(** What the handler asks of the job and of the command queue. *)
Inductive JobCall : Type :=
| DeselectFile
| SelectFile (path : string)
| SetFilePath (path : string)
| StartPrint (path : string).

(** [req.json], the keys read: the command, and whether [print] is given
    and true. *)
Record PrintRequest : Type := {
  json_command : option string;
  json_print : bool
}.

Section StartPrint.

(** The job object, of a class the sources import: its state, the path it
    has selected, and what its three methods make of it. *)
Variable Job : Type.
Variable job_state : Job -> JobState.
Variable selected_file_path : Job -> string.
Variable deselect_file : Job -> Job.
Variable select_file : Job -> string -> Job.
Variable set_file_path : Job -> string -> Job.
(** What [check_os_path(get_os_path(path))] raises, if anything. *)
Variable check_os_path : string -> option exn.
(** What [command_queue.do_command(StartPrint(path))] raises, if
    anything. *)
Variable do_command : string -> option exn.

Record PrintWorld : Type := {
  the_job : Job;
  job_calls : list JobCall
}.

Definition job_call (c : JobCall) (f : Job -> Job) : M PrintWorld unit :=
  modify (fun w => {| the_job := f (the_job w);
                      job_calls := job_calls w ++ [c] |}).

Definition start_print (path : string) : M PrintWorld unit :=
  job_call (StartPrint path) (fun j => j);;;
  match do_command path with
  | Some e => raise e
  | None => ret tt
  end.

(** The body of [api_start_print(req, storage, path)]. *)
Definition api_start_print (req : PrintRequest) (path : string)
  : M PrintWorld Response :=
  let command := json_command req in
  match check_os_path ("/" +:+ path) with
  | Some e => raise e
  | None =>
      if bool_decide (command = Some "select") then
        w <- get;;
        if bool_decide (job_state (the_job w) = IDLE) then
          job_call DeselectFile deselect_file;;;
          job_call (SelectFile path) (fun j => select_file j path);;;
          (if json_print req then
             w <- get;;
             start_print (selected_file_path (the_job w))
           else ret tt);;;
          ret {| status_code := HTTP_NO_CONTENT |}
        else ret {| status_code := HTTP_BAD_REQUEST |}
      else if bool_decide (command = Some "print") then
        w <- get;;
        if bool_decide (job_state (the_job w) = IDLE) then
          job_call (SetFilePath path) (fun j => set_file_path j path);;;
          start_print path;;;
          ret {| status_code := HTTP_NO_CONTENT |}
        else raise CurrentlyPrinting
      else ret {| status_code := HTTP_BAD_REQUEST |}
  end.

End StartPrint.

Arguments the_job {Job} _.
Arguments job_calls {Job} _.
Arguments Build_PrintWorld {Job} the_job job_calls.

(** *** [api_thumbnails]: the loop that picks the preview *)

(** [biggest = b'']; [for data in thumbnails.values(): if len(data) >
    len(biggest): biggest = data]. *)
Definition biggest_thumbnail (thumbnails : list (list Byte.byte))
  : list Byte.byte :=
  fold_left
    (fun biggest data =>
       if (length biggest <? length data)%nat then data else biggest)
    thumbnails [].

(** *** Path vocabulary *)

(** No separator in the name. *)
Definition plain_name (s : string) : bool :=
  forallb (fun c => negb (is_sep c)) (list_ascii_of_string s).

(** *** Samples *)

(** A job that remembers its state and the path last selected or set. *)
Definition SampleJob : Type := JobState * string.

Definition sample_check (path : string) : option exn := None.

Definition world_printing : PrintWorld SampleJob :=
  {| the_job := (IN_PROGRESS, "/local/a.gcode"); job_calls := [] |}.

Definition world_idle : PrintWorld SampleJob :=
  {| the_job := (IDLE, ""); job_calls := [] |}.

Definition Paths_rmtree (f : Paths) (p : string) : exn + Paths :=
  if Paths_exists f p then inr (filter (fun q => q ≠ p) f)
  else inl (OtherError "FileNotFoundError").

Definition world_folders : FolderWorld Paths :=
  {| folder_fs := ["/data"]; folder_calls := [] |}.

(** A request to move [a.gcode] into the new folder [new]. *)
Definition request_into_new : Request :=
  {| json_source := Some "a.gcode"; json_destination := Some "new/a.gcode" |}.

(** A request to move [a.gcode] to a path outside the storage. *)
Definition request_absolute : Request :=
  {| json_source := Some "a.gcode";
     json_destination := Some "/tmp/x/a.gcode" |}.

(** [get_os_path] for a storage [/local] kept in [/data]: the storage
    and the one file in it. *)
Definition storage_os_path (p : string) : option string :=
  if bool_decide (p = "/local") then Some "/data"
  else if bool_decide (p = "/local/a.gcode") then Some "/data/a.gcode"
  else None.

(** A request that names no destination. *)
Definition request_no_destination : Request :=
  {| json_source := Some "a.gcode"; json_destination := None |}.

(** A request to rename [a.gcode] to itself. *)
Definition request_same : Request :=
  {| json_source := Some "a.gcode"; json_destination := Some "a.gcode" |}.

(** A request to rename [c.gcode], which does not exist, to itself. *)
Definition request_missing_same : Request :=
  {| json_source := Some "c.gcode"; json_destination := Some "c.gcode" |}.

(** A request to rename [c.gcode], which does not exist. *)
Definition request_missing : Request :=
  {| json_source := Some "c.gcode"; json_destination := Some "b.gcode" |}.

(** The job is printing [a.gcode] of the storage. *)
Definition world_printing_file : FilesLegacy.World Paths :=
  {| fs := ["/data"; "/data/a.gcode"];
     job := {| job_state := IN_PROGRESS;
               selected_file_path := "/local/a.gcode" |};
     os_calls := [] |}.

End FilesLegacyHandlers.

(* ===================================================================== *)
(** * Properties *)
(* ===================================================================== *)

(** ** The method monad *)

Section Preserves.

Context {W : Type} (R : W -> W -> Prop).
Hypothesis R_refl : forall w, R w w.
Hypothesis R_trans : forall a b c, R a b -> R b c -> R a c.

Lemma preserves_ret {A} (a : A) : preserves R (ret a).
Proof. intros w. apply R_refl. Qed.

Lemma preserves_raise {A} e : preserves R (@raise W A e).
Proof. intros w. apply R_refl. Qed.

Lemma preserves_get : preserves R (@get W).
Proof. intros w. apply R_refl. Qed.

Lemma preserves_of_option {A} (o : option A) : preserves R (@of_option W A o).
Proof. intros w. destruct o; apply R_refl. Qed.

Lemma preserves_item {A} (l : list A) i : preserves R (@item W A l i).
Proof. intros w. unfold item. destruct (l !! i); apply R_refl. Qed.

Lemma preserves_int x : preserves R (@int W x).
Proof.
  intros w. unfold int. destruct x as [s|]; [|apply R_refl].
  destruct (int_literal s); apply R_refl.
Qed.

Lemma preserves_modify f :
  (forall w, R w (f w)) -> preserves R (@modify W f).
Proof. intros H w. apply H. Qed.

Lemma preserves_bind {A B} (m : M W A) (k : A -> M W B) :
  preserves R m -> (forall a, preserves R (k a)) -> preserves R (bind m k).
Proof.
  intros Hm Hk w. unfold bind. specialize (Hm w).
  destruct (m w) as [[a|e|] w1]; cbn in *; try done.
  eapply R_trans; [exact Hm | apply Hk].
Qed.

Lemma preserves_try_except {A} (body : M W A) handler :
  preserves R body ->
  (forall e h, handler e = Some h -> preserves R h) ->
  preserves R (try_except body handler).
Proof.
  intros Hb Hh w. unfold try_except. specialize (Hb w).
  destruct (body w) as [[a|e|] w1]; cbn in *; try done.
  destruct (handler e) as [h|] eqn:He; [|done].
  eapply R_trans; [exact Hb | eapply Hh, He].
Qed.

End Preserves.

(** ** The telemetry gatherer *)

Section TelemetryGatherer.

Import OldBuddy.

Variable env : Env.
Variable PRINTING_STATES : list States.
Variable py_float : string -> option float.

(** Writing [v] into the telemetry object [c]. *)
Local Abbreviation write c v w :=
  (set_telemetries (<[c := v]> (telemetries w)) w).

Lemma current_is_write self c t v w :
  current_is self c t w -> current_is self c v (write c v w).
Proof.
  intros (g & Hg & Hc & Ht). exists g. simpl. repeat split; try done.
  apply list_lookup_insert_eq. by eapply lookup_lt_Some.
Qed.

Lemma write_write c v1 v2 w : write c v2 (write c v1 w) = write c v2 w.
Proof. unfold set_telemetries. simpl. by rewrite list_insert_insert_eq. Qed.

Lemma setattr_current_run self f c t w :
  current_is self c t w ->
  setattr_current self f w = (Return tt, write c (f t) w).
Proof.
  intros (g & Hg & Hc & Ht).
  unfold setattr_current, self_current_telemetry, load_gatherer,
    load_telemetry, store_telemetry, bind, get, of_option, modify, ret.
  simpl. rewrite Hg. simpl. rewrite Hc. simpl. rewrite Ht. done.
Qed.

Lemma current_is_frame self c t w w' :
  gatherers w' = gatherers w -> telemetries w' = telemetries w ->
  current_is self c t w -> current_is self c t w'.
Proof.
  intros Hg Ht (g & ? & ? & ?). exists g. rewrite Hg, Ht. done.
Qed.

(** Running a method on a store where the objects it reaches are known. *)
Ltac run_with Hg Hc Ht Hlt :=
  repeat first
    [ progress cbn
    | rewrite Hg | rewrite Hc | rewrite Ht
    | rewrite list_insert_insert_eq
    | rewrite list_lookup_insert_eq by (rewrite ?length_insert; exact Hlt) ].

(** [send_telemetry], run: one question to the state manager, the object
    rewritten in place, one snapshot sent. *)
Lemma send_telemetry_run self c t w :
  current_is self c t w ->
  let v := gated PRINTING_STATES (env_get_state env (now w)) t in
  send_telemetry env PRINTING_STATES self w =
    (Return tt,
     set_trace (trace w ++ [Sent self c v])
       (write c v (set_now (S (now w)) w))).
Proof.
  intros (g & Hg & Hc & Ht) v. subst v.
  assert (Hlt : (c < length (telemetries w))%nat) by by eapply lookup_lt_Some.
  unfold send_telemetry, gated, set_trace, set_telemetries, set_now,
    setattr_current, self_current_telemetry, load_gatherer, load_telemetry,
    store_telemetry, state_manager_get_state, tick, emit, bind, get,
    of_option, modify, ret.
  destruct (bool_decide (env_get_state env (now w) ∈ PRINTING_STATES));
    destruct (bool_decide (env_get_state env (now w) = PRINTING));
    run_with Hg Hc Ht Hlt; reflexivity.
Qed.

(** C1, as the code has it.  Whatever [send_telemetry] sends out has the
    job fields (printing time, estimated time, progress) unset when the
    state read is not a printing state, and [axis_x] and [axis_y] unset
    when the state read is [PRINTING]; [axis_z] goes out as gathered. *)
Theorem send_telemetry_gating self c t w :
  current_is self c t w ->
  exists v,
    fst (send_telemetry env PRINTING_STATES self w) = Return tt /\
    published (drop (length (trace w))
                 (trace (snd (send_telemetry env PRINTING_STATES self w))))
      = [(c, v)] /\
    current_is self c v (snd (send_telemetry env PRINTING_STATES self w)) /\
    (env_get_state env (now w) ∉ PRINTING_STATES -> job_fields_unset v) /\
    (env_get_state env (now w) = PRINTING ->
       axis_x v = None /\ axis_y v = None) /\
    axis_z v = axis_z t.
Proof.
  intros Hcur. rewrite (send_telemetry_run _ _ _ _ Hcur).
  exists (gated PRINTING_STATES (env_get_state env (now w)) t).
  split; [done|]. split.
  { cbn. rewrite drop_app_length. done. }
  split.
  { eapply current_is_frame; [| |eapply current_is_write, Hcur]; done. }
  unfold gated, job_fields_unset.
  repeat split; intros;
    repeat case_bool_decide; try done; try congruence.
Qed.

(** The store after the publish step of a cycle: the object sent is the
    last telemetry, a new blank object the current one. *)
Local Abbreviation swapped self g c v w :=
  {| telemetries := <[c := v]> (telemetries w) ++ [Telemetry_blank];
     gatherers :=
       <[self := set_current_telemetry (Some (length (telemetries w)))
                   (set_last_telemetry (Some c) g)]> (gatherers w);
     class_instance := class_instance w;
     now := S (now w);
     trace := trace w ++ [Sent self c v] |}.

Lemma update_telemetry_unfold self :
  update_telemetry env PRINTING_STATES self =
  (send_telemetry env PRINTING_STATES self;;;
   t <- self_current_telemetry self;;
   setattr_self self (set_last_telemetry (Some t));;;
   t' <- Telemetry_new;;
   setattr_self self (set_current_telemetry (Some t'));;;
   ask_printer env self).
Proof. reflexivity. Qed.

Lemma update_telemetry_run self g c t w :
  gatherers w !! self = Some g -> current_telemetry g = Some c ->
  telemetries w !! c = Some t ->
  update_telemetry env PRINTING_STATES self w =
  ask_printer env self
    (swapped self g c (gated PRINTING_STATES (env_get_state env (now w)) t) w).
Proof.
  intros Hg Hc Ht.
  assert (Hcur : current_is self c t w) by (exists g; done).
  assert (Hlt : (self < length (gatherers w))%nat) by by eapply lookup_lt_Some.
  rewrite update_telemetry_unfold.
  generalize (ask_printer env self). intros k.
  unfold bind at 1. rewrite (send_telemetry_run _ _ _ _ Hcur).
  unfold setattr_self, self_current_telemetry, load_gatherer, store_gatherer,
    Telemetry_new, set_gatherers, set_telemetries, set_trace, set_now,
    bind, get, of_option, modify, ret.
  run_with Hg Hc Ht Hlt.
  rewrite length_insert. reflexivity.
Qed.

Lemma serial_write_run gcode w :
  serial_write env gcode w =
  (match env_write env (now w) gcode with
   | None => Return tt
   | Some e => Raise e
   end,
   set_trace (trace w ++ [Wrote gcode (env_write env (now w) gcode)])
     (set_now (S (now w)) w)).
Proof.
  unfold serial_write, tick, emit, bind, get, modify, ret, raise. cbn.
  destruct (env_write env (now w) gcode); reflexivity.
Qed.

(** The loop of queries while nothing is busy and nothing worse than a
    refusal happens: every line is handed over, in order. *)
Lemma query_loop_all gcodes : forall w,
  (forall n, (now w <= n)%nat -> env_base_state env n <> BUSY) ->
  (forall n gcode, (now w <= n)%nat -> taken_or_ignored (env_write env n gcode)) ->
  exists w' evs,
    query_loop env gcodes w = (Return tt, w') /\ talked w w' evs /\
    (now w <= now w')%nat /\
    written evs = gcodes /\
    log_levels evs = map (fun _ => LOG_DEBUG) (refused evs) /\
    published evs = [].
Proof.
  induction gcodes as [|gcode rest IH]; intros w Hbase Hwrite.
  - exists w, []. cbn. unfold talked. rewrite app_nil_r. repeat split; done.
  - cbn [query_loop]. unfold state_manager_base_state, tick.
    unfold bind at 1. unfold bind at 1. unfold bind at 1. cbn.
    rewrite bool_decide_eq_false_2 by (apply Hbase; lia).
    unfold bind at 1. unfold try_except. rewrite serial_write_run. cbn.
    destruct (Hwrite (S (now w)) gcode ltac:(lia)) as [Hr | Hr]; rewrite Hr.
    + set (w1 := set_trace _ _).
      destruct (IH w1) as (w' & evs & Hrun & (Ht & Hg & Hc & Htr) & Hnow & Hw & Hl & Hp).
      { intros n Hn. apply Hbase. subst w1; cbn in Hn. lia. }
      { intros n g Hn. apply Hwrite. subst w1; cbn in Hn. lia. }
      exists w', (Wrote gcode None :: evs). rewrite Hrun.
      split; [done|]. split.
      { unfold talked. rewrite Ht, Hg, Hc, Htr. subst w1. cbn.
        rewrite <- app_assoc. done. }
      split; [subst w1; cbn in Hnow; lia|].
      unfold written, log_levels, published, refused in *. cbn.
      rewrite Hw. done.
    + unfold log_debug, emit, modify. cbn.
      set (w2 := set_trace _ _).
      destruct (IH w2) as (w' & evs & Hrun & (Ht & Hg & Hc & Htr) & Hnow & Hw & Hl & Hp).
      { intros n Hn. apply Hbase. subst w2; cbn in Hn. lia. }
      { intros n g Hn. apply Hwrite. subst w2; cbn in Hn. lia. }
      exists w', (Wrote gcode (Some WriteIgnored) ::
                  Logged LOG_DEBUG
                    "Telemetry request got ignored, serial is exclusive for something else"
                  :: evs).
      rewrite Hrun. split; [done|]. split.
      { unfold talked. rewrite Ht, Hg, Hc, Htr. subst w2. cbn.
        rewrite <- !app_assoc. done. }
      split; [subst w2; cbn in Hnow; lia|].
      unfold written, log_levels, published, refused in *. cbn.
      rewrite Hw, Hl. done.
Qed.

(** C4.  In a cycle during which the state manager never shows [BUSY] and
    the port does nothing worse than refuse a line, the five queries are
    handed to the port in the order M105, M114, PRUSA FAN, M27, M73,
    whichever of them are refused; the cycle returns without raising, and
    what it logs is one debug record for each refusal. *)
Theorem update_telemetry_queries self c t w :
  current_is self c t w ->
  (forall n, (now w <= n)%nat -> env_base_state env n <> BUSY) ->
  (forall n gcode, (now w <= n)%nat ->
                   taken_or_ignored (env_write env n gcode)) ->
  exists w' evs,
    update_telemetry env PRINTING_STATES self w = (Return tt, w') /\
    trace w' = trace w ++ evs /\
    written evs = ["M105"; "M114"; "PRUSA FAN"; "M27"; "M73"] /\
    log_levels evs = map (fun _ => LOG_DEBUG) (refused evs).
Proof.
  intros (g & Hg & Hc & Ht) Hbase Hwrite.
  rewrite (update_telemetry_run _ _ _ _ _ Hg Hc Ht).
  set (w1 := Build_World _ _ _ _ _).
  unfold ask_printer, state_manager_base_state, tick.
  unfold bind at 1. unfold bind at 1. unfold bind at 1. cbn -[query_loop].
  rewrite bool_decide_eq_false_2 by (apply Hbase; lia).
  unfold bind at 1. cbn -[query_loop].
  set (w2 := set_now _ _).
  destruct (query_loop_all TELEMETRY_GCODES w2)
    as (w' & evs & Hrun & (_ & _ & _ & Htr) & _ & Hw & Hl & _).
  { intros n Hn. apply Hbase. subst w2; cbn in Hn. lia. }
  { intros n gc Hn. apply Hwrite. subst w2; cbn in Hn. lia. }
  exists w', (Sent self c (gated PRINTING_STATES (env_get_state env (now w)) t)
              :: evs).
  rewrite Hrun. split; [done|]. split.
  { rewrite Htr. subst w2 w1. cbn. rewrite <- app_assoc. done. }
  unfold written, log_levels, refused in *. cbn. split; done.
Qed.

(** C2.  In a cycle during which the state manager shows [BUSY] at every
    look, and the ping is taken or refused, the only line handed to the
    port is the ping: none of the five queries is written, and the cycle
    returns without raising, the ping refused or not. *)
Theorem update_telemetry_busy self c t w :
  current_is self c t w ->
  (forall n, (now w <= n)%nat -> env_base_state env n = BUSY) ->
  (forall n, taken_or_ignored (env_write env n "PRUSA PING")) ->
  exists w' evs,
    update_telemetry env PRINTING_STATES self w = (Return tt, w') /\
    trace w' = trace w ++ evs /\
    written evs = ["PRUSA PING"] /\
    Forall (fun gcode => gcode ∉ TELEMETRY_GCODES) (written evs).
Proof.
  intros (g & Hg & Hc & Ht) Hbase Hping.
  rewrite (update_telemetry_run _ _ _ _ _ Hg Hc Ht).
  set (v := gated _ _ _).
  unfold ask_printer, state_manager_base_state, tick.
  unfold bind at 1. unfold bind at 1. unfold bind at 1. cbn.
  rewrite bool_decide_eq_true_2 by (apply Hbase; lia).
  unfold bind at 1. unfold bind at 1. unfold log_debug, emit, modify. cbn.
  unfold ping_printer, try_except. rewrite serial_write_run. cbn.
  unfold TELEMETRY_GCODES at 1. cbn [query_loop].
  set (r := env_write env (S (S (now w))) "PRUSA PING").
  exists
    {| telemetries := <[c := v]> (telemetries w) ++ [Telemetry_blank];
       gatherers :=
         <[self := set_current_telemetry (Some (length (telemetries w)))
                     (set_last_telemetry (Some c) g)]> (gatherers w);
       class_instance := class_instance w;
       now := S (S (S (S (now w))));
       trace := trace w ++
         [Sent self c v;
          Logged LOG_DEBUG "Printer seems busy, not asking for telemetry";
          Wrote "PRUSA PING" r] |},
    [Sent self c v;
     Logged LOG_DEBUG "Printer seems busy, not asking for telemetry";
     Wrote "PRUSA PING" r].
  split.
  { destruct (Hping (S (S (now w)))) as [Hr | Hr]; fold r in Hr; rewrite Hr;
      unfold state_manager_base_state, tick, bind, get, modify, ret; cbn;
      (rewrite bool_decide_eq_true_2 by (apply Hbase; lia));
      unfold set_now, set_trace; cbn; rewrite <- !app_assoc; reflexivity. }
  split; [done|]. split; [done|].
  unfold written. cbn. constructor; [|constructor].
  unfold TELEMETRY_GCODES. intros Hin.
  repeat (apply elem_of_cons in Hin as [Hin | Hin]; [discriminate|]).
  by apply elem_of_nil in Hin.
Qed.

(** *** What the handlers and the printer talk leave alone *)

Lemma touches_current_refl self w : touches_current self w w.
Proof. unfold touches_current. done. Qed.

Lemma touches_current_trans self a b c :
  touches_current self a b -> touches_current self b c ->
  touches_current self a c.
Proof.
  intros (Hg1 & Ht1 & Hl1 & H1) (Hg2 & Ht2 & Hl2 & H2).
  unfold touches_current. repeat split; try congruence.
  intros l Hl. rewrite H2, H1; try done.
  intros g. rewrite Hg1. apply Hl.
Qed.

Lemma setattr_current_touches self f :
  preserves (touches_current self) (setattr_current self f).
Proof.
  intros w.
  unfold setattr_current, self_current_telemetry, load_gatherer,
    load_telemetry, store_telemetry, bind, get, of_option, modify, ret, raise.
  cbn.
  destruct (gatherers w !! self) as [g|] eqn:Hg; cbn;
    [|apply touches_current_refl].
  destruct (current_telemetry g) as [c|] eqn:Hc; cbn;
    [|apply touches_current_refl].
  destruct (telemetries w !! c) as [t|] eqn:Ht; cbn;
    [|apply touches_current_refl].
  unfold touches_current. cbn. rewrite length_insert.
  repeat split; try done.
  intros l Hl. apply list_lookup_insert_ne.
  intros ->. by apply (Hl g).
Qed.

Lemma float_touches self x :
  preserves (touches_current self) (float_ py_float x).
Proof.
  intros w. unfold float_. destruct x as [s|]; [|apply touches_current_refl].
  destruct (py_float s); apply touches_current_refl.
Qed.

(** Closing a goal [preserves (touches_current self) m] for [m] built from
    the handler's own steps. *)
Ltac touches :=
  repeat first
    [ apply setattr_current_touches
    | apply float_touches
    | apply preserves_item; apply touches_current_refl
    | apply preserves_int; apply touches_current_refl
    | apply preserves_ret; apply touches_current_refl
    | apply preserves_bind; [apply touches_current_trans | | intros ?]
    | match goal with
      | |- preserves _ (if ?b then _ else _) => destruct b
      | |- preserves _ (match ?x with _ => _ end) => destruct x
      end ].

Lemma dispatch_touches p self groups :
  preserves (touches_current self) (dispatch py_float p self groups).
Proof.
  destruct p; cbn [dispatch];
    unfold temperature_handler, position_handler, e_fan_handler,
      p_fan_handler, print_time_handler, progress_handler,
      time_remaining_handler, heating_handler, heating_hotend_handler;
    touches.
Qed.

Lemma dispatch_all_touches lines : forall self w,
  touches_current self w (dispatch_all py_float lines self w).
Proof.
  induction lines as [|[p groups] rest IH]; intros self w; cbn.
  - apply touches_current_refl.
  - eapply touches_current_trans; [apply dispatch_touches | apply IH].
Qed.

Lemma talks_only_refl w : talks_only w w.
Proof.
  unfold talks_only. repeat split; try done.
  exists []. by rewrite app_nil_r.
Qed.

Lemma talks_only_trans a b c :
  talks_only a b -> talks_only b c -> talks_only a c.
Proof.
  intros (Ht1 & Hg1 & evs1 & He1 & Hp1) (Ht2 & Hg2 & evs2 & He2 & Hp2).
  unfold talks_only. repeat split; try congruence.
  exists (evs1 ++ evs2). rewrite He2, He1, <- app_assoc. split; [done|].
  unfold published in *. by rewrite omap_app, Hp1, Hp2.
Qed.

Lemma tick_talks : preserves talks_only tick.
Proof.
  intros w. cbn. unfold talks_only. cbn. repeat split; try done.
  exists []. by rewrite app_nil_r.
Qed.

Lemma emit_talks e :
  published [e] = [] -> preserves talks_only (emit e).
Proof.
  intros He w. cbn. unfold talks_only. cbn. repeat split; try done.
  by exists [e].
Qed.

Ltac talks :=
  repeat first
    [ apply tick_talks
    | apply emit_talks; reflexivity
    | apply preserves_ret; apply talks_only_refl
    | apply preserves_raise; apply talks_only_refl
    | apply preserves_bind; [apply talks_only_trans | | intros ?]
    | apply preserves_try_except;
        [apply talks_only_trans | | intros [] ? [= <-]]
    | match goal with
      | |- preserves _ (if ?b then _ else _) => destruct b
      | |- preserves _ (match ?x with _ => _ end) => destruct x
      end ].

Lemma serial_write_talks gcode : preserves talks_only (serial_write env gcode).
Proof. unfold serial_write. talks. Qed.

Lemma query_loop_talks gcodes : preserves talks_only (query_loop env gcodes).
Proof.
  induction gcodes as [|gcode rest IH]; cbn [query_loop].
  - talks.
  - unfold state_manager_base_state, log_debug.
    apply preserves_bind; [apply talks_only_trans | talks | intros b].
    destruct (bool_decide (b = BUSY)); [talks|].
    apply preserves_bind; [apply talks_only_trans | | intros _; exact IH].
    apply preserves_try_except;
      [apply talks_only_trans | apply serial_write_talks
      | intros [] ? [= <-]; talks].
Qed.

Lemma ask_printer_talks self : preserves talks_only (ask_printer env self).
Proof.
  unfold ask_printer, state_manager_base_state, log_debug, ping_printer.
  apply preserves_bind; [apply talks_only_trans | talks | intros b].
  apply preserves_bind;
    [apply talks_only_trans | | intros _; apply query_loop_talks].
  destruct (bool_decide (b = BUSY)); [|talks].
  apply preserves_bind; [apply talks_only_trans | talks | intros _].
  apply preserves_try_except;
    [apply talks_only_trans | apply serial_write_talks
    | intros [] ? [= <-]; talks].
Qed.

(** C3.  One cycle, however its talk to the printer ends, sends exactly one
    snapshot: the object [c] that was current, holding what it had gathered
    after gating.  At the end of the cycle [last_telemetry] is that same
    object with that same content, and [current_telemetry] is a new object,
    distinct from it, with every field unset.  Whatever matched lines the
    handlers are then given, [last_telemetry] stays that object with that
    content, [current_telemetry] stays the new object, and nothing more is
    sent. *)
Theorem update_telemetry_swaps self g c t w :
  gatherers w !! self = Some g -> current_telemetry g = Some c ->
  telemetries w !! c = Some t ->
  exists w' v c',
    snd (update_telemetry env PRINTING_STATES self w) = w' /\
    v = gated PRINTING_STATES (env_get_state env (now w)) t /\
    published (drop (length (trace w)) (trace w')) = [(c, v)] /\
    last_is self c v w' /\
    current_is self c' Telemetry_blank w' /\
    c' <> c /\ telemetries w !! c' = None /\
    forall lines,
      last_is self c v (dispatch_all py_float lines self w') /\
      (exists t', current_is self c' t'
                    (dispatch_all py_float lines self w')) /\
      published (drop (length (trace w'))
                   (trace (dispatch_all py_float lines self w'))) = [].
Proof.
  intros Hg Hc Ht.
  assert (Hlt : (c < length (telemetries w))%nat) by by eapply lookup_lt_Some.
  assert (Hself : (self < length (gatherers w))%nat)
    by by eapply lookup_lt_Some.
  set (v := gated PRINTING_STATES (env_get_state env (now w)) t).
  set (c' := length (telemetries w)).
  set (g' := set_current_telemetry (Some c') (set_last_telemetry (Some c) g)).
  exists (snd (update_telemetry env PRINTING_STATES self w)), v, c'.
  rewrite (update_telemetry_run _ _ _ _ _ Hg Hc Ht). fold v c' g'.
  set (w1 := Build_World _ _ _ _ _).
  destruct (ask_printer_talks self w1) as (Htel & Hgat & evs & Htr & Hpub).
  set (w' := snd (ask_printer env self w1)) in *.
  assert (Hg' : gatherers w' !! self = Some g').
  { rewrite Hgat. subst w1. cbn. by apply list_lookup_insert_eq. }
  assert (Hlast : telemetries w' !! c = Some v).
  { rewrite Htel. subst w1. cbn. rewrite lookup_app_l
      by (rewrite length_insert; exact Hlt).
    by apply list_lookup_insert_eq. }
  assert (Hcur : telemetries w' !! c' = Some Telemetry_blank).
  { rewrite Htel. subst w1 c'. cbn.
    rewrite lookup_app_r by (rewrite length_insert; lia).
    rewrite length_insert, Nat.sub_diag. done. }
  assert (Hne : c' <> c) by (subst c'; lia).
  split; [done|]. split; [done|]. split.
  { rewrite Htr. subst w1. cbn. rewrite <- app_assoc, drop_app_length.
    unfold published in *. cbn. by rewrite Hpub. }
  split; [by exists g'|]. split; [by exists g'|]. split; [done|].
  split; [apply lookup_ge_None; subst c'; lia|].
  intros lines.
  destruct (dispatch_all_touches lines self w') as (Hg2 & Ht2 & Hl2 & Hf2).
  set (w'' := dispatch_all py_float lines self w') in *.
  split.
  { exists g'. rewrite Hg2. repeat split; try done.
    rewrite Hf2; [done|].
    intros g0 Hg0. rewrite Hg' in Hg0. injection Hg0 as <-. cbn. congruence. }
  split.
  { assert (Hsome : is_Some (telemetries w'' !! c')).
    { apply lookup_lt_is_Some. rewrite Hl2. by eapply lookup_lt_Some. }
    destruct Hsome as [t' Ht']. exists t', g'. rewrite Hg2. done. }
  rewrite Ht2, drop_all. done.
Qed.

(** C9.  [progress_handler], given a match whose first group reads as the
    integer [p]: outside 0..100 it returns with the store untouched; inside
    it writes [p] into the progress of the current snapshot.  So the value
    it writes is always within 0..100. *)
Theorem progress_handler_range self c t w groups s p :
  current_is self c t w ->
  groups !! 0%nat = Some (Some s) -> int_literal s = Some p ->
  (p < 0 \/ 100 < p -> progress_handler self groups w = (Return tt, w)) /\
  (0 <= p <= 100 ->
   progress_handler self groups w =
     (Return tt, write c (set_progress (Some p) t) w)) /\
  (forall t', current_is self c t' (snd (progress_handler self groups w)) ->
     progress t' = progress t \/
     exists q, progress t' = Some q /\ 0 <= q <= 100).
Proof.
  intros Hcur Hg0 Hp.
  assert (Hrun : progress_handler self groups w =
    if (0 <=? p) && (p <=? 100)
    then (Return tt, write c (set_progress (Some p) t) w)
    else (Return tt, w)).
  { unfold Match in *. unfold progress_handler, item, int.
    unfold bind at 1. rewrite Hg0. cbn. unfold bind at 1. rewrite Hp. cbn.
    destruct ((0 <=? p) && (p <=? 100)); [|done].
    by apply setattr_current_run. }
  split; [|split].
  - intros Hout. rewrite Hrun.
    destruct (0 <=? p) eqn:H0; destruct (p <=? 100) eqn:H1; cbn; try done.
    lia.
  - intros Hin. rewrite Hrun.
    rewrite (proj2 (Z.leb_le 0 p)), (proj2 (Z.leb_le p 100)) by lia. done.
  - intros t' Hcur'. rewrite Hrun in Hcur'.
    destruct (0 <=? p) eqn:H0; destruct (p <=? 100) eqn:H1; cbn in Hcur'.
    2-4: left; destruct Hcur as (g1 & Hg1 & Hc1 & Ht1);
         destruct Hcur' as (g2 & Hg2 & Hc2 & Ht2); congruence.
    right. exists p. split; [|lia].
    pose proof (current_is_write _ _ _ (set_progress (Some p) t) _ Hcur) as Hw.
    destruct Hw as (g1 & Hg1 & Hc1 & Ht1).
    destruct Hcur' as (g2 & Hg2 & Hc2 & Ht2).
    cbn in *. rewrite Ht1 in Ht2. injection Ht2 as <-. done.
Qed.

End TelemetryGatherer.

(** *** The gating rule on a printing printer *)

Section TelemetryRuns.

Import OldBuddy.

Lemma world_filled_current :
  current_is 0%nat 0%nat telemetry_filled world_filled.
Proof. exists gatherer_one. repeat split; reflexivity. Qed.

(** C1, as claimed, fails: with the state manager answering [PRINTING], the
    snapshot sent still carries the [axis_z] it had gathered. *)
Lemma send_telemetry_keeps_axis_z :
  ~ gating_as_claimed (env_steady PRINTING) SAMPLE_PRINTING_STATES 0%nat
      world_filled.
Proof.
  intros H.
  destruct (H 0%nat
              (gated SAMPLE_PRINTING_STATES PRINTING telemetry_filled)
              eq_refl) as [_ Hpos].
  destruct (Hpos eq_refl) as (_ & _ & Hz).
  vm_compute in Hz. discriminate Hz.
Qed.

Lemma send_telemetry_gating_witness :
  current_is 0%nat 0%nat telemetry_filled world_filled /\
  exists v,
    fst (send_telemetry (env_steady PRINTING) SAMPLE_PRINTING_STATES 0%nat
           world_filled) = Return tt /\
    published
      (drop (length (trace world_filled))
         (trace (snd (send_telemetry (env_steady PRINTING)
                        SAMPLE_PRINTING_STATES 0%nat world_filled))))
      = [(0%nat, v)] /\
    current_is 0%nat 0%nat v
      (snd (send_telemetry (env_steady PRINTING) SAMPLE_PRINTING_STATES 0%nat
              world_filled)) /\
    (env_get_state (env_steady PRINTING) (now world_filled)
       ∉ SAMPLE_PRINTING_STATES -> job_fields_unset v) /\
    (env_get_state (env_steady PRINTING) (now world_filled) = PRINTING ->
       axis_x v = None /\ axis_y v = None) /\
    axis_z v = axis_z telemetry_filled.
Proof.
  split; [exact world_filled_current|].
  exact (send_telemetry_gating (env_steady PRINTING) SAMPLE_PRINTING_STATES
           0%nat 0%nat telemetry_filled world_filled world_filled_current).
Defined.

Lemma update_telemetry_queries_witness :
  current_is 0%nat 0%nat telemetry_filled world_filled /\
  (forall n, (now world_filled <= n)%nat ->
             env_base_state (env_refusing READY) n <> BUSY) /\
  (forall n gcode, (now world_filled <= n)%nat ->
     taken_or_ignored (env_write (env_refusing READY) n gcode)) /\
  exists w' evs,
    update_telemetry (env_refusing READY) SAMPLE_PRINTING_STATES 0%nat
      world_filled = (Return tt, w') /\
    trace w' = trace world_filled ++ evs /\
    written evs = ["M105"; "M114"; "PRUSA FAN"; "M27"; "M73"] /\
    log_levels evs = map (fun _ => LOG_DEBUG) (refused evs).
Proof.
  assert (Hb : forall n, (now world_filled <= n)%nat ->
                 env_base_state (env_refusing READY) n <> BUSY)
    by (intros n _; simpl; discriminate).
  assert (Hw : forall n gcode, (now world_filled <= n)%nat ->
                 taken_or_ignored (env_write (env_refusing READY) n gcode))
    by (intros n gcode _; right; reflexivity).
  split; [exact world_filled_current|]. split; [exact Hb|].
  split; [exact Hw|].
  exact (update_telemetry_queries (env_refusing READY) SAMPLE_PRINTING_STATES
           0%nat 0%nat telemetry_filled world_filled
           world_filled_current Hb Hw).
Defined.

Lemma update_telemetry_busy_witness :
  current_is 0%nat 0%nat telemetry_filled world_filled /\
  (forall n, (now world_filled <= n)%nat ->
             env_base_state (env_refusing BUSY) n = BUSY) /\
  (forall n, taken_or_ignored (env_write (env_refusing BUSY) n "PRUSA PING")) /\
  exists w' evs,
    update_telemetry (env_refusing BUSY) SAMPLE_PRINTING_STATES 0%nat
      world_filled = (Return tt, w') /\
    trace w' = trace world_filled ++ evs /\
    written evs = ["PRUSA PING"] /\
    Forall (fun gcode => gcode ∉ TELEMETRY_GCODES) (written evs).
Proof.
  assert (Hb : forall n, (now world_filled <= n)%nat ->
                 env_base_state (env_refusing BUSY) n = BUSY)
    by (intros n _; reflexivity).
  assert (Hw : forall n,
                 taken_or_ignored (env_write (env_refusing BUSY) n "PRUSA PING"))
    by (intros n; right; reflexivity).
  split; [exact world_filled_current|]. split; [exact Hb|].
  split; [exact Hw|].
  exact (update_telemetry_busy (env_refusing BUSY) SAMPLE_PRINTING_STATES
           0%nat 0%nat telemetry_filled world_filled
           world_filled_current Hb Hw).
Defined.

Lemma update_telemetry_swaps_witness :
  gatherers world_filled !! 0%nat = Some gatherer_one /\
  current_telemetry gatherer_one = Some 0%nat /\
  telemetries world_filled !! 0%nat = Some telemetry_filled /\
  exists w' v c',
    snd (update_telemetry (env_steady READY) SAMPLE_PRINTING_STATES 0%nat
           world_filled) = w' /\
    v = gated SAMPLE_PRINTING_STATES
          (env_get_state (env_steady READY) (now world_filled))
          telemetry_filled /\
    published (drop (length (trace world_filled)) (trace w')) = [(0%nat, v)] /\
    last_is 0%nat 0%nat v w' /\
    current_is 0%nat c' Telemetry_blank w' /\
    c' <> 0%nat /\ telemetries world_filled !! c' = None /\
    forall lines,
      last_is 0%nat 0%nat v (dispatch_all float_one lines 0%nat w') /\
      (exists t', current_is 0%nat c' t'
                    (dispatch_all float_one lines 0%nat w')) /\
      published (drop (length (trace w'))
                   (trace (dispatch_all float_one lines 0%nat w'))) = [].
Proof.
  split; [reflexivity|]. split; [reflexivity|]. split; [reflexivity|].
  exact (update_telemetry_swaps (env_steady READY) SAMPLE_PRINTING_STATES
           float_one 0%nat gatherer_one 0%nat telemetry_filled world_filled
           eq_refl eq_refl eq_refl).
Defined.

Lemma progress_handler_range_witness :
  current_is 0%nat 0%nat telemetry_filled world_filled /\
  [Some "140"] !! 0%nat = Some (Some "140") /\
  int_literal "140" = Some 140 /\
  (140 < 0 \/ 100 < 140 ->
   progress_handler 0%nat [Some "140"] world_filled
     = (Return tt, world_filled)) /\
  (0 <= 140 <= 100 ->
   progress_handler 0%nat [Some "140"] world_filled =
     (Return tt,
      set_telemetries
        (<[0%nat := set_progress (Some 140) telemetry_filled]>
           (telemetries world_filled)) world_filled)) /\
  (forall t',
     current_is 0%nat 0%nat t'
       (snd (progress_handler 0%nat [Some "140"] world_filled)) ->
     progress t' = progress telemetry_filled \/
     exists q, progress t' = Some q /\ 0 <= q <= 100).
Proof.
  split; [exact world_filled_current|]. split; [reflexivity|].
  split; [reflexivity|].
  exact (progress_handler_range 0%nat 0%nat telemetry_filled world_filled
           [Some "140"] "140" 140 world_filled_current eq_refl eq_refl).
Defined.

(** Three cycles run on [world_filled]: nothing busy, everything refused
    while busy, and the printer turning busy after the second query. *)
Example cycle_ready :
  written (trace (snd (update_telemetry (env_steady READY)
                         SAMPLE_PRINTING_STATES 0%nat world_filled)))
    = ["M105"; "M114"; "PRUSA FAN"; "M27"; "M73"].
Proof. reflexivity. Qed.

Example cycle_busy_refused :
  update_telemetry (env_refusing BUSY) SAMPLE_PRINTING_STATES 0%nat
    world_filled
  = (Return tt,
     {| telemetries :=
          [set_state (Some "BUSY")
             (set_progress None telemetry_filled); Telemetry_blank];
        gatherers :=
          [set_current_telemetry (Some 1%nat) gatherer_one];
        class_instance := None;
        now := 4;
        trace := trace world_filled ++
          [Sent 0%nat 0%nat
             (set_state (Some "BUSY") (set_progress None telemetry_filled));
           Logged LOG_DEBUG "Printer seems busy, not asking for telemetry";
           Wrote "PRUSA PING" (Some WriteIgnored)] |}).
Proof. reflexivity. Qed.

Example cycle_turning_busy :
  written (trace (snd (update_telemetry (env_busy_from 6)
                         SAMPLE_PRINTING_STATES 0%nat world_filled)))
    = ["M105"; "M114"].
Proof. reflexivity. Qed.

(** *** The instance guard of [TelemetryGatherer] *)

Lemma snoc_lookup {A} (l : list A) x : (l ++ [x]) !! length l = Some x.
Proof. by rewrite lookup_app_r, Nat.sub_diag by lia. Qed.

Lemma snoc_insert {A} (l : list A) x y :
  <[length l := y]> (l ++ [x]) = l ++ [y].
Proof. by rewrite insert_app_r_alt, Nat.sub_diag by lia. Qed.

Lemma setattr_self_snoc T l g f ci n tr :
  setattr_self (length l) f
    {| telemetries := T; gatherers := l ++ [g]; class_instance := ci;
       now := n; trace := tr |}
  = (Return tt,
     {| telemetries := T; gatherers := l ++ [f g]; class_instance := ci;
        now := n; trace := tr |}).
Proof.
  unfold setattr_self, load_gatherer, store_gatherer, set_gatherers,
    bind, get, of_option, modify, ret.
  cbn [gatherers telemetries class_instance now trace].
  rewrite snoc_lookup. cbv beta iota.
  cbn [gatherers telemetries class_instance now trace].
  by rewrite snoc_insert.
Qed.

Lemma self_instance_snoc T l g ci n tr :
  instance g = None ->
  self_instance (length l)
    {| telemetries := T; gatherers := l ++ [g]; class_instance := ci;
       now := n; trace := tr |}
  = (Return ci,
     {| telemetries := T; gatherers := l ++ [g]; class_instance := ci;
        now := n; trace := tr |}).
Proof.
  intros Hi.
  unfold self_instance, load_gatherer, bind, get, of_option, ret.
  cbn [gatherers telemetries class_instance now trace].
  rewrite snoc_lookup. cbv beta iota. by rewrite Hi.
Qed.

Lemma self_current_telemetry_snoc T l g t ci n tr :
  current_telemetry g = Some t ->
  self_current_telemetry (length l)
    {| telemetries := T; gatherers := l ++ [g]; class_instance := ci;
       now := n; trace := tr |}
  = (Return t,
     {| telemetries := T; gatherers := l ++ [g]; class_instance := ci;
        now := n; trace := tr |}).
Proof.
  intros Hc.
  unfold self_current_telemetry, load_gatherer, bind, get, of_option, ret.
  cbn [gatherers telemetries class_instance now trace].
  rewrite snoc_lookup. cbv beta iota. by rewrite Hc.
Qed.

(** The next statement of a method body. *)
Ltac next := unfold bind at 1; cbv beta iota.

(** A construction never binds the class attribute: [__init__] assigns
    [instance] on the object, so in a store where the class attribute is
    [None] every construction goes through and leaves it [None]. *)
Lemma TelemetryGatherer_new_unguarded w :
  class_instance w = None ->
  exists w',
    TelemetryGatherer_new w = (Return (length (gatherers w)), w') /\
    class_instance w' = None /\
    length (gatherers w') = S (length (gatherers w)).
Proof.
  destruct w as [T l ci n tr]. cbn [class_instance gatherers]. intros ->.
  eexists. split.
  2: split.
  unfold TelemetryGatherer_new.
  next. unfold get at 1. cbv beta iota.
  cbn [gatherers]. next. unfold modify at 1, set_gatherers.
  cbn [gatherers telemetries class_instance now trace].
  next. unfold __init__.
  next. rewrite self_instance_snoc by reflexivity. cbv beta iota.
  next. rewrite setattr_self_snoc.
  unfold register_output_handler, emit, modify, set_trace.
  do 9 (next; cbn [gatherers telemetries class_instance now trace]).
  next. unfold Telemetry_new.
  next. unfold get at 1. cbv beta iota.
  next. unfold modify at 1, set_telemetries, ret.
  cbn [gatherers telemetries class_instance now trace].
  next. rewrite setattr_self_snoc.
  next. erewrite self_current_telemetry_snoc by reflexivity.
  next. rewrite setattr_self_snoc.
  next. rewrite setattr_self_snoc.
  cbv beta iota. cbn [gatherers telemetries class_instance now trace].
  unfold ret. reflexivity.
  - reflexivity.
  - cbn [gatherers]. rewrite length_app. cbn [length]. lia.
Qed.

(** C8, at the input that breaks it: in the module as loaded, a first
    [TelemetryGatherer] is constructed, and then a second construction
    returns a second object instead of raising; the class attribute the
    guard reads is [None] before and after. *)
Theorem TelemetryGatherer_constructed_twice :
  fst (TelemetryGatherer_new World_initial) = Return 0%nat /\
  fst (TelemetryGatherer_new (snd (TelemetryGatherer_new World_initial)))
    = Return 1%nat /\
  class_instance
    (snd (TelemetryGatherer_new (snd (TelemetryGatherer_new World_initial))))
    = None.
Proof. repeat split; reflexivity. Qed.

End TelemetryRuns.

(** ** The start-up getters *)

Section GettersFacts.

Import Getters.

Variable instruction_match : Instruction -> option Match.
Variable loop_turns : Instruction -> nat.
Variable MINIMAL_FIRMWARE : StrictVersion.
Variable py_float : string -> option float.

Example StrictVersion_parse_3_10 :
  StrictVersion_parse "3.10"
    = Some {| version := (3, 10, 0); prerelease := None |}.
Proof. reflexivity. Qed.

Example StrictVersion_parse_3_10_1b2 :
  StrictVersion_parse "3.10.1b2"
    = Some {| version := (3, 10, 1); prerelease := Some ("b"%char, 2) |}.
Proof. reflexivity. Qed.

Example StrictVersion_parse_3 : StrictVersion_parse "3" = None.
Proof. reflexivity. Qed.

Example StrictVersion_ge_3_10_3_9 :
  StrictVersion_ge {| version := (3, 10, 0); prerelease := None |}
    FIRMWARE_3_9 = true.
Proof. reflexivity. Qed.

(** *** The scheduling loop *)

Lemma sends_on_refl q : sends_on q q.
Proof.
  unfold sends_on. split; [done|]. split.
  - by exists 0%nat.
  - exists []. by rewrite app_nil_r.
Qed.

Lemma sends_on_trans a b c : sends_on a b -> sends_on b c -> sends_on a c.
Proof.
  intros (He1 & (n1 & Hn1) & m1 & Hs1) (He2 & (n2 & Hn2) & m2 & Hs2).
  unfold sends_on. split; [congruence|]. split.
  - exists (n1 + n2)%nat. by rewrite Hn2, Hn1, drop_drop.
  - exists (m1 ++ m2). by rewrite Hs2, Hs1, app_assoc.
Qed.

Lemma pop_sends_on q : sends_on q (pop q).
Proof.
  unfold pop. destruct (exclusive q) eqn:Hex; [apply sends_on_refl|].
  destruct (front_tier q) as [|i rest] eqn:Hf.
  - destruct (normal_tier q) as [|j r] eqn:Hn; [apply sends_on_refl|].
    unfold sends_on, sending_order. cbn. rewrite Hf, Hn, Hex.
    split; [done|]. split.
    + by exists 1%nat.
    + exists [j]. by rewrite !app_nil_r.
  - unfold sends_on, sending_order. cbn. rewrite Hf, Hex.
    split; [done|]. split.
    + by exists 0%nat.
    + exists []. by rewrite app_nil_r, <- app_assoc.
Qed.

Lemma pop_n_sends_on n q : sends_on q (pop_n n q).
Proof.
  revert q. induction n as [|n IH]; intros q; cbn.
  - apply sends_on_refl.
  - eapply sends_on_trans; [apply pop_sends_on|apply IH].
Qed.

Lemma pop_next_id q : next_id (pop q) = next_id q.
Proof.
  unfold pop. destruct (exclusive q); [done|].
  by destruct (front_tier q), (normal_tier q).
Qed.

Lemma pop_n_next_id n q : next_id (pop_n n q) = next_id q.
Proof.
  revert q. induction n as [|n IH]; intros q; cbn; [done|].
  by rewrite IH, pop_next_id.
Qed.

Lemma pop_n_exclusive n q : exclusive (pop_n n q) = exclusive q.
Proof. apply pop_n_sends_on. Qed.

Lemma pop_sent_grows q : exists more, sent (pop q) = sent q ++ more.
Proof.
  unfold pop. destruct (exclusive q).
  { exists []. by rewrite app_nil_r. }
  destruct (front_tier q) as [|i rest]; [destruct (normal_tier q) as [|j r]|];
    cbn; try by eexists.
  exists []. by rewrite app_nil_r.
Qed.

Lemma pop_n_sent_grows n q : exists more, sent (pop_n n q) = sent q ++ more.
Proof.
  revert q. induction n as [|n IH]; intros q; cbn.
  - exists []. by rewrite app_nil_r.
  - destruct (IH (pop q)) as [m2 H2]. destruct (pop_sent_grows q) as [m1 H1].
    exists (m1 ++ m2). by rewrite H2, H1, app_assoc.
Qed.

(** The loop sends the front tier in its order: after more turns than an
    instruction has front instructions before it, it has been sent. *)
Lemma pop_n_sends_place n q k i :
  exclusive q = false -> front_tier q !! k = Some i -> (k < n)%nat ->
  i ∈ sent (pop_n n q).
Proof.
  revert q k. induction n as [|n IH]; intros q k Hex Hk Hlt; [lia|].
  destruct (front_tier q) as [|j rest] eqn:Hf; [done|].
  assert (Hpop : pop q =
    {| front_tier := rest; normal_tier := normal_tier q;
       sent := sent q ++ [j]; exclusive := exclusive q;
       next_id := next_id q |}).
  { unfold pop. by rewrite Hex, Hf. }
  change (pop_n (S n) q) with (pop_n n (pop q)).
  destruct k as [|k'].
  - injection Hk as ->.
    destruct (pop_n_sent_grows n (pop q)) as [more Hm].
    rewrite Hm, Hpop. cbn. set_solver.
  - apply (IH _ k'); rewrite ?Hpop; cbn; [done|done|lia].
Qed.

Lemma position_lookup i tier k :
  position i tier = Some k -> tier !! k = Some i.
Proof.
  revert k. induction tier as [|j rest IH]; intros k; cbn; [done|].
  case_bool_decide as Hj.
  - intros [= <-]. by subst.
  - destruct (position i rest) as [k'|]; cbn; [|done].
    intros [= <-]. by apply IH.
Qed.

Lemma position_last i tier : is_Some (position i (tier ++ [i])).
Proof.
  induction tier as [|j rest IH]; cbn.
  - by rewrite bool_decide_eq_true_2.
  - case_bool_decide; [done|]. destruct IH as [k ->]. done.
Qed.

(** *** The getters *)

Lemma fronts_only_refl w : fronts_only w w.
Proof.
  split; [apply sends_on_refl|]. exists []. by rewrite app_nil_r.
Qed.

Lemma fronts_only_trans a b c :
  fronts_only a b -> fronts_only b c -> fronts_only a c.
Proof.
  intros (Hq1 & r1 & Hc1 & Ha1) (Hq2 & r2 & Hc2 & Ha2).
  split; [by eapply sends_on_trans|].
  exists (r1 ++ r2). rewrite Hc2, Hc1, app_assoc. split; [done|].
  by apply Forall_app.
Qed.

Lemma fronts_only_same w w' :
  serial_queue w' = serial_queue w -> calls w' = calls w -> fronts_only w w'.
Proof.
  intros Hq Hc. unfold fronts_only. rewrite Hq, Hc. apply fronts_only_refl.
Qed.

Lemma set_ok_fronts b :
  preserves fronts_only (modify (set_ID_ok b)) /\
  preserves fronts_only (modify (set_FW_ok b)).
Proof. split; intros w; by apply fronts_only_same. Qed.

Lemma wait_for_instruction_fronts i :
  preserves fronts_only (wait_for_instruction instruction_match loop_turns i).
Proof.
  intros w. unfold wait_for_instruction, call, bind, modify. cbn.
  split; cbn.
  - apply pop_n_sends_on.
  - exists [WaitFor i]. split; [done|]. constructor; [done|constructor].
Qed.

Lemma enqueue_instruction_run message w :
  exclusive (serial_queue w) = false ->
  enqueue_instruction message true w =
    (Return {| seq_id := next_id (serial_queue w); payload := message;
               matcher := None; front := true |},
     {| serial_queue :=
          {| front_tier :=
               front_tier (serial_queue w)
                 ++ [{| seq_id := next_id (serial_queue w);
                        payload := message; matcher := None;
                        front := true |}];
             normal_tier := normal_tier (serial_queue w);
             sent := sent (serial_queue w);
             exclusive := exclusive (serial_queue w);
             next_id := S (next_id (serial_queue w)) |};
        ID_ok := ID_ok w; FW_ok := FW_ok w;
        calls := calls w ++ [EnqueueInstruction message true] |}).
Proof.
  intros Hex.
  unfold enqueue_instruction, submit, call, enqueue, bind, get, modify, ret,
    raise.
  cbn. rewrite Hex. reflexivity.
Qed.

Lemma enqueue_instruction_fronts message :
  preserves fronts_only (enqueue_instruction message true).
Proof.
  intros w. destruct (exclusive (serial_queue w)) eqn:Hex.
  - unfold enqueue_instruction, submit, call, enqueue, bind, get, modify,
      ret, raise.
    cbn. rewrite Hex. cbn. split; [apply sends_on_refl|].
    exists [EnqueueInstruction message true].
    split; [done|]. constructor; [done|constructor].
  - rewrite enqueue_instruction_run by done. cbn. split.
    + unfold sends_on, sending_order. cbn. split; [done|]. split.
      * by exists 0%nat.
      * eexists. by rewrite app_assoc.
    + exists [EnqueueInstruction message true].
      split; [done|]. constructor; [done|constructor].
Qed.

Lemma float_fronts x : preserves fronts_only (float_ py_float x).
Proof.
  intros w. unfold float_. destruct x as [s|]; [|apply fronts_only_refl].
  destruct (py_float s); apply fronts_only_refl.
Qed.

Lemma supported_fronts x :
  preserves fronts_only (supported MINIMAL_FIRMWARE x).
Proof.
  intros w. unfold supported.
  destruct x as [[|c s]|]; try apply fronts_only_refl.
  destruct (StrictVersion_parse _); apply fronts_only_refl.
Qed.

(** Closing [preserves fronts_only m] for the steps a getter takes after
    its first call. *)
Ltac fronts :=
  repeat first
    [ apply wait_for_instruction_fronts
    | apply enqueue_instruction_fronts
    | apply float_fronts
    | apply supported_fronts
    | apply (proj1 (set_ok_fronts _))
    | apply (proj2 (set_ok_fronts _))
    | apply preserves_item; apply fronts_only_refl
    | apply preserves_int; apply fronts_only_refl
    | apply preserves_ret; apply fronts_only_refl
    | apply preserves_raise; apply fronts_only_refl
    | apply preserves_bind; [apply fronts_only_trans | | intros ?]
    | match goal with
      | |- preserves _ (match ?x with _ => _ end) => destruct x
      end ].

Lemma enqueue_matchable_run message regex w :
  enqueue_matchable message regex true w =
  if exclusive (serial_queue w) then
    (Raise WriteIgnored,
     set_calls (calls w ++ [EnqueueMatchable message regex true]) w)
  else
    (Return (probe message regex (serial_queue w)),
     enqueued message regex w).
Proof.
  unfold enqueue_matchable, submit, call, enqueue, bind, get, modify, ret,
    raise, probe, enqueued.
  cbn. destruct (exclusive (serial_queue w)); reflexivity.
Qed.

(** A getter that starts by enqueueing its line to the front and then only
    ever enqueues to the front is a probe. *)
Lemma front_probe_intro {A} message regex (k : Instruction -> M World A) :
  (forall i, preserves fronts_only (k i)) ->
  front_probe (i <- enqueue_matchable message regex true;; k i)
    message regex.
Proof.
  intros Hk w. unfold bind. rewrite enqueue_matchable_run.
  destruct (exclusive (serial_queue w)) eqn:Hex.
  - split; [|done]. cbn. exists []. split; [done|constructor].
  - set (i := probe message regex (serial_queue w)).
    destruct (Hk i (enqueued message regex w))
      as ((He & (n & Hn) & more & Hs) & rest & Hc & Hall).
    split.
    + exists rest. rewrite Hc. cbn. rewrite <- app_assoc. done.
    + intros _. split; [by exists n|]. split.
      * exists more. rewrite Hs. unfold sending_order. cbn.
        rewrite <- !app_assoc. done.
      * intros Hempty. unfold next_to_send. cbn. rewrite Hempty. done.
Qed.

(** C5.  Each of the three start-up getters is a probe for its own line
    and matcher: its first call enqueues that line to the front and no
    later call of it enqueues to the normal tier, so in the order of
    sending the instruction comes right behind the front instructions
    already pending and ahead of whatever waits in the normal tier. *)
Theorem getters_probe_to_front :
  front_probe (get_printer_type instruction_match loop_turns)
    "M862.2 Q" PRINTER_TYPE_REGEX /\
  front_probe
    (get_firmware_version instruction_match loop_turns MINIMAL_FIRMWARE)
    "M115" FW_REGEX /\
  front_probe (get_nozzle_diameter instruction_match loop_turns py_float)
    "M862.1 Q" NOZZLE_REGEX.
Proof.
  split; [|split].
  - unfold get_printer_type. apply front_probe_intro. intros i. fronts.
  - unfold get_firmware_version. apply front_probe_intro. intros i. fronts.
  - unfold get_nozzle_diameter. apply front_probe_intro. intros i. fronts.
Qed.

(** What the firmware-version matcher captures is a version
    [StrictVersion] reads, with no patch number and no pre-release tag. *)
Lemma fw_capture_parses g :
  fw_capture g = true ->
  g <> "" /\
  exists major minor,
    StrictVersion_parse g
      = Some {| version := (major, minor, 0); prerelease := None |}.
Proof.
  unfold fw_capture, StrictVersion_parse. intros H. split.
  { intros ->. discriminate H. }
  destruct (number g) as [[major s0]|]; [|discriminate H]. cbn.
  destruct (dot_rest s0) as [s1|]; [|discriminate H]. cbn.
  destruct (number s1) as [[minor [|c s2]]|]; try discriminate H. cbn.
  by exists major, minor.
Qed.

(** A getter up to the point where its instruction has been waited for. *)
Lemma getter_prefix {A} message regex (k : Instruction -> M World A) w :
  exclusive (serial_queue w) = false ->
  (i <- enqueue_matchable message regex true;;
   wait_for_instruction instruction_match loop_turns i;;; k i) w
  = k (probe message regex (serial_queue w))
      (submitted instruction_match loop_turns message regex w).
Proof.
  intros Hex. unfold bind at 1. rewrite enqueue_matchable_run, Hex.
  unfold bind, wait_for_instruction, call, modify, submitted, enqueued,
    set_calls, set_serial_queue.
  cbn. rewrite <- app_assoc. reflexivity.
Qed.

Lemma submitted_exclusive message regex w :
  exclusive
    (serial_queue (submitted instruction_match loop_turns message regex w))
  = exclusive (serial_queue w).
Proof. unfold submitted. cbn. by rewrite pop_n_exclusive. Qed.

Lemma submitted_next_id message regex w :
  next_id
    (serial_queue (submitted instruction_match loop_turns message regex w))
  = S (next_id (serial_queue w)).
Proof. unfold submitted. cbn. by rewrite pop_n_next_id. Qed.

(** An instruction that holds a match when the wait returns has been
    popped and sent. *)
Lemma matched_probe_sent message regex w groups :
  exclusive (serial_queue w) = false ->
  instruction_match (probe message regex (serial_queue w)) = Some groups ->
  probe message regex (serial_queue w)
    ∈ sent (serial_queue
              (submitted instruction_match loop_turns message regex w)).
Proof.
  intros Hex Hsome. unfold submitted. cbn.
  set (i := probe message regex (serial_queue w)).
  set (q := Build_SerialQueue _ _ _ _ _).
  destruct (position_last i (front_tier (serial_queue w))) as [k Hk].
  apply (pop_n_sends_place _ q k); [done| |].
  - apply position_lookup. exact Hk.
  - unfold turns_waited, turns_to_send. subst i q. rewrite Hsome.
    cbn [front_tier]. rewrite Hk. lia.
Qed.

(** C6.  With write-exclusivity free, [get_firmware_version] enqueues
    "M115" with the firmware-version matcher to the front and waits for
    it.  If the instruction then holds no match, the call raises
    [RuntimeError].  If it holds a match, the first group decides: a text
    [StrictVersion] reads is returned, [errors.FW.ok] having been set to
    whether that version is at least the minimal one; any other text makes
    the comparison raise [ValueError], an empty or absent group
    [AttributeError], a match without groups [IndexError], and nothing is
    returned.  What the matcher of the specification captures is a text
    [StrictVersion] reads. *)
Theorem get_firmware_version_result w :
  exclusive (serial_queue w) = false ->
  (instruction_match (probe "M115" FW_REGEX (serial_queue w)) = None ->
   get_firmware_version instruction_match loop_turns MINIMAL_FIRMWARE w =
     (Raise (RuntimeError "Printer responded with something unexpected"),
      submitted instruction_match loop_turns "M115" FW_REGEX w)) /\
  (forall groups g v,
     instruction_match (probe "M115" FW_REGEX (serial_queue w))
       = Some groups ->
     groups !! 0%nat = Some (Some g) -> StrictVersion_parse g = Some v ->
     get_firmware_version instruction_match loop_turns MINIMAL_FIRMWARE w =
       (Return (Some g),
        set_FW_ok (StrictVersion_ge v MINIMAL_FIRMWARE)
          (submitted instruction_match loop_turns "M115" FW_REGEX w))) /\
  (forall groups g,
     instruction_match (probe "M115" FW_REGEX (serial_queue w))
       = Some groups ->
     groups !! 0%nat = Some (Some g) -> g <> "" ->
     StrictVersion_parse g = None ->
     get_firmware_version instruction_match loop_turns MINIMAL_FIRMWARE w =
       (Raise (ValueError "invalid version number"),
        submitted instruction_match loop_turns "M115" FW_REGEX w)) /\
  (forall groups,
     instruction_match (probe "M115" FW_REGEX (serial_queue w))
       = Some groups ->
     groups !! 0%nat = Some None \/ groups !! 0%nat = Some (Some "") ->
     get_firmware_version instruction_match loop_turns MINIMAL_FIRMWARE w =
       (Raise (AttributeError "version"),
        submitted instruction_match loop_turns "M115" FW_REGEX w)) /\
  (forall groups,
     instruction_match (probe "M115" FW_REGEX (serial_queue w))
       = Some groups ->
     groups !! 0%nat = None ->
     get_firmware_version instruction_match loop_turns MINIMAL_FIRMWARE w =
       (Raise IndexError,
        submitted instruction_match loop_turns "M115" FW_REGEX w)) /\
  (forall g, fw_capture g = true -> exists v, StrictVersion_parse g = Some v).
Proof.
  intros Hex. unfold get_firmware_version.
  split; [|split; [|split; [|split; [|split]]]].
  - intros Hnone. rewrite getter_prefix by exact Hex. rewrite Hnone.
    reflexivity.
  - intros groups g v Hsome Hg0 Hparse. unfold Match in *.
    rewrite getter_prefix by exact Hex. rewrite Hsome.
    unfold item. unfold bind at 1. rewrite Hg0. cbv beta iota.
    unfold ret at 1. cbv beta iota.
    unfold bind at 1. unfold supported.
    destruct g as [|c g']; [discriminate Hparse|]. rewrite Hparse.
    reflexivity.
  - intros groups g Hsome Hg0 Hne Hparse. unfold Match in *.
    rewrite getter_prefix by exact Hex. rewrite Hsome.
    unfold item. unfold bind at 1. rewrite Hg0. cbv beta iota.
    unfold ret at 1. cbv beta iota.
    unfold bind at 1. unfold supported.
    destruct g as [|c g']; [done|]. rewrite Hparse.
    reflexivity.
  - intros groups Hsome Hg0. unfold Match in *.
    rewrite getter_prefix by exact Hex. rewrite Hsome.
    unfold item. unfold bind at 1.
    destruct Hg0 as [Hg0|Hg0]; rewrite Hg0; reflexivity.
  - intros groups Hsome Hg0. unfold Match in *.
    rewrite getter_prefix by exact Hex. rewrite Hsome.
    unfold item. unfold bind at 1. rewrite Hg0. reflexivity.
  - intros g Hcap.
    destruct (fw_capture_parses g Hcap) as (_ & major & minor & Hparse).
    by eexists.
Qed.

End GettersFacts.

Section GettersRuns.

Import Getters.

(** C6, as claimed, fails: the instruction holds a match whose first group
    is "3", and the call raises instead of returning it. *)
Lemma get_firmware_version_raises_on_match :
  ~ returns_first_group (answers "3") returns_at_once FIRMWARE_3_9
      world_pending.
Proof.
  intros H. specialize (H [Some "3"] (Some "3") eq_refl eq_refl).
  vm_compute in H. discriminate H.
Qed.

Lemma get_firmware_version_result_witness :
  exclusive (serial_queue world_pending) = false /\
  get_firmware_version (answers "3.9.1") returns_at_once FIRMWARE_3_9
      world_pending =
    (Return (Some "3.9.1"),
     set_FW_ok true
       (submitted (answers "3.9.1") returns_at_once "M115" FW_REGEX
          world_pending)) /\
  get_firmware_version (answers "3") returns_at_once FIRMWARE_3_9
      world_pending =
    (Raise (ValueError "invalid version number"),
     submitted (answers "3") returns_at_once "M115" FW_REGEX world_pending) /\
  get_firmware_version (answers "") returns_at_once FIRMWARE_3_9
      world_pending =
    (Raise (AttributeError "version"),
     submitted (answers "") returns_at_once "M115" FW_REGEX world_pending) /\
  get_firmware_version unanswered returns_at_once FIRMWARE_3_9
      world_pending =
    (Raise (RuntimeError "Printer responded with something unexpected"),
     submitted unanswered returns_at_once "M115" FW_REGEX world_pending).
Proof.
  split; [reflexivity|]. split; [|split; [|split]].
  - exact (proj1 (proj2
             (get_firmware_version_result (answers "3.9.1") returns_at_once
                FIRMWARE_3_9 world_pending eq_refl))
             [Some "3.9.1"] "3.9.1"
             {| version := (3, 9, 1); prerelease := None |}
             eq_refl eq_refl eq_refl).
  - refine (proj1 (proj2 (proj2
              (get_firmware_version_result (answers "3") returns_at_once
                 FIRMWARE_3_9 world_pending eq_refl)))
              [Some "3"] "3" eq_refl eq_refl _ eq_refl).
    discriminate.
  - exact (proj1 (proj2 (proj2 (proj2
             (get_firmware_version_result (answers "") returns_at_once
                FIRMWARE_3_9 world_pending eq_refl))))
             [Some ""] eq_refl (or_intror eq_refl)).
  - exact (proj1
             (get_firmware_version_result unanswered returns_at_once
                FIRMWARE_3_9 world_pending eq_refl)
             eq_refl).
Defined.

(** A first group that is no strict version makes the comparison raise;
    the matcher of the specification captures no such text. *)
Example get_firmware_version_not_strict :
  fw_capture "3.10.0.1" = false /\
  fst (get_firmware_version (answers "3.10.0.1") returns_at_once
         FIRMWARE_3_9 world_pending)
    = Raise (ValueError "invalid version number").
Proof. split; reflexivity. Qed.

(** The scenario of the specification: the printer answers "3.10", the
    getter returns "3.10"; the probe has been sent, ahead of the query
    that was pending and still is. *)
Example get_firmware_version_3_10 :
  fst (get_firmware_version (answers "3.10") returns_at_once FIRMWARE_3_9
         world_pending)
    = Return (Some "3.10") /\
  sent
    (serial_queue
       (snd (get_firmware_version (answers "3.10") returns_at_once
               FIRMWARE_3_9 world_pending)))
    = [probe "M115" FW_REGEX (serial_queue world_pending)] /\
  next_to_send
    (serial_queue
       (snd (get_firmware_version (answers "3.10") returns_at_once
               FIRMWARE_3_9 world_pending)))
    = head (normal_tier (serial_queue world_pending)).
Proof. repeat split; reflexivity. Qed.

End GettersRuns.

(** ** The module data classes *)

Section ModuleDataClassesFacts.

Import ModuleDataClasses.

(** C7.  A [StateManagerData] constructed without arguments has
    [base_state] [READY], and [printing_state] and [override_state]
    [None]. *)
Theorem StateManagerData_defaults :
  base_state (StateManagerData_new no_kwargs) = Some READY /\
  printing_state (StateManagerData_new no_kwargs) = None /\
  override_state (StateManagerData_new no_kwargs) = None.
Proof. repeat split. Qed.

End ModuleDataClassesFacts.

(** ** The instance guards of [Config] and [Settings] *)

Section ConfigFacts.

Import Config.

Variables Args ConfigData SettingsData : Type.
Variable Config_read : Args -> exn + ConfigData.
Variable Settings_read : string -> exn + SettingsData.

(** Once [Config.instance] is bound, constructing a [Config] raises. *)
Lemma Config_guard args (w : World ConfigData SettingsData) c :
  Config_instance w = Some c ->
  fst (Config_new Config_read args w) = Raise (RuntimeError "Config is singleton").
Proof.
  intros H. unfold Config_new, Config_init, bind, get, modify. cbn.
  by rewrite H.
Qed.

(** A construction of [Config] that returns binds [Config.instance]. *)
Lemma Config_new_binds args (w : World ConfigData SettingsData) c :
  fst (Config_new Config_read args w) = Return c ->
  Config_instance (snd (Config_new Config_read args w)) = Some c.
Proof.
  unfold Config_new, Config_init, bind, get, modify, ret, raise. cbn.
  destruct (Config_instance w); cbn; [discriminate|].
  destruct (Config_read args); cbn; [discriminate|].
  by intros [= <-].
Qed.

Lemma Settings_guard file (w : World ConfigData SettingsData) c :
  Settings_instance w = Some c ->
  fst (Settings_new Settings_read file w)
    = Raise (RuntimeError "Config is singleton").
Proof.
  intros H. unfold Settings_new, Settings_init, bind, get, modify. cbn.
  by rewrite H.
Qed.

Lemma Settings_new_binds file (w : World ConfigData SettingsData) c :
  fst (Settings_new Settings_read file w) = Return c ->
  Settings_instance (snd (Settings_new Settings_read file w)) = Some c.
Proof.
  unfold Settings_new, Settings_init, bind, get, modify, ret, raise. cbn.
  destruct (Settings_instance w); cbn; [discriminate|].
  destruct (Settings_read file); cbn; [discriminate|].
  by intros [= <-].
Qed.

(** So a second [Config] after a first is refused, and the same for
    [Settings]: the guard [TelemetryGatherer] was meant to have. *)
Lemma Config_second_refused args1 args2 (w : World ConfigData SettingsData) c :
  fst (Config_new Config_read args1 w) = Return c ->
  fst (Config_new Config_read args2 (snd (Config_new Config_read args1 w)))
    = Raise (RuntimeError "Config is singleton").
Proof. intros H. eapply Config_guard, Config_new_binds, H. Qed.

Lemma Settings_second_refused f1 f2 (w : World ConfigData SettingsData) c :
  fst (Settings_new Settings_read f1 w) = Return c ->
  fst (Settings_new Settings_read f2 (snd (Settings_new Settings_read f1 w)))
    = Raise (RuntimeError "Config is singleton").
Proof. intros H. eapply Settings_guard, Settings_new_binds, H. Qed.

End ConfigFacts.

(** ** The legacy file handlers *)

Section FilesLegacyFacts.

Import FilesLegacy.

Example join_relative : join "/data" "a.gcode" = "/data/a.gcode".
Proof. reflexivity. Qed.

Example join_after_sep : join "/data/" "a.gcode" = "/data/a.gcode".
Proof. reflexivity. Qed.

Example join_absolute : join "/data" "/tmp/a.gcode" = "/tmp/a.gcode".
Proof. reflexivity. Qed.

Example dirname_file : dirname "/data/sub/b.gcode" = "/data/sub".
Proof. reflexivity. Qed.

Example dirname_root : dirname "/b.gcode" = "/".
Proof. reflexivity. Qed.

Example dirname_bare : dirname "b.gcode" = "".
Proof. reflexivity. Qed.

Example dirname_doubled : dirname "/data//b.gcode" = "/data".
Proof. reflexivity. Qed.

Variable FS : Type.
Variable exists_ : FS -> string -> bool.
Variable makedirs : FS -> string -> exn + FS.
Variable move : FS -> string -> string -> exn + FS.
Variable LOCAL_STORAGE_NAME : string.
Variable get_os_path : string -> option string.

Local Abbreviation handler :=
  (api_modify FS exists_ makedirs move LOCAL_STORAGE_NAME get_os_path).

(** C10.  A request whose source exists, whose destination differs from
    the source, which does not touch the file being printed, and whose
    destination's directory exists is answered 201 Created with nothing
    done: no call to the file system, the file system as it was.  And
    whenever the handler does call the file system, the destination's
    directory did not exist. *)
Theorem api_modify_moves_only_into_new_directory req (w : World FS)
    os_path src dst :
  get_os_path ("/" +:+ LOCAL_STORAGE_NAME) = Some os_path ->
  json_source req = Some src ->
  json_destination req = Some dst ->
  (exists_ (fs w) (join os_path src) = true ->
   join os_path src <> join os_path dst ->
   ~ (job_state (job w) = IN_PROGRESS /\
      get_os_path (selected_file_path (job w)) = Some (join os_path src)) ->
   exists_ (fs w) (dirname (join os_path dst)) = true ->
   handler req w = (Return {| status_code := 201 |}, w)) /\
  (os_calls (snd (handler req w)) <> os_calls w ->
   exists_ (fs w) (dirname (join os_path dst)) = false).
Proof.
  intros Hos Hsrc Hdst.
  remember (handler req w) as r eqn:Hr.
  unfold api_modify in Hr. rewrite Hos, Hsrc, Hdst in Hr. cbn [join_] in Hr.
  unfold bind at 1 in Hr. unfold ret at 1 in Hr. cbv beta iota in Hr.
  unfold bind at 1 in Hr. unfold ret at 1 in Hr. cbv beta iota in Hr.
  unfold bind at 1 in Hr. unfold get at 1 in Hr. cbv beta iota in Hr.
  set (source := join os_path src) in *.
  set (destination := join os_path dst) in *.
  split.
  - intros Hexists Hne Hjob Hparent.
    rewrite (bool_decide_eq_false_2 (source = destination)) in Hr by done.
    rewrite Hexists, Hparent in Hr. cbn [negb] in Hr.
    destruct (bool_decide (job_state (job w) = IN_PROGRESS)) eqn:Hst;
      destruct (bool_decide (Some source
                             = get_os_path (selected_file_path (job w))))
        eqn:Hsel; cbn [andb] in Hr; try (subst r; reflexivity).
    exfalso. apply Hjob.
    apply bool_decide_eq_true_1 in Hst. apply bool_decide_eq_true_1 in Hsel.
    done.
  - destruct (bool_decide (job_state (job w) = IN_PROGRESS)
              && bool_decide (Some source
                              = get_os_path (selected_file_path (job w))));
      [subst r; cbn; intros Hc; by destruct Hc|].
    destruct (bool_decide (source = destination));
      [subst r; cbn; intros Hc; by destruct Hc|].
    destruct (exists_ (fs w) source); cbn [negb] in Hr;
      [|subst r; cbn; intros Hc; by destruct Hc].
    destruct (exists_ (fs w) (dirname destination)); cbn [negb] in Hr;
      [|done].
    subst r. cbn. intros Hc. by destruct Hc.
Qed.

End FilesLegacyFacts.

Section FilesLegacyRuns.

Import FilesLegacy.

Lemma api_modify_moves_only_into_new_directory_witness :
  sample_os_path ("/" +:+ "local") = Some "/data" /\
  json_source sample_request = Some "a.gcode" /\
  json_destination sample_request = Some "b.gcode" /\
  (Paths_exists (fs sample_world) (join "/data" "a.gcode") = true ->
   join "/data" "a.gcode" <> join "/data" "b.gcode" ->
   ~ (job_state (job sample_world) = IN_PROGRESS /\
      sample_os_path (selected_file_path (job sample_world))
        = Some (join "/data" "a.gcode")) ->
   Paths_exists (fs sample_world) (dirname (join "/data" "b.gcode")) = true ->
   api_modify Paths Paths_exists Paths_makedirs Paths_move "local"
     sample_os_path sample_request sample_world
     = (Return {| status_code := 201 |}, sample_world)) /\
  (os_calls
     (snd (api_modify Paths Paths_exists Paths_makedirs Paths_move "local"
             sample_os_path sample_request sample_world))
     <> os_calls sample_world ->
   Paths_exists (fs sample_world) (dirname (join "/data" "b.gcode")) = false).
Proof.
  split; [reflexivity|]. split; [reflexivity|]. split; [reflexivity|].
  exact (api_modify_moves_only_into_new_directory Paths Paths_exists
           Paths_makedirs Paths_move "local" sample_os_path sample_request
           sample_world "/data" "a.gcode" "b.gcode" eq_refl eq_refl eq_refl).
Defined.

(** The sample request is answered 201 and [a.gcode] stays where it was. *)
Example api_modify_sample :
  api_modify Paths Paths_exists Paths_makedirs Paths_move "local"
    sample_os_path sample_request sample_world
  = (Return {| status_code := 201 |}, sample_world).
Proof. reflexivity. Qed.

End FilesLegacyRuns.

(* ===================================================================== *)
(** * Further properties *)
(* ===================================================================== *)

(** ** The telemetry gatherer: handlers *)

Section TelemetryHandlers.

Import OldBuddy.

Variable py_float : string -> option float.

Local Abbreviation write c v w :=
  (set_telemetries (<[c := v]> (telemetries w)) w).

(** Whatever matched lines come in, the handlers write into the snapshot
    that is current and into nothing else: the gatherer's attributes stay,
    nothing is added to the trace (no write to the port, no snapshot sent,
    no log record), no telemetry object is made, and every telemetry object
    other than the current one holds what it held. *)
Theorem handlers_write_current_only lines self w :
  gatherers (dispatch_all py_float lines self w) = gatherers w /\
  trace (dispatch_all py_float lines self w) = trace w /\
  length (telemetries (dispatch_all py_float lines self w))
    = length (telemetries w) /\
  forall l,
    (forall g, gatherers w !! self = Some g -> current_telemetry g <> Some l) ->
    telemetries (dispatch_all py_float lines self w) !! l
      = telemetries w !! l.
Proof. exact (dispatch_all_touches py_float lines self w). Qed.

Lemma keeps_unhandled_refl w : keeps_unhandled w w.
Proof. split; [done|]. intros l t Ht. by exists t. Qed.

Lemma keeps_unhandled_trans a b c :
  keeps_unhandled a b -> keeps_unhandled b c -> keeps_unhandled a c.
Proof.
  intros [Hg1 H1] [Hg2 H2]. split; [congruence|].
  intros l t Ht. destruct (H1 l t Ht) as (t1 & Ht1 & He1).
  destruct (H2 l t1 Ht1) as (t2 & Ht2 & He2).
  exists t2. split; [done|]. congruence.
Qed.

Lemma setattr_current_keeps self f :
  (forall t, unhandled_fields (f t) = unhandled_fields t) ->
  preserves keeps_unhandled (setattr_current self f).
Proof.
  intros Hf w.
  unfold setattr_current, self_current_telemetry, load_gatherer,
    load_telemetry, store_telemetry, bind, get, of_option, modify, ret, raise.
  cbn.
  destruct (gatherers w !! self) as [g|] eqn:Hg; cbn;
    [|apply keeps_unhandled_refl].
  destruct (current_telemetry g) as [c|] eqn:Hc; cbn;
    [|apply keeps_unhandled_refl].
  destruct (telemetries w !! c) as [t|] eqn:Ht; cbn;
    [|apply keeps_unhandled_refl].
  split; [done|]. cbn. intros l t0 Hl.
  destruct (decide (l = c)) as [->|Hne].
  - exists (f t). rewrite list_lookup_insert_eq by by eapply lookup_lt_Some.
    split; [done|]. rewrite Hf. unfold tref in *. congruence.
  - exists t0. by rewrite list_lookup_insert_ne.
Qed.

Lemma float_keeps x : preserves keeps_unhandled (float_ py_float x).
Proof.
  intros w. unfold float_. destruct x as [s|]; [|apply keeps_unhandled_refl].
  destruct (py_float s); apply keeps_unhandled_refl.
Qed.

Ltac keeps :=
  repeat first
    [ apply setattr_current_keeps; intros ?; reflexivity
    | apply float_keeps
    | apply preserves_item; apply keeps_unhandled_refl
    | apply preserves_int; apply keeps_unhandled_refl
    | apply preserves_ret; apply keeps_unhandled_refl
    | apply preserves_bind; [apply keeps_unhandled_trans | | intros ?]
    | match goal with
      | |- preserves _ (if ?b then _ else _) => destruct b
      | |- preserves _ (match ?x with _ => _ end) => destruct x
      end ].

Lemma dispatch_keeps p self groups :
  preserves keeps_unhandled (dispatch py_float p self groups).
Proof.
  destruct p; cbn [dispatch];
    unfold temperature_handler, position_handler, e_fan_handler,
      p_fan_handler, print_time_handler, progress_handler,
      time_remaining_handler, heating_handler, heating_hotend_handler;
    keeps.
Qed.

Lemma dispatch_all_keeps lines : forall self w,
  keeps_unhandled w (dispatch_all py_float lines self w).
Proof.
  induction lines as [|[p groups] rest IH]; intros self w; cbn.
  - apply keeps_unhandled_refl.
  - eapply keeps_unhandled_trans; [apply dispatch_keeps | apply IH].
Qed.

(** No line the port can match sets the flow or the speed of a snapshot,
    nor its state name: the handlers for flow and speed are defined but
    never registered, and the state name is written by [send_telemetry]
    alone.  After any lines the current snapshot has the flow, the speed and
    the state name it had. *)
Theorem handlers_never_set_flow_speed lines self c t w :
  current_is self c t w ->
  exists t',
    current_is self c t' (dispatch_all py_float lines self w) /\
    state t' = state t /\ flow t' = flow t /\ speed t' = speed t.
Proof.
  intros (g & Hg & Hc & Ht).
  destruct (dispatch_all_keeps lines self w) as [Hgs Hk].
  destruct (Hk c t Ht) as (t' & Ht' & He).
  exists t'. split.
  - exists g. rewrite Hgs. done.
  - unfold unhandled_fields in He. by injection He.
Qed.

(** [print_time_handler]: a line "Not SD printing" (the second group took
    no part in the match, or is empty) leaves the snapshot as it is, the
    printing time it holds included; a line "H:MM" sets the printing time to
    the seconds in H hours and MM minutes. *)
Theorem print_time_handler_seconds self c t w (groups : Match) :
  current_is self c t w ->
  (groups !! 1%nat = Some None \/ groups !! 1%nat = Some (Some "") ->
   print_time_handler self groups w = (Return tt, w)) /\
  (forall s h m hours mins,
     groups !! 1%nat = Some (Some s) -> s <> "" ->
     groups !! 2%nat = Some (Some h) -> int_literal h = Some hours ->
     groups !! 3%nat = Some (Some m) -> int_literal m = Some mins ->
     print_time_handler self groups w =
       (Return tt,
        write c (set_printing_time (Some (60 * (60 * hours + mins))) t) w)).
Proof.
  intros Hcur. unfold Match in *. split.
  - intros [H1 | H1]; unfold print_time_handler, item;
      unfold bind at 1; rewrite H1; reflexivity.
  - intros s h m hours mins H1 Hs H2 Hh H3 Hm.
    unfold print_time_handler, item.
    unfold bind at 1. rewrite H1. cbv beta iota. unfold ret at 1.
    cbv beta iota. destruct s as [|a s']; [done|].
    unfold bind at 1. rewrite H2. cbv beta iota. unfold ret at 1.
    cbv beta iota.
    unfold bind at 1. unfold int at 1. rewrite Hh. unfold ret at 1.
    cbv beta iota.
    unfold bind at 1. rewrite H3. cbv beta iota. unfold ret at 1.
    cbv beta iota.
    unfold bind at 1. unfold int at 1. rewrite Hm. unfold ret at 1.
    cbv beta iota.
    rewrite (setattr_current_run _ _ _ _ _ Hcur).
    replace (mins * 60 + hours * 60 * 60) with (60 * (60 * hours + mins))
      by lia.
    reflexivity.
Qed.

(** [time_remaining_handler]: a negative number of minutes (what the
    firmware prints when it has no estimate) leaves the snapshot as it is;
    any other sets the estimated time to that many minutes in seconds. *)
Theorem time_remaining_handler_minutes self c t w (groups : Match) s mins :
  current_is self c t w ->
  groups !! 1%nat = Some (Some s) -> int_literal s = Some mins ->
  time_remaining_handler self groups w =
    if 0 <=? mins
    then (Return tt, write c (set_estimated_time (Some (mins * 60)) t) w)
    else (Return tt, w).
Proof.
  intros Hcur H1 Hm. unfold Match in *.
  unfold time_remaining_handler, item, int.
  unfold bind at 1. rewrite H1. cbn. unfold bind at 1. rewrite Hm. cbn.
  destruct (0 <=? mins); [|done].
  by apply setattr_current_run.
Qed.

End TelemetryHandlers.

(** ** The telemetry gatherer: whole cycles *)

Section TelemetryCycles.

Import OldBuddy.

Variable env : Env.
Variable PRINTING_STATES : list States.
Variable py_float : string -> option float.

(** The queries written by the loop are a prefix of its list, in order,
    however the port and the state manager behave. *)
Lemma query_loop_prefix gcodes : forall w,
  exists evs k,
    trace (snd (query_loop env gcodes w)) = trace w ++ evs /\
    written evs = take k gcodes.
Proof.
  induction gcodes as [|gcode rest IH]; intros w.
  - exists [], 0%nat. cbn. by rewrite app_nil_r.
  - cbn [query_loop]. unfold state_manager_base_state, tick.
    unfold bind at 1. unfold bind at 1. unfold bind at 1. cbn -[query_loop].
    destruct (bool_decide (env_base_state env (now w) = BUSY)).
    { exists [], 0%nat. cbn. by rewrite app_nil_r. }
    unfold bind at 1. unfold try_except. rewrite serial_write_run.
    cbn -[query_loop].
    destruct (env_write env (S (now w)) gcode) as [e|] eqn:Hr.
    + assert (He : e = WriteIgnored \/ e <> WriteIgnored)
        by (destruct e; (by left) || (by right)).
      destruct He as [-> | Hne].
      * unfold log_debug, emit, modify. cbn -[query_loop].
        set (w2 := set_trace _ _).
        destruct (IH w2) as (evs & k & Htr & Hw).
        exists (Wrote gcode (Some WriteIgnored) ::
                Logged LOG_DEBUG
                  "Telemetry request got ignored, serial is exclusive for something else"
                :: evs), (S k).
        rewrite Htr. subst w2. cbn. rewrite <- !app_assoc. split; [done|].
        unfold written in *. cbn. by rewrite Hw.
      * exists [Wrote gcode (Some e)], 1%nat.
        destruct e; try done; cbn; by rewrite take_0.
    + set (w1 := set_trace _ _).
      destruct (IH w1) as (evs & k & Htr & Hw).
      exists (Wrote gcode None :: evs), (S k).
      rewrite Htr. subst w1. cbn. rewrite <- !app_assoc. split; [done|].
      unfold written in *. cbn. by rewrite Hw.
Qed.

(** Whatever the state manager answers and whatever the port does - take a
    line, refuse it, or fail - the lines a cycle hands to the port are at
    most one ping followed by a prefix of the five queries in their fixed
    order: never a query before the ping, never a query twice, never two
    out of order. *)
Theorem cycle_writes_ping_then_prefix self c t w :
  current_is self c t w ->
  exists (ping : bool) (k : nat),
    written (new_events w (snd (update_telemetry env PRINTING_STATES self w)))
    = (if ping then ["PRUSA PING"] else []) ++ take k TELEMETRY_GCODES.
Proof.
  intros (g & Hg & Hc & Ht).
  rewrite (update_telemetry_run _ _ _ _ _ _ _ Hg Hc Ht).
  set (v := gated _ _ _). set (w1 := Build_World _ _ _ _ _).
  assert (Hgoal : forall w2 evs0 (ping : bool),
    trace w2 = trace w ++ Sent self c v :: evs0 ->
    written evs0 = (if ping then ["PRUSA PING"] else []) ->
    exists (ping : bool) (k : nat),
      written (new_events w (snd (query_loop env TELEMETRY_GCODES w2)))
      = (if ping then ["PRUSA PING"] else []) ++ take k TELEMETRY_GCODES).
  { intros w2 evs0 ping Htr Hw0.
    destruct (query_loop_prefix TELEMETRY_GCODES w2) as (evs & k & Htr2 & Hw).
    exists ping, k. unfold new_events. rewrite Htr2, Htr.
    rewrite <- app_assoc, drop_app_length.
    unfold written in *. cbn. by rewrite omap_app, Hw0, Hw. }
  unfold ask_printer, state_manager_base_state, tick.
  unfold bind at 1. unfold bind at 1. unfold bind at 1. cbn -[query_loop].
  destruct (bool_decide (env_base_state env (S (now w)) = BUSY)).
  - unfold bind at 1. unfold bind at 1. unfold log_debug, emit, modify.
    cbn -[query_loop].
    unfold ping_printer, try_except. rewrite serial_write_run.
    cbn -[query_loop].
    destruct (env_write env (S (S (now w))) "PRUSA PING") as [e|] eqn:Hr.
    + assert (He : e = WriteIgnored \/ e <> WriteIgnored)
        by (destruct e; (by left) || (by right)).
      destruct He as [-> | Hne].
      * cbn -[query_loop].
        eapply (Hgoal _ _ true); [cbn; rewrite <- !app_assoc; reflexivity|].
        reflexivity.
      * exists true, 0%nat.
        destruct e; try done; cbn; unfold new_events; cbn;
          rewrite <- !app_assoc, drop_app_length; reflexivity.
    + cbn -[query_loop].
      eapply (Hgoal _ _ true); [cbn; rewrite <- !app_assoc; reflexivity|].
      reflexivity.
  - unfold bind at 1. cbn -[query_loop].
    eapply (Hgoal _ [] false); [reflexivity|reflexivity].
Qed.

(** What one cycle does to the stores, however its talk to the printer
    ends. *)
Lemma cycle_effect self g c t w :
  gatherers w !! self = Some g -> current_telemetry g = Some c ->
  telemetries w !! c = Some t ->
  gatherers (snd (update_telemetry env PRINTING_STATES self w))
    = <[self := set_current_telemetry (Some (length (telemetries w)))
                  (set_last_telemetry (Some c) g)]> (gatherers w) /\
  telemetries (snd (update_telemetry env PRINTING_STATES self w))
    = <[c := gated PRINTING_STATES (env_get_state env (now w)) t]>
        (telemetries w) ++ [Telemetry_blank] /\
  published (new_events w (snd (update_telemetry env PRINTING_STATES self w)))
    = [(c, gated PRINTING_STATES (env_get_state env (now w)) t)].
Proof.
  intros Hg Hc Ht.
  rewrite (update_telemetry_run _ _ _ _ _ _ _ Hg Hc Ht).
  set (w1 := Build_World _ _ _ _ _).
  destruct (ask_printer_talks env self w1) as (Htel & Hgat & evs & Htr & Hpub).
  rewrite Htel, Hgat. split; [done|]. split; [done|].
  unfold new_events. rewrite Htr. subst w1. cbn.
  rewrite <- app_assoc, drop_app_length.
  unfold published in *. cbn. by rewrite Hpub.
Qed.

(** Telemetry is one cycle late.  What the handlers gather after a cycle
    goes into the object that cycle made current, and the next cycle sends
    that object, with what it gathered (gated by the state read then), and
    keeps it as [last_telemetry]; it is not the object the cycle before had
    sent. *)
Theorem next_cycle_sends_what_was_gathered self g c t w lines :
  gatherers w !! self = Some g -> current_telemetry g = Some c ->
  telemetries w !! c = Some t ->
  exists c' t',
    c' <> c /\
    current_is self c' t'
      (dispatch_all py_float lines self
         (snd (update_telemetry env PRINTING_STATES self w))) /\
    published
      (new_events
         (dispatch_all py_float lines self
            (snd (update_telemetry env PRINTING_STATES self w)))
         (snd (update_telemetry env PRINTING_STATES self
                 (dispatch_all py_float lines self
                    (snd (update_telemetry env PRINTING_STATES self w))))))
    = [(c', gated PRINTING_STATES
              (env_get_state env
                 (now (dispatch_all py_float lines self
                         (snd (update_telemetry env PRINTING_STATES self w)))))
              t')] /\
    last_is self c'
      (gated PRINTING_STATES
         (env_get_state env
            (now (dispatch_all py_float lines self
                    (snd (update_telemetry env PRINTING_STATES self w)))))
         t')
      (snd (update_telemetry env PRINTING_STATES self
              (dispatch_all py_float lines self
                 (snd (update_telemetry env PRINTING_STATES self w))))).
Proof.
  intros Hg Hc Ht.
  assert (Hlt : (c < length (telemetries w))%nat) by by eapply lookup_lt_Some.
  assert (Hself : (self < length (gatherers w))%nat)
    by by eapply lookup_lt_Some.
  destruct (cycle_effect self g c t w Hg Hc Ht) as (Hg1 & Ht1 & _).
  set (w1 := snd (update_telemetry env PRINTING_STATES self w)) in *.
  set (c' := length (telemetries w)).
  set (g1 := set_current_telemetry (Some c') (set_last_telemetry (Some c) g)).
  destruct (dispatch_all_touches py_float lines self w1)
    as (Hg2 & _ & Hl2 & _).
  set (w2 := dispatch_all py_float lines self w1) in *.
  assert (Hg2' : gatherers w2 !! self = Some g1).
  { rewrite Hg2, Hg1. by apply list_lookup_insert_eq. }
  assert (Hlen : (c' < length (telemetries w2))%nat).
  { rewrite Hl2, Ht1, length_app, length_insert. cbn. subst c'. lia. }
  destruct (lookup_lt_is_Some_2 _ _ Hlen) as [t' Ht'].
  destruct (cycle_effect self g1 c' t' w2 Hg2' eq_refl Ht')
    as (Hg3 & Ht3 & Hp3).
  exists c', t'. split; [subst c'; lia|]. split; [by exists g1|].
  split; [exact Hp3|].
  eexists. rewrite Hg3, Ht3. split.
  { apply list_lookup_insert_eq. rewrite Hg2, Hg1, length_insert. exact Hself. }
  split; [reflexivity|].
  rewrite lookup_app_l by (rewrite length_insert; exact Hlen).
  by apply list_lookup_insert_eq.
Qed.

(** An error of the port that is no [WriteIgnored] is not caught: raised by
    the first query, it leaves the cycle as it is, after that one write and
    no other.  The snapshot has been sent and the two snapshots have
    changed places by then. *)
Theorem cycle_port_error_propagates self g c t w e :
  gatherers w !! self = Some g -> current_telemetry g = Some c ->
  telemetries w !! c = Some t ->
  env_base_state env (S (now w)) <> BUSY ->
  env_base_state env (S (S (now w))) <> BUSY ->
  env_write env (S (S (S (now w)))) "M105" = Some e ->
  e <> WriteIgnored ->
  exists w',
    update_telemetry env PRINTING_STATES self w = (Raise e, w') /\
    written (new_events w w') = ["M105"] /\
    published (new_events w w')
      = [(c, gated PRINTING_STATES (env_get_state env (now w)) t)] /\
    last_is self c (gated PRINTING_STATES (env_get_state env (now w)) t) w' /\
    current_is self (length (telemetries w)) Telemetry_blank w'.
Proof.
  intros Hg Hc Ht Hb1 Hb2 Hwr Hne.
  assert (Hlt : (c < length (telemetries w))%nat) by by eapply lookup_lt_Some.
  assert (Hself : (self < length (gatherers w))%nat)
    by by eapply lookup_lt_Some.
  rewrite (update_telemetry_run _ _ _ _ _ _ _ Hg Hc Ht).
  set (v := gated _ _ _).
  unfold ask_printer, state_manager_base_state, tick.
  unfold bind at 1. unfold bind at 1. unfold bind at 1. cbn -[query_loop].
  rewrite bool_decide_eq_false_2 by done.
  unfold bind at 1. cbn -[query_loop].
  unfold TELEMETRY_GCODES. cbn [query_loop].
  unfold state_manager_base_state, tick.
  unfold bind at 1. unfold bind at 1. unfold bind at 1. cbn -[query_loop].
  rewrite bool_decide_eq_false_2 by done.
  unfold bind at 1. unfold try_except. rewrite serial_write_run.
  cbn -[query_loop]. rewrite Hwr.
  eexists. split.
  { destruct e; try done; reflexivity. }
  unfold new_events. cbn. rewrite <- !app_assoc, drop_app_length.
  split; [done|]. split; [done|]. split.
  - eexists. cbn. split; [by apply list_lookup_insert_eq|].
    split; [reflexivity|].
    rewrite lookup_app_l by (rewrite length_insert; exact Hlt).
    by apply list_lookup_insert_eq.
  - eexists. cbn. split; [by apply list_lookup_insert_eq|].
    split; [reflexivity|].
    rewrite lookup_app_r by (rewrite length_insert; lia).
    by rewrite length_insert, Nat.sub_diag.
Qed.

End TelemetryCycles.

(** ** The telemetry gatherer: construction *)

Section TelemetryConstruction.

Import OldBuddy.

Ltac next := unfold bind at 1; cbv beta iota.

(** A construction, run: the object, the blank snapshot, the nine
    registrations and the thread. *)
Lemma TelemetryGatherer_new_run T l n tr :
  TelemetryGatherer_new
    {| telemetries := T; gatherers := l; class_instance := None;
       now := n; trace := tr |}
  = (Return (length l),
     {| telemetries := T ++ [Telemetry_blank];
        gatherers := l ++ [Gatherer_started (length l) (length T)];
        class_instance := None; now := n;
        trace := tr ++ REGISTRATIONS ++ [ThreadStarted (length l)] |}).
Proof.
  unfold TelemetryGatherer_new.
  next. unfold get at 1. cbv beta iota.
  cbn [gatherers]. next. unfold modify at 1, set_gatherers.
  cbn [gatherers telemetries class_instance now trace].
  next. unfold __init__.
  next. rewrite self_instance_snoc by reflexivity. cbv beta iota.
  next. rewrite setattr_self_snoc.
  unfold register_output_handler, emit, modify, set_trace.
  do 9 (next; cbn [gatherers telemetries class_instance now trace]).
  next. unfold Telemetry_new.
  next. unfold get at 1. cbv beta iota.
  next. unfold modify at 1, set_telemetries, ret.
  cbn [gatherers telemetries class_instance now trace].
  next. rewrite setattr_self_snoc.
  next. erewrite self_current_telemetry_snoc by reflexivity.
  next. rewrite setattr_self_snoc.
  next. rewrite setattr_self_snoc.
  cbv beta iota. cbn [gatherers telemetries class_instance now trace].
  unfold ret, REGISTRATIONS. rewrite <- !app_assoc. reflexivity.
Qed.

(** A new gatherer registers its nine handlers in the order of
    [__init__] and starts its thread, and its [last_telemetry] is the very
    object that is its [current_telemetry].  Until the first cycle, then,
    whatever the handlers gather is what [last_telemetry] shows. *)
Theorem new_gatherer_snapshots_are_one_object
    (py_float : string -> option float) w :
  class_instance w = None ->
  exists w' c,
    TelemetryGatherer_new w = (Return (length (gatherers w)), w') /\
    new_events w w'
      = REGISTRATIONS ++ [ThreadStarted (length (gatherers w))] /\
    current_is (length (gatherers w)) c Telemetry_blank w' /\
    forall lines,
      exists t,
        current_is (length (gatherers w)) c t
          (dispatch_all py_float lines (length (gatherers w)) w') /\
        last_is (length (gatherers w)) c t
          (dispatch_all py_float lines (length (gatherers w)) w').
Proof.
  destruct w as [T l ci n tr]. cbn [class_instance gatherers]. intros ->.
  rewrite TelemetryGatherer_new_run.
  set (w' := Build_World _ _ _ _ _).
  assert (Hg : gatherers w' !! length l
               = Some (Gatherer_started (length l) (length T)))
    by apply snoc_lookup.
  exists w', (length T). split; [done|]. split.
  { unfold new_events. cbn. by rewrite drop_app_length. }
  split.
  { eexists. split; [exact Hg|]. split; [done|]. apply snoc_lookup. }
  intros lines.
  destruct (dispatch_all_touches py_float lines (length l) w')
    as (Hg2 & _ & Hl2 & _).
  set (w'' := dispatch_all py_float lines (length l) w') in *.
  assert (Hsome : is_Some (telemetries w'' !! length T)).
  { apply lookup_lt_is_Some. rewrite Hl2. cbn. rewrite length_app. cbn. lia. }
  destruct Hsome as [t Ht]. exists t.
  split; eexists; rewrite Hg2; (split; [exact Hg|]); split; done.
Qed.

End TelemetryConstruction.

(** *** Runs of the properties above *)

Section TelemetryMoreRuns.

Import OldBuddy.

Lemma world_filled_parts :
  gatherers world_filled !! 0%nat = Some gatherer_one /\
  current_telemetry gatherer_one = Some 0%nat /\
  telemetries world_filled !! 0%nat = Some telemetry_filled.
Proof. repeat split; reflexivity. Qed.

Lemma handlers_never_set_flow_speed_witness :
  current_is 0%nat 0%nat telemetry_filled world_filled /\
  exists t',
    current_is 0%nat 0%nat t'
      (dispatch_all float_one
         [(POSITION_REGEX,
           [Some "1.0"; Some "2.0"; Some "3.0"; Some "0.0";
            Some "1.0"; Some "2.0"; Some "3.0"; Some "0.0"]);
          (PROGRESS_REGEX, [Some "60"])]
         0%nat world_filled) /\
    state t' = state telemetry_filled /\ flow t' = flow telemetry_filled /\
    speed t' = speed telemetry_filled.
Proof.
  split; [exact world_filled_current|].
  exact (handlers_never_set_flow_speed float_one _ 0%nat 0%nat
           telemetry_filled world_filled world_filled_current).
Defined.

Lemma print_time_handler_seconds_witness :
  current_is 0%nat 0%nat telemetry_filled world_filled /\
  ([None; Some "1:05"; Some "1"; Some "05"] !! 1%nat = Some None \/
   [None; Some "1:05"; Some "1"; Some "05"] !! 1%nat = Some (Some "") ->
   print_time_handler 0%nat [None; Some "1:05"; Some "1"; Some "05"]
     world_filled = (Return tt, world_filled)) /\
  (forall s h m hours mins,
     [None; Some "1:05"; Some "1"; Some "05"] !! 1%nat = Some (Some s) ->
     s <> "" ->
     [None; Some "1:05"; Some "1"; Some "05"] !! 2%nat = Some (Some h) ->
     int_literal h = Some hours ->
     [None; Some "1:05"; Some "1"; Some "05"] !! 3%nat = Some (Some m) ->
     int_literal m = Some mins ->
     print_time_handler 0%nat [None; Some "1:05"; Some "1"; Some "05"]
       world_filled =
       (Return tt,
        set_telemetries
          (<[0%nat := set_printing_time (Some (60 * (60 * hours + mins)))
                        telemetry_filled]> (telemetries world_filled))
          world_filled)).
Proof.
  split; [exact world_filled_current|].
  exact (print_time_handler_seconds 0%nat 0%nat telemetry_filled world_filled
           [None; Some "1:05"; Some "1"; Some "05"] world_filled_current).
Defined.

(** One hour and five minutes are 3900 seconds. *)
Example print_time_1_05 :
  exists t,
    current_is 0%nat 0%nat t
      (snd (print_time_handler 0%nat [None; Some "1:05"; Some "1"; Some "05"]
              world_filled)) /\
    printing_time t = Some 3900.
Proof. eexists. split; [exists gatherer_one|]; repeat split; reflexivity. Qed.

Lemma time_remaining_handler_minutes_witness :
  current_is 0%nat 0%nat telemetry_filled world_filled /\
  [Some "12"; Some "-1"] !! 1%nat = Some (Some "-1") /\
  int_literal "-1" = Some (-1) /\
  time_remaining_handler 0%nat [Some "12"; Some "-1"] world_filled =
    if 0 <=? -1
    then (Return tt,
          set_telemetries
            (<[0%nat := set_estimated_time (Some (-1 * 60)) telemetry_filled]>
               (telemetries world_filled)) world_filled)
    else (Return tt, world_filled).
Proof.
  split; [exact world_filled_current|]. split; [reflexivity|].
  split; [reflexivity|].
  exact (time_remaining_handler_minutes 0%nat 0%nat telemetry_filled
           world_filled [Some "12"; Some "-1"] "-1" (-1)
           world_filled_current eq_refl eq_refl).
Defined.

Lemma cycle_writes_ping_then_prefix_witness :
  current_is 0%nat 0%nat telemetry_filled world_filled /\
  exists (ping : bool) (k : nat),
    written (new_events world_filled
               (snd (update_telemetry (env_busy_from 6)
                       SAMPLE_PRINTING_STATES 0%nat world_filled)))
    = (if ping then ["PRUSA PING"] else []) ++ take k TELEMETRY_GCODES.
Proof.
  split; [exact world_filled_current|].
  exact (cycle_writes_ping_then_prefix (env_busy_from 6)
           SAMPLE_PRINTING_STATES 0%nat 0%nat telemetry_filled world_filled
           world_filled_current).
Defined.

Lemma next_cycle_sends_what_was_gathered_witness :
  gatherers world_filled !! 0%nat = Some gatherer_one /\
  current_telemetry gatherer_one = Some 0%nat /\
  telemetries world_filled !! 0%nat = Some telemetry_filled /\
  exists c' t',
    c' <> 0%nat /\
    current_is 0%nat c' t'
      (dispatch_all float_one [(PROGRESS_REGEX, [Some "60"])] 0%nat
         (snd (update_telemetry (env_steady PRINTING) SAMPLE_PRINTING_STATES
                 0%nat world_filled))) /\
    published
      (new_events
         (dispatch_all float_one [(PROGRESS_REGEX, [Some "60"])] 0%nat
            (snd (update_telemetry (env_steady PRINTING)
                    SAMPLE_PRINTING_STATES 0%nat world_filled)))
         (snd (update_telemetry (env_steady PRINTING) SAMPLE_PRINTING_STATES
                 0%nat
                 (dispatch_all float_one [(PROGRESS_REGEX, [Some "60"])] 0%nat
                    (snd (update_telemetry (env_steady PRINTING)
                            SAMPLE_PRINTING_STATES 0%nat world_filled))))))
    = [(c', gated SAMPLE_PRINTING_STATES
              (env_get_state (env_steady PRINTING)
                 (now (dispatch_all float_one
                         [(PROGRESS_REGEX, [Some "60"])] 0%nat
                         (snd (update_telemetry (env_steady PRINTING)
                                 SAMPLE_PRINTING_STATES 0%nat
                                 world_filled)))))
              t')] /\
    last_is 0%nat c'
      (gated SAMPLE_PRINTING_STATES
         (env_get_state (env_steady PRINTING)
            (now (dispatch_all float_one [(PROGRESS_REGEX, [Some "60"])]
                    0%nat
                    (snd (update_telemetry (env_steady PRINTING)
                            SAMPLE_PRINTING_STATES 0%nat world_filled)))))
         t')
      (snd (update_telemetry (env_steady PRINTING) SAMPLE_PRINTING_STATES
              0%nat
              (dispatch_all float_one [(PROGRESS_REGEX, [Some "60"])] 0%nat
                 (snd (update_telemetry (env_steady PRINTING)
                         SAMPLE_PRINTING_STATES 0%nat world_filled))))).
Proof.
  split; [reflexivity|]. split; [reflexivity|]. split; [reflexivity|].
  exact (next_cycle_sends_what_was_gathered (env_steady PRINTING)
           SAMPLE_PRINTING_STATES float_one 0%nat gatherer_one 0%nat
           telemetry_filled world_filled [(PROGRESS_REGEX, [Some "60"])]
           eq_refl eq_refl eq_refl).
Defined.

(** The progress line of the example is what the second cycle sends. *)
Example second_cycle_sends_60 :
  published
    (new_events
       (dispatch_all float_one [(PROGRESS_REGEX, [Some "60"])] 0%nat
          (snd (update_telemetry (env_steady PRINTING) SAMPLE_PRINTING_STATES
                  0%nat world_filled)))
       (snd (update_telemetry (env_steady PRINTING) SAMPLE_PRINTING_STATES
               0%nat
               (dispatch_all float_one [(PROGRESS_REGEX, [Some "60"])] 0%nat
                  (snd (update_telemetry (env_steady PRINTING)
                          SAMPLE_PRINTING_STATES 0%nat world_filled))))))
  = [(1%nat,
      set_state (Some "PRINTING") (set_progress (Some 60) Telemetry_blank))].
Proof. reflexivity. Qed.

Lemma cycle_port_error_propagates_witness :
  gatherers world_filled !! 0%nat = Some gatherer_one /\
  current_telemetry gatherer_one = Some 0%nat /\
  telemetries world_filled !! 0%nat = Some telemetry_filled /\
  env_base_state env_failing (S (now world_filled)) <> BUSY /\
  env_base_state env_failing (S (S (now world_filled))) <> BUSY /\
  env_write env_failing (S (S (S (now world_filled)))) "M105"
    = Some (OtherError "SerialException") /\
  OtherError "SerialException" <> WriteIgnored /\
  exists w',
    update_telemetry env_failing SAMPLE_PRINTING_STATES 0%nat world_filled
      = (Raise (OtherError "SerialException"), w') /\
    written (new_events world_filled w') = ["M105"] /\
    published (new_events world_filled w')
      = [(0%nat, gated SAMPLE_PRINTING_STATES
                   (env_get_state env_failing (now world_filled))
                   telemetry_filled)] /\
    last_is 0%nat 0%nat
      (gated SAMPLE_PRINTING_STATES
         (env_get_state env_failing (now world_filled)) telemetry_filled) w' /\
    current_is 0%nat (length (telemetries world_filled)) Telemetry_blank w'.
Proof.
  assert (H1 : env_base_state env_failing (S (now world_filled)) <> BUSY)
    by discriminate.
  assert (H2 : env_base_state env_failing (S (S (now world_filled))) <> BUSY)
    by discriminate.
  assert (H3 : OtherError "SerialException" <> WriteIgnored) by discriminate.
  split; [reflexivity|]. split; [reflexivity|]. split; [reflexivity|].
  split; [exact H1|]. split; [exact H2|]. split; [reflexivity|].
  split; [exact H3|].
  exact (cycle_port_error_propagates env_failing SAMPLE_PRINTING_STATES
           0%nat gatherer_one 0%nat telemetry_filled world_filled
           (OtherError "SerialException")
           eq_refl eq_refl eq_refl H1 H2 eq_refl H3).
Defined.

Lemma new_gatherer_snapshots_are_one_object_witness :
  class_instance World_initial = None /\
  exists w' c,
    TelemetryGatherer_new World_initial
      = (Return (length (gatherers World_initial)), w') /\
    new_events World_initial w'
      = REGISTRATIONS ++ [ThreadStarted (length (gatherers World_initial))] /\
    current_is (length (gatherers World_initial)) c Telemetry_blank w' /\
    forall lines,
      exists t,
        current_is (length (gatherers World_initial)) c t
          (dispatch_all float_one lines (length (gatherers World_initial))
             w') /\
        last_is (length (gatherers World_initial)) c t
          (dispatch_all float_one lines (length (gatherers World_initial))
             w').
Proof.
  split; [reflexivity|].
  exact (new_gatherer_snapshots_are_one_object float_one World_initial
           eq_refl).
Defined.

End TelemetryMoreRuns.

(** ** The start-up getters: outcomes *)

Section GettersOutcomes.

Import Getters.

Variable instruction_match : Instruction -> option Match.
Variable loop_turns : Instruction -> nat.
Variable MINIMAL_FIRMWARE : StrictVersion.
Variable py_float : string -> option float.

(** [get_printer_type] on a queue that takes the probe.  No match: it
    raises and [errors.ID.ok] is [False].  A match: the probe has been
    sent.  A first group that reads as a code of the table: it returns the
    type of that code and [errors.ID.ok] is [True].  Any other code:
    [errors.ID.ok] is [False], the line "M117 Unsupported printer" is
    enqueued with front priority and so joins the end of what the wait
    left of the front tier, the normal tier and the instructions sent are
    as the wait left them, and the call raises naming the code. *)
Theorem get_printer_type_outcomes w :
  exclusive (serial_queue w) = false ->
  (instruction_match (probe "M862.2 Q" PRINTER_TYPE_REGEX (serial_queue w))
     = None ->
   get_printer_type instruction_match loop_turns w =
     (Raise (RuntimeError "Printer responded with something unexpected"),
      set_ID_ok false
        (submitted instruction_match loop_turns "M862.2 Q"
           PRINTER_TYPE_REGEX w))) /\
  (forall groups s code,
     instruction_match (probe "M862.2 Q" PRINTER_TYPE_REGEX (serial_queue w))
       = Some groups ->
     groups !! 0%nat = Some (Some s) -> int_literal s = Some code ->
     probe "M862.2 Q" PRINTER_TYPE_REGEX (serial_queue w)
       ∈ sent (serial_queue
                 (submitted instruction_match loop_turns "M862.2 Q"
                    PRINTER_TYPE_REGEX w)) /\
     match PRINTER_TYPES code with
     | Some t =>
         get_printer_type instruction_match loop_turns w =
           (Return t,
            set_ID_ok true
              (submitted instruction_match loop_turns "M862.2 Q"
                 PRINTER_TYPE_REGEX w))
     | None =>
         exists w',
           get_printer_type instruction_match loop_turns w =
             (Raise (RuntimeError
                       ("Unsupported printer model '" +:+ pretty code
                        +:+ "'")), w') /\
           ID_ok w' = false /\
           calls w' =
             calls w ++
             [EnqueueMatchable "M862.2 Q" PRINTER_TYPE_REGEX true;
              WaitFor (probe "M862.2 Q" PRINTER_TYPE_REGEX (serial_queue w));
              EnqueueInstruction "M117 Unsupported printer" true] /\
           normal_tier (serial_queue w') =
             normal_tier
               (serial_queue
                  (submitted instruction_match loop_turns "M862.2 Q"
                     PRINTER_TYPE_REGEX w)) /\
           sent (serial_queue w') =
             sent
               (serial_queue
                  (submitted instruction_match loop_turns "M862.2 Q"
                     PRINTER_TYPE_REGEX w)) /\
           front_tier (serial_queue w') =
             front_tier
               (serial_queue
                  (submitted instruction_match loop_turns "M862.2 Q"
                     PRINTER_TYPE_REGEX w)) ++
             [{| seq_id := S (next_id (serial_queue w));
                 payload := "M117 Unsupported printer"; matcher := None;
                 front := true |}]
     end).
Proof.
  intros Hex. split.
  - intros Hnone. unfold get_printer_type.
    rewrite getter_prefix by exact Hex. rewrite Hnone.
    reflexivity.
  - intros groups s code Hsome Hg0 Hcode. unfold Match in *.
    split; [by eapply matched_probe_sent|].
    remember (get_printer_type instruction_match loop_turns w) as r eqn:Hr.
    unfold get_printer_type in Hr.
    rewrite getter_prefix in Hr by exact Hex. rewrite Hsome in Hr.
    unfold item in Hr. unfold bind at 1 in Hr. rewrite Hg0 in Hr.
    cbv beta iota in Hr. unfold ret at 1 in Hr. cbv beta iota in Hr.
    unfold bind at 1 in Hr. unfold int at 1 in Hr. rewrite Hcode in Hr.
    unfold ret at 1 in Hr. cbv beta iota in Hr.
    unfold bind at 1 in Hr. unfold modify at 1 in Hr. cbv beta iota in Hr.
    destruct (PRINTER_TYPES code) as [t|]; [subst r; reflexivity|].
    unfold bind at 1 in Hr. unfold modify at 1 in Hr. cbv beta iota in Hr.
    unfold bind at 1 in Hr.
    rewrite enqueue_instruction_run in Hr
      by exact (eq_trans (submitted_exclusive _ _ _ _ _) Hex).
    unfold raise in Hr.
    eexists. split; [exact Hr|]. split; [reflexivity|].
    split; [cbn; by rewrite <- app_assoc|].
    split; [reflexivity|]. split; [reflexivity|].
    unfold set_ID_ok. cbn [serial_queue front_tier].
    rewrite submitted_next_id. reflexivity.
Qed.

(** While write-exclusivity is held, each getter raises [WriteIgnored] at
    its first call: nothing is waited for, the queue and the two error
    flags are as they were. *)
Theorem getters_refused_while_exclusive w :
  exclusive (serial_queue w) = true ->
  get_printer_type instruction_match loop_turns w =
    (Raise WriteIgnored,
     set_calls
       (calls w ++ [EnqueueMatchable "M862.2 Q" PRINTER_TYPE_REGEX true]) w) /\
  get_firmware_version instruction_match loop_turns MINIMAL_FIRMWARE w =
    (Raise WriteIgnored,
     set_calls (calls w ++ [EnqueueMatchable "M115" FW_REGEX true]) w) /\
  get_nozzle_diameter instruction_match loop_turns py_float w =
    (Raise WriteIgnored,
     set_calls (calls w ++ [EnqueueMatchable "M862.1 Q" NOZZLE_REGEX true]) w).
Proof.
  intros Hex.
  unfold get_printer_type, get_firmware_version, get_nozzle_diameter.
  repeat split; unfold bind at 1; rewrite enqueue_matchable_run, Hex;
    reflexivity.
Qed.

Lemma tuple3_eqb_not_ltb a b :
  tuple3_eqb a b = true -> tuple3_ltb a b = false.
Proof.
  destruct a as [[a1 a2] a3], b as [[b1 b2] b3]. cbn. intros H.
  apply andb_true_iff in H as [H H3]. apply andb_true_iff in H as [H1 H2].
  apply Z.eqb_eq in H1, H2, H3. subst.
  rewrite !Z.ltb_irrefl, !Z.eqb_refl. reflexivity.
Qed.

(** A release is at least [m] exactly when its numbers are not below
    those of [m]; a pre-release tag on [m] changes nothing. *)
Lemma StrictVersion_ge_release v m :
  StrictVersion_ge {| version := v; prerelease := None |} m
    = negb (tuple3_ltb v (version m)).
Proof.
  unfold StrictVersion_ge, StrictVersion_cmp. cbn.
  destruct (tuple3_eqb v (version m)) eqn:He; cbn.
  - rewrite (tuple3_eqb_not_ltb _ _ He). by destruct (prerelease m).
  - by destruct (tuple3_ltb v (version m)).
Qed.

(** What [errors.FW.ok] ends up meaning.  The matcher captures major and
    minor only, so the firmware is judged as release major.minor.0: the
    flag is [True] exactly when (major, minor, 0) is not below the numbers
    of the minimal version, whatever pre-release tag the minimal version
    carries. *)
Theorem get_firmware_version_flag w groups g :
  exclusive (serial_queue w) = false ->
  instruction_match (probe "M115" FW_REGEX (serial_queue w)) = Some groups ->
  groups !! 0%nat = Some (Some g) -> fw_capture g = true ->
  exists major minor,
    StrictVersion_parse g
      = Some {| version := (major, minor, 0); prerelease := None |} /\
    FW_ok
      (snd (get_firmware_version instruction_match loop_turns
              MINIMAL_FIRMWARE w))
      = negb (tuple3_ltb (major, minor, 0) (version MINIMAL_FIRMWARE)).
Proof.
  intros Hex Hsome Hg0 Hcap. unfold Match in *.
  destruct (fw_capture_parses g Hcap) as (Hne & major & minor & Hparse).
  exists major, minor. split; [exact Hparse|].
  unfold get_firmware_version. rewrite getter_prefix by exact Hex.
  rewrite Hsome.
  unfold item. unfold bind at 1. rewrite Hg0. cbv beta iota.
  unfold ret at 1. cbv beta iota.
  unfold bind at 1. unfold supported.
  destruct g as [|a g']; [done|]. rewrite Hparse.
  unfold ret at 1. cbv beta iota. cbn.
  apply StrictVersion_ge_release.
Qed.

End GettersOutcomes.

Section GettersMoreRuns.

Import Getters.

Lemma get_printer_type_outcomes_witness :
  exclusive (serial_queue world_pending) = false /\
  get_printer_type unanswered returns_at_once world_pending =
    (Raise (RuntimeError "Printer responded with something unexpected"),
     set_ID_ok false
       (submitted unanswered returns_at_once "M862.2 Q" PRINTER_TYPE_REGEX
          world_pending)) /\
  get_printer_type (answers "302") returns_at_once world_pending =
    (Return I3MK3S,
     set_ID_ok true
       (submitted (answers "302") returns_at_once "M862.2 Q"
          PRINTER_TYPE_REGEX world_pending)) /\
  probe "M862.2 Q" PRINTER_TYPE_REGEX (serial_queue world_pending)
    ∈ sent (serial_queue
              (submitted (answers "999") returns_at_once "M862.2 Q"
                 PRINTER_TYPE_REGEX world_pending)) /\
  exists w',
    get_printer_type (answers "999") returns_at_once world_pending =
      (Raise (RuntimeError "Unsupported printer model '999'"), w') /\
    ID_ok w' = false /\
    calls w' =
      [EnqueueMatchable "M862.2 Q" PRINTER_TYPE_REGEX true;
       WaitFor
         (probe "M862.2 Q" PRINTER_TYPE_REGEX (serial_queue world_pending));
       EnqueueInstruction "M117 Unsupported printer" true] /\
    normal_tier (serial_queue w')
      = normal_tier (serial_queue world_pending) /\
    sent (serial_queue w')
      = [probe "M862.2 Q" PRINTER_TYPE_REGEX (serial_queue world_pending)] /\
    front_tier (serial_queue w') =
      [{| seq_id := 2; payload := "M117 Unsupported printer";
          matcher := None; front := true |}].
Proof.
  split; [reflexivity|]. split; [|split; [|split]].
  - exact (proj1
             (get_printer_type_outcomes unanswered returns_at_once
                world_pending eq_refl)
             eq_refl).
  - exact (proj2
             (proj2
                (get_printer_type_outcomes (answers "302") returns_at_once
                   world_pending eq_refl)
                [Some "302"] "302" 302 eq_refl eq_refl eq_refl)).
  - exact (proj1
             (proj2
                (get_printer_type_outcomes (answers "999") returns_at_once
                   world_pending eq_refl)
                [Some "999"] "999" 999 eq_refl eq_refl eq_refl)).
  - exact (proj2
             (proj2
                (get_printer_type_outcomes (answers "999") returns_at_once
                   world_pending eq_refl)
                [Some "999"] "999" 999 eq_refl eq_refl eq_refl)).
Defined.

(** A printer that answers 302 is an MK3S; one that answers 999 is told so
    on its display: by then the probe has been sent, and the line for the
    display goes ahead of the query that was pending. *)
Example get_printer_type_302 :
  fst (get_printer_type (answers "302") returns_at_once world_pending)
    = Return I3MK3S.
Proof. reflexivity. Qed.

Example get_printer_type_999 :
  fst (get_printer_type (answers "999") returns_at_once world_pending)
    = Raise (RuntimeError "Unsupported printer model '999'") /\
  payload
    <$> next_to_send
          (serial_queue
             (snd (get_printer_type (answers "999") returns_at_once
                     world_pending)))
    = Some "M117 Unsupported printer".
Proof. split; reflexivity. Qed.

(** A wait that [should_wait] ends before the loop has taken a turn leaves
    the probe pending and without a match: the getter raises. *)
Example get_firmware_version_given_up :
  fst (get_firmware_version unanswered returns_at_once FIRMWARE_3_9
         world_pending)
    = Raise (RuntimeError "Printer responded with something unexpected") /\
  next_to_send
    (serial_queue
       (snd (get_firmware_version unanswered returns_at_once FIRMWARE_3_9
               world_pending)))
    = Some (probe "M115" FW_REGEX (serial_queue world_pending)).
Proof. split; reflexivity. Qed.

Lemma getters_refused_while_exclusive_witness :
  exclusive (serial_queue world_exclusive) = true /\
  get_printer_type (answers "302") returns_at_once world_exclusive =
    (Raise WriteIgnored,
     set_calls
       (calls world_exclusive
          ++ [EnqueueMatchable "M862.2 Q" PRINTER_TYPE_REGEX true])
       world_exclusive) /\
  get_firmware_version (answers "302") returns_at_once FIRMWARE_3_9
      world_exclusive =
    (Raise WriteIgnored,
     set_calls
       (calls world_exclusive ++ [EnqueueMatchable "M115" FW_REGEX true])
       world_exclusive) /\
  get_nozzle_diameter (answers "302") returns_at_once float_one_
      world_exclusive =
    (Raise WriteIgnored,
     set_calls
       (calls world_exclusive
          ++ [EnqueueMatchable "M862.1 Q" NOZZLE_REGEX true])
       world_exclusive).
Proof.
  split; [reflexivity|].
  exact (getters_refused_while_exclusive (answers "302") returns_at_once
           FIRMWARE_3_9 float_one_ world_exclusive eq_refl).
Defined.

Lemma get_firmware_version_flag_witness :
  exclusive (serial_queue world_pending) = false /\
  answers "3.10" (probe "M115" FW_REGEX (serial_queue world_pending))
    = Some [Some "3.10"] /\
  [Some "3.10"] !! 0%nat = Some (Some "3.10") /\
  fw_capture "3.10" = true /\
  exists major minor,
    StrictVersion_parse "3.10"
      = Some {| version := (major, minor, 0); prerelease := None |} /\
    FW_ok (snd (get_firmware_version (answers "3.10") returns_at_once
                  FIRMWARE_3_9 world_pending))
      = negb (tuple3_ltb (major, minor, 0) (version FIRMWARE_3_9)).
Proof.
  split; [reflexivity|]. split; [reflexivity|]. split; [reflexivity|].
  split; [reflexivity|].
  exact (get_firmware_version_flag (answers "3.10") returns_at_once
           FIRMWARE_3_9 world_pending [Some "3.10"] "3.10" eq_refl eq_refl
           eq_refl eq_refl).
Defined.

End GettersMoreRuns.

(** ** The configuration: guards, the model dictionary, the loggers *)

Section ConfigGuards.

Import Config.

Variables Args ConfigData SettingsData : Type.
Variable Config_read : Args -> exn + ConfigData.
Variable Settings_read : string -> exn + SettingsData.

(** A construction that fails while reading (an unknown user, a file for
    another printer, ...) raises what the reading raised and leaves the
    class attribute unbound, so the guard does not refuse the next
    construction: with a reading that succeeds it returns and binds the
    attribute.  The same for [Config] and for [Settings]. *)
Theorem failed_construction_leaves_guard_open
    (w : World ConfigData SettingsData) args1 args2 file1 file2 e d e' d' :
  Config_instance w = None -> Settings_instance w = None ->
  Config_read args1 = inl e -> Config_read args2 = inr d ->
  Settings_read file1 = inl e' -> Settings_read file2 = inr d' ->
  (fst (Config_new Config_read args1 w) = Raise e /\
   Config_instance (snd (Config_new Config_read args1 w)) = None /\
   exists c,
     fst (Config_new Config_read args2 (snd (Config_new Config_read args1 w)))
       = Return c /\
     Config_instance
       (snd (Config_new Config_read args2
               (snd (Config_new Config_read args1 w)))) = Some c) /\
  (fst (Settings_new Settings_read file1 w) = Raise e' /\
   Settings_instance (snd (Settings_new Settings_read file1 w)) = None /\
   exists c,
     fst (Settings_new Settings_read file2
            (snd (Settings_new Settings_read file1 w))) = Return c /\
     Settings_instance
       (snd (Settings_new Settings_read file2
               (snd (Settings_new Settings_read file1 w)))) = Some c).
Proof.
  intros Hc Hs H1 H2 H3 H4. split.
  - unfold Config_new, Config_init, bind, get, modify, ret, raise. cbn.
    rewrite Hc, H1. cbn. rewrite Hc, H2. cbn. repeat split. by eexists.
  - unfold Settings_new, Settings_init, bind, get, modify, ret, raise. cbn.
    rewrite Hs, H3. cbn. rewrite Hs, H4. cbn. repeat split. by eexists.
Qed.

(** The two guards do not see each other, and a bound attribute stays
    bound to the same object: a [Config] constructed while a [Settings]
    exists goes through, and no construction of either class, refused or
    not, changes the attribute of the other class or rebinds its own. *)
Theorem guards_are_separate (w : World ConfigData SettingsData) args file :
  Settings_instance (snd (Config_new Config_read args w))
    = Settings_instance w /\
  Config_instance (snd (Settings_new Settings_read file w))
    = Config_instance w /\
  (forall c, Config_instance w = Some c ->
     Config_instance (snd (Config_new Config_read args w)) = Some c) /\
  (forall c, Settings_instance w = Some c ->
     Settings_instance (snd (Settings_new Settings_read file w)) = Some c) /\
  (forall d, Config_instance w = None -> Config_read args = inr d ->
     fst (Config_new Config_read args w) = Return (length (configs w))).
Proof.
  unfold Config_new, Config_init, Settings_new, Settings_init,
    bind, get, modify, ret, raise. cbn.
  repeat split.
  - destruct (Config_instance w); cbn; [done|].
    by destruct (Config_read args).
  - destruct (Settings_instance w); cbn; [done|].
    by destruct (Settings_read file).
  - intros c Hc. rewrite Hc. done.
  - intros c Hc. rewrite Hc. done.
  - intros d Hc Hd. rewrite Hc, Hd. done.
Qed.

End ConfigGuards.

Section ModelFacts.

Import ConfigLogging.

Variable V : Type.
Variable class_attributes : list string.

(** [Model]: for a name that is no attribute of the class, an item
    written through the attribute is read back through it, writing one name
    leaves the reading of every other name as it was, and reading a name
    that was never written raises [AttributeError] (not [KeyError]).  For
    a name of the class (such as [get] or [items]) the written item is
    shadowed: the attribute still reads as the class's. *)
Theorem Model_attribute_round_trip (m : gmap string V) key val :
  (key ∉ class_attributes ->
   Model_getattr class_attributes (Model_setattr m key val) key m
     = (Return (Item val), m)) /\
  (forall other, other <> key ->
   Model_getattr class_attributes (Model_setattr m key val) other m
     = Model_getattr class_attributes m other m) /\
  (key ∉ class_attributes -> m !! key = None ->
   Model_getattr class_attributes m key m = (Raise (AttributeError key), m)) /\
  (key ∈ class_attributes ->
   Model_getattr class_attributes (Model_setattr m key val) key m
     = (Return (ClassAttribute key), m)).
Proof.
  unfold Model_getattr, Model_setattr. repeat split.
  - intros Hk. rewrite bool_decide_eq_false_2 by done.
    by rewrite lookup_insert_eq.
  - intros other Hne. destruct (bool_decide (other ∈ class_attributes));
      [done|]. by rewrite lookup_insert_ne.
  - intros Hk Hnone. rewrite bool_decide_eq_false_2 by done. by rewrite Hnone.
  - intros Hk. by rewrite bool_decide_eq_true_2.
Qed.

End ModelFacts.

Section LoggerFacts.

Import ConfigLogging.

Variable cfg_get : string -> string -> option string.
Variable SysLogHandler_raises : string -> option exn.
Variable Formatter_raises : string -> option exn.

Lemma list_remove_middle pre x rest :
  x ∉ pre -> list_remove x (pre ++ x :: rest) = pre ++ rest.
Proof.
  induction pre as [|y pre IH]; intros Hx; cbn.
  - by rewrite bool_decide_eq_true_2.
  - apply not_elem_of_cons in Hx as [Hne Hx].
    rewrite bool_decide_eq_false_2 by done. by rewrite IH.
Qed.

(** The loop that is meant to empty the list of handlers skips every
    second one: removing the element under the index moves the next
    element into its place, and the index then steps over it. *)
Lemma remove_each_skips steps : forall pre rest,
  NoDup (pre ++ rest) -> (length rest <= steps)%nat ->
  remove_each steps (length pre) (pre ++ rest) = pre ++ odds rest.
Proof.
  induction steps as [|steps IH]; intros pre rest Hnd Hlen.
  - destruct rest; [|cbn in Hlen; lia]. reflexivity.
  - destruct rest as [|x rest].
    { cbn. rewrite app_nil_r.
      by rewrite (proj2 (lookup_ge_None pre (length pre))) by lia. }
    cbn [remove_each]. rewrite list_lookup_middle by done.
    assert (Hx : x ∉ pre).
    { apply NoDup_app in Hnd as (_ & Hdis & _). intros Hin.
      apply (Hdis x Hin). by left. }
    unfold removeHandler.
    rewrite bool_decide_eq_true_2
      by (apply elem_of_app; right; by left).
    rewrite list_remove_middle by done.
    destruct rest as [|y rest].
    { cbn. rewrite app_nil_r. destruct steps; [done|]. cbn.
      by rewrite (proj2 (lookup_ge_None pre (S (length pre)))) by lia. }
    assert (Hnd' : NoDup ((pre ++ [y]) ++ rest)).
    { rewrite <- app_assoc. cbn.
      apply NoDup_app in Hnd as (Hp & Hdis & Hr).
      apply NoDup_cons in Hr as [_ Hr].
      apply NoDup_app. split; [done|]. split; [|done].
      intros z Hz Hin. apply (Hdis z Hz). by right. }
    specialize (IH (pre ++ [y]) rest Hnd').
    rewrite length_app in IH. cbn in IH.
    rewrite Nat.add_1_r in IH. rewrite <- app_assoc in IH. cbn in IH.
    rewrite IH by (cbn in Hlen; lia).
    rewrite <- app_assoc. reflexivity.
Qed.

Lemma get_logger_run name args fallback w :
  get_logger cfg_get name args fallback w =
  if level_accepted cfg_get args name fallback then
    (Return tt,
     set_levels
       (levels w ++
        map (fun n => (n, chosen_level cfg_get args name fallback))
          (loggers_of name)) w)
  else
    (Raise (ValueError
              ("Invalid value "
               +:+ default fallback (cfg_get "logging" name))), w).
Proof.
  unfold get_logger, level_accepted, chosen_level, loggers_of,
    check_log_level, setLevel.
  destruct (debug args); [|destruct (info args)]; cbn [orb].
  1,2: unfold bind at 1; unfold ret at 1; cbv beta iota;
       destruct (bool_decide (name = "main"));
       unfold bind, modify, set_levels; cbn; rewrite <- ?app_assoc;
       reflexivity.
  unfold bind at 1. unfold bind at 1.
  destruct (bool_decide (default fallback (cfg_get "logging" name)
                         ∈ LOG_LEVELS)); [|reflexivity].
  unfold ret at 1. cbv beta iota. unfold ret at 1. cbv beta iota.
  destruct (bool_decide (name = "main"));
    unfold bind, modify, set_levels; cbn; rewrite <- ?app_assoc;
    reflexivity.
Qed.

(** [set_logger], all going well: the three families of loggers get their
    levels, a new handler is made and given the format, and the root
    logger is left with the new handler after every second one of the
    handlers it had - the loop that resets the root handlers removes only
    those at even positions.  With at most one handler before, the new one
    is the only one. *)
Theorem set_logger_keeps_every_second_handler args w :
  level_accepted cfg_get args "main" "WARNING" = true ->
  level_accepted cfg_get args "adapter" "WARNING" = true ->
  level_accepted cfg_get args "http" "INFO" = true ->
  (foreground args = false ->
   SysLogHandler_raises (default "/dev/log" (cfg_get "logging" "syslog"))
     = None) ->
  Formatter_raises
    (default (if foreground args then LOG_FORMAT_FOREGROUND
              else LOG_FORMAT_SYSLOG) (cfg_get "logging" "format")) = None ->
  NoDup (root_handlers w) ->
  Forall (fun h => (h < length (handlers w))%nat) (root_handlers w) ->
  exists w',
    set_logger cfg_get SysLogHandler_raises Formatter_raises args w
      = (Return tt, w') /\
    root_handlers w' = odds (root_handlers w) ++ [length (handlers w)] /\
    handlers w' !! length (handlers w) =
      Some {| kind := if foreground args then StreamHandler
                      else SysLogHandler
                             (default "/dev/log" (cfg_get "logging" "syslog"));
              formatter :=
                Some (default (if foreground args then LOG_FORMAT_FOREGROUND
                               else LOG_FORMAT_SYSLOG)
                        (cfg_get "logging" "format")) |} /\
    ((length (root_handlers w) <= 1)%nat ->
     root_handlers w' = [length (handlers w)]).
Proof.
  intros Hm Ha Hh Hsys Hfmt Hnd Hlt.
  assert (Hodds : remove_each (length (root_handlers w)) 0 (root_handlers w)
                  = odds (root_handlers w)).
  { apply (remove_each_skips _ [] (root_handlers w)); [done|lia]. }
  assert (Hnew : length (handlers w) ∉ odds (root_handlers w)).
  { assert (Hsub : forall l : list href,
              Forall (fun h => (h < length (handlers w))%nat) l ->
              length (handlers w) ∉ l).
    { intros l Hl Hin. rewrite Forall_forall in Hl. pose proof (Hl _ Hin). lia. }
    assert (Hin : forall (l : list href) x, x ∈ odds l -> x ∈ l).
    { fix IH 1. intros [|a [|b l]] x; cbn; intros Hx;
        try (by apply elem_of_nil in Hx).
      apply elem_of_cons in Hx as [-> | Hx].
      - right. by left.
      - right. right. by apply IH. }
    intros Hx. apply (Hsub _ Hlt). by apply Hin. }
  unfold set_logger.
  unfold bind at 1. rewrite get_logger_run, Hm.
  unfold bind at 1. rewrite get_logger_run, Ha.
  unfold bind at 1. rewrite get_logger_run, Hh.
  destruct (foreground args) eqn:Hfg.
  - unfold new_handler, setFormatter, addHandler.
    unfold bind, get, modify, ret, set_handlers, set_root_handlers,
      set_levels.
    cbn. rewrite Hfmt, Hodds. cbn.
    rewrite bool_decide_eq_false_2 by exact Hnew.
    rewrite snoc_lookup. cbn. rewrite snoc_insert.
    eexists. split; [reflexivity|]. cbn. split; [done|].
    split; [apply snoc_lookup|].
    intros Hle. destruct (root_handlers w) as [|a [|b l]]; cbn in *;
      try done. lia.
  - rewrite (Hsys eq_refl).
    unfold new_handler, setFormatter, addHandler.
    unfold bind, get, modify, ret, set_handlers, set_root_handlers,
      set_levels.
    cbn. rewrite Hfmt, Hodds. cbn.
    rewrite bool_decide_eq_false_2 by exact Hnew.
    rewrite snoc_lookup. cbn. rewrite snoc_insert.
    eexists. split; [reflexivity|]. cbn. split; [done|].
    split; [apply snoc_lookup|].
    intros Hle. destruct (root_handlers w) as [|a [|b l]]; cbn in *;
      try done. lia.
Qed.

(** [set_logger] with a bad level in the file: without [--debug] and
    [--info], a level for the adapter that is none of the five names makes
    [set_logger] raise [ValueError] naming it - after the loggers of "main"
    were set, and before any handler is made or the root logger touched. *)
Theorem set_logger_bad_level_stops_half_way args w :
  debug args = false -> info args = false ->
  default "WARNING" (cfg_get "logging" "main") ∈ LOG_LEVELS ->
  default "WARNING" (cfg_get "logging" "adapter") ∉ LOG_LEVELS ->
  set_logger cfg_get SysLogHandler_raises Formatter_raises args w =
    (Raise (ValueError
              ("Invalid value "
               +:+ default "WARNING" (cfg_get "logging" "adapter"))),
     set_levels
       (levels w ++
        [("prusa-link", default "WARNING" (cfg_get "logging" "main"));
         ("urllib3", default "WARNING" (cfg_get "logging" "main"));
         ("connect-printer", default "WARNING" (cfg_get "logging" "main"))])
       w).
Proof.
  intros Hd Hi Hmain Hadapter.
  unfold set_logger.
  unfold bind at 1. rewrite get_logger_run.
  unfold level_accepted, chosen_level. rewrite Hd, Hi. cbn [orb].
  rewrite bool_decide_eq_true_2 by done.
  unfold bind at 1. rewrite get_logger_run.
  unfold level_accepted. rewrite Hd, Hi. cbn [orb].
  rewrite bool_decide_eq_false_2 by done.
  reflexivity.
Qed.

End LoggerFacts.

Section ConfigRuns.

Import Config ConfigLogging.

Lemma failed_construction_leaves_guard_open_witness :
  Config_instance world_unconfigured = None /\
  Settings_instance world_unconfigured = None /\
  Config_read_sample false = inl (OtherError "KeyError") /\
  Config_read_sample true = inr 1%nat /\
  Settings_read_sample "sl1.ini"
    = inl (ValueError "Settings file for different printer!") /\
  Settings_read_sample "mk3.ini" = inr 0%nat /\
  (fst (Config_new Config_read_sample false world_unconfigured)
     = Raise (OtherError "KeyError") /\
   Config_instance
     (snd (Config_new Config_read_sample false world_unconfigured)) = None /\
   exists c,
     fst (Config_new Config_read_sample true
            (snd (Config_new Config_read_sample false world_unconfigured)))
       = Return c /\
     Config_instance
       (snd (Config_new Config_read_sample true
               (snd (Config_new Config_read_sample false
                       world_unconfigured)))) = Some c) /\
  (fst (Settings_new Settings_read_sample "sl1.ini" world_unconfigured)
     = Raise (ValueError "Settings file for different printer!") /\
   Settings_instance
     (snd (Settings_new Settings_read_sample "sl1.ini" world_unconfigured))
     = None /\
   exists c,
     fst (Settings_new Settings_read_sample "mk3.ini"
            (snd (Settings_new Settings_read_sample "sl1.ini"
                    world_unconfigured))) = Return c /\
     Settings_instance
       (snd (Settings_new Settings_read_sample "mk3.ini"
               (snd (Settings_new Settings_read_sample "sl1.ini"
                       world_unconfigured)))) = Some c).
Proof.
  do 6 (split; [reflexivity|]).
  exact (failed_construction_leaves_guard_open bool nat nat
           Config_read_sample Settings_read_sample world_unconfigured
           false true "sl1.ini" "mk3.ini" _ _ _ _
           eq_refl eq_refl eq_refl eq_refl eq_refl eq_refl).
Defined.

Lemma world_three_NoDup : NoDup (root_handlers world_three).
Proof. compute_done. Qed.

Lemma world_three_bound :
  Forall (fun h => (h < length (handlers world_three))%nat)
    (root_handlers world_three).
Proof. repeat constructor. Qed.

Lemma set_logger_keeps_every_second_handler_witness :
  level_accepted no_file args_debug "main" "WARNING" = true /\
  level_accepted no_file args_debug "adapter" "WARNING" = true /\
  level_accepted no_file args_debug "http" "INFO" = true /\
  (foreground args_debug = false ->
   never_raises (default "/dev/log" (no_file "logging" "syslog")) = None) /\
  never_raises
    (default (if foreground args_debug then LOG_FORMAT_FOREGROUND
              else LOG_FORMAT_SYSLOG) (no_file "logging" "format")) = None /\
  NoDup (root_handlers world_three) /\
  Forall (fun h => (h < length (handlers world_three))%nat)
    (root_handlers world_three) /\
  exists w',
    set_logger no_file never_raises never_raises args_debug world_three
      = (Return tt, w') /\
    root_handlers w'
      = odds (root_handlers world_three) ++ [length (handlers world_three)] /\
    handlers w' !! length (handlers world_three) =
      Some {| kind := if foreground args_debug then StreamHandler
                      else SysLogHandler
                             (default "/dev/log"
                                (no_file "logging" "syslog"));
              formatter :=
                Some (default (if foreground args_debug
                               then LOG_FORMAT_FOREGROUND
                               else LOG_FORMAT_SYSLOG)
                        (no_file "logging" "format")) |} /\
    ((length (root_handlers world_three) <= 1)%nat ->
     root_handlers w' = [length (handlers world_three)]).
Proof.
  do 3 (split; [reflexivity|]). split; [reflexivity|].
  split; [reflexivity|]. split; [exact world_three_NoDup|].
  split; [exact world_three_bound|].
  exact (set_logger_keeps_every_second_handler no_file never_raises
           never_raises args_debug world_three eq_refl eq_refl eq_refl
           (fun _ => eq_refl) eq_refl world_three_NoDup world_three_bound).
Defined.

(** Of three handlers on the root logger, the second survives the reset. *)
Example set_logger_three_handlers :
  root_handlers
    (snd (set_logger no_file never_raises never_raises args_debug
            world_three))
  = [1; 3]%nat.
Proof. reflexivity. Qed.

Lemma file_bad_adapter_main :
  default "WARNING" (file_bad_adapter "logging" "main") ∈ LOG_LEVELS.
Proof. compute_done. Qed.

Lemma file_bad_adapter_adapter :
  default "WARNING" (file_bad_adapter "logging" "adapter") ∉ LOG_LEVELS.
Proof. compute_done. Qed.

Lemma set_logger_bad_level_stops_half_way_witness :
  debug args_daemon = false /\ info args_daemon = false /\
  (default "WARNING" (file_bad_adapter "logging" "main") ∈ LOG_LEVELS) /\
  (default "WARNING" (file_bad_adapter "logging" "adapter") ∉ LOG_LEVELS) /\
  set_logger file_bad_adapter never_raises never_raises args_daemon
    world_three =
    (Raise (ValueError
              ("Invalid value "
               +:+ default "WARNING" (file_bad_adapter "logging" "adapter"))),
     set_levels
       (levels world_three ++
        [("prusa-link",
          default "WARNING" (file_bad_adapter "logging" "main"));
         ("urllib3", default "WARNING" (file_bad_adapter "logging" "main"));
         ("connect-printer",
          default "WARNING" (file_bad_adapter "logging" "main"))])
       world_three).
Proof.
  split; [reflexivity|]. split; [reflexivity|].
  split; [exact file_bad_adapter_main|].
  split; [exact file_bad_adapter_adapter|].
  exact (set_logger_bad_level_stops_half_way file_bad_adapter never_raises
           never_raises args_daemon world_three eq_refl eq_refl
           file_bad_adapter_main file_bad_adapter_adapter).
Defined.

End ConfigRuns.

(** ** The legacy file handlers: moving, folders, printing, previews *)

Section PathFacts.

Import FilesLegacy FilesLegacyHandlers.

Lemma chars_append a b :
  list_ascii_of_string (a +:+ b)
    = list_ascii_of_string a ++ list_ascii_of_string b.
Proof. induction a as [|c a IH]; simpl; [done|]. by f_equal. Qed.

Lemma endswith_sep_last a :
  endswith_sep a =
  match rev (list_ascii_of_string a) with
  | c :: _ => is_sep c
  | [] => false
  end.
Proof.
  induction a as [|c a IH]; [done|].
  cbn [endswith_sep list_ascii_of_string rev].
  destruct a as [|d a]; [done|].
  rewrite IH. cbn [list_ascii_of_string rev].
  destruct (rev (list_ascii_of_string a) ++ [d]) eqn:He; [|done].
  by apply app_nil in He as [_ ?].
Qed.

Lemma drop_while_all f l x rest :
  forallb f l = true -> f x = false ->
  drop_while f (l ++ x :: rest) = x :: rest.
Proof.
  induction l as [|y l IH]; cbn; intros Hl Hx.
  - by rewrite Hx.
  - apply andb_true_iff in Hl as [Hy Hl]. rewrite Hy. by apply IH.
Qed.

Lemma forallb_rev {A} (f : A -> bool) l : forallb f (rev l) = forallb f l.
Proof.
  induction l as [|x l IH]; [done|]. cbn.
  rewrite forallb_app, IH. cbn. rewrite andb_true_r. apply andb_comm.
Qed.

Lemma join_absolute_is_second a b : startswith_sep b = true -> join a b = b.
Proof. unfold join. by intros ->. Qed.

(** The directory of a plain name joined to a directory is that
    directory: the round trip of [join] and [dirname]. *)
Lemma dirname_join a b :
  a <> "" -> endswith_sep a = false -> plain_name b = true ->
  dirname (join a b) = a.
Proof.
  intros Ha Hend Hb.
  assert (Hstart : startswith_sep b = false).
  { destruct b as [|c b]; [done|]. unfold plain_name in Hb. cbn in *.
    apply andb_true_iff in Hb as [Hc _]. by destruct (is_sep c). }
  unfold join. rewrite Hstart, Hend, bool_decide_eq_false_2 by done. cbn [orb].
  unfold dirname. rewrite !chars_append. cbn [list_ascii_of_string app].
  rewrite rev_app_distr. cbn [rev]. rewrite <- app_assoc. cbn [app].
  rewrite endswith_sep_last in Hend.
  destruct (rev (list_ascii_of_string a)) as [|c l] eqn:Hrev.
  { exfalso. apply Ha. destruct a; [done|]. cbn in Hrev.
    by apply app_nil in Hrev as [_ ?]. }
  rewrite (drop_while_all (fun c => negb (is_sep c))
             (rev (list_ascii_of_string b)) "/"%char (c :: l)).
  2: { rewrite forallb_rev. exact Hb. }
  2: { reflexivity. }
  cbn [forallb drop_while]. rewrite Hend. cbn [andb].
  change (is_sep "/") with true. cbn [andb]. cbv iota.
  rewrite <- Hrev, rev_involutive. apply string_of_list_ascii_of_string.
Qed.

End PathFacts.

Section ModifyFacts.

Import FilesLegacy FilesLegacyHandlers.

Variable FS : Type.
Variable exists_ : FS -> string -> bool.
Variable makedirs : FS -> string -> exn + FS.
Variable move : FS -> string -> string -> exn + FS.
Variable LOCAL_STORAGE_NAME : string.
Variable get_os_path : string -> option string.

Local Abbreviation handler :=
  (api_modify FS exists_ makedirs move LOCAL_STORAGE_NAME get_os_path).

(** The job is printing the source. *)
Local Abbreviation printing source w :=
  (bool_decide (job_state (job w) = IN_PROGRESS)
   && bool_decide (Some source = get_os_path (selected_file_path (job w)))).

(** [api_modify], run. *)
Lemma api_modify_run req (w : World FS) os_path src dst :
  get_os_path ("/" +:+ LOCAL_STORAGE_NAME) = Some os_path ->
  json_source req = Some src ->
  json_destination req = Some dst ->
  handler req w =
  if printing (join os_path src) w then (Raise FileCurrentlyPrinted, w)
  else if bool_decide (join os_path src = join os_path dst)
  then (Raise DestinationSameAsSource, w)
  else if negb (exists_ (fs w) (join os_path src))
  then (Raise FileNotFound, w)
  else if exists_ (fs w) (dirname (join os_path dst))
  then (Return {| status_code := 201 |}, w)
  else
    match makedirs (fs w) (dirname (join os_path dst)) with
    | inl e =>
        (Raise e,
         {| fs := fs w; job := job w;
            os_calls := os_calls w ++
              [Makedirs (dirname (join os_path dst))] |})
    | inr f1 =>
        match move f1 (join os_path src) (join os_path dst) with
        | inl e =>
            (Raise e,
             {| fs := f1; job := job w;
                os_calls := os_calls w ++
                  [Makedirs (dirname (join os_path dst));
                   Move (join os_path src) (join os_path dst)] |})
        | inr f2 =>
            (Return {| status_code := 201 |},
             {| fs := f2; job := job w;
                os_calls := os_calls w ++
                  [Makedirs (dirname (join os_path dst));
                   Move (join os_path src) (join os_path dst)] |})
        end
    end.
Proof.
  intros Hos Hsrc Hdst.
  unfold api_modify. rewrite Hos, Hsrc, Hdst. cbn [join_].
  unfold bind at 1. unfold ret at 1. cbv beta iota.
  unfold bind at 1. unfold ret at 1. cbv beta iota.
  unfold bind at 1. unfold get at 1. cbv beta iota.
  destruct (printing (join os_path src) w); [reflexivity|].
  destruct (bool_decide (join os_path src = join os_path dst));
    [reflexivity|].
  destruct (exists_ (fs w) (join os_path src)); cbn [negb]; [|reflexivity].
  destruct (exists_ (fs w) (dirname (join os_path dst))); cbn [negb];
    [reflexivity|].
  unfold try_except, os_call, bind, get, modify, ret, raise, set_os_calls,
    set_fs.
  cbn.
  destruct (makedirs (fs w) (dirname (join os_path dst))) as [e|f1]; cbn.
  { by destruct e. }
  destruct (move f1 (join os_path src) (join os_path dst)) as [e|f2]; cbn.
  { rewrite <- app_assoc. by destruct e. }
  rewrite <- app_assoc. reflexivity.
Qed.

(** [api_modify], when the destination's directory does not exist yet:
    the directory is made, then the file moved, and 201 answered.  If
    making the directory fails, its error is raised and no move is tried;
    if the move fails, its error is raised and the directory just made
    stays. *)
Theorem api_modify_makes_directory_then_moves req (w : World FS)
    os_path src dst :
  get_os_path ("/" +:+ LOCAL_STORAGE_NAME) = Some os_path ->
  json_source req = Some src ->
  json_destination req = Some dst ->
  printing (join os_path src) w = false ->
  join os_path src <> join os_path dst ->
  exists_ (fs w) (join os_path src) = true ->
  exists_ (fs w) (dirname (join os_path dst)) = false ->
  (forall e, makedirs (fs w) (dirname (join os_path dst)) = inl e ->
     handler req w =
       (Raise e,
        {| fs := fs w; job := job w;
           os_calls := os_calls w ++
             [Makedirs (dirname (join os_path dst))] |})) /\
  (forall f1 e,
     makedirs (fs w) (dirname (join os_path dst)) = inr f1 ->
     move f1 (join os_path src) (join os_path dst) = inl e ->
     handler req w =
       (Raise e,
        {| fs := f1; job := job w;
           os_calls := os_calls w ++
             [Makedirs (dirname (join os_path dst));
              Move (join os_path src) (join os_path dst)] |})) /\
  (forall f1 f2,
     makedirs (fs w) (dirname (join os_path dst)) = inr f1 ->
     move f1 (join os_path src) (join os_path dst) = inr f2 ->
     handler req w =
       (Return {| status_code := 201 |},
        {| fs := f2; job := job w;
           os_calls := os_calls w ++
             [Makedirs (dirname (join os_path dst));
              Move (join os_path src) (join os_path dst)] |})).
Proof.
  intros Hos Hsrc Hdst Hjob Hne Hex Hpar.
  rewrite (api_modify_run req w os_path src dst Hos Hsrc Hdst).
  rewrite Hjob, Hex, Hpar, (bool_decide_eq_false_2 _ Hne). cbn [negb].
  repeat split.
  - intros e ->. reflexivity.
  - intros f1 e -> ->. reflexivity.
  - intros f1 f2 -> ->. reflexivity.
Qed.

(** The order in which [api_modify] refuses.  A request without a source
    or a destination raises [TypeError].  The file being printed is
    refused first, even if source and destination are the same or the
    source does not exist; equal source and destination are refused next,
    even if the source does not exist; a missing source last.  Whatever the
    refusal, nothing is called and nothing changes. *)
Theorem api_modify_refusals req (w : World FS) os_path :
  get_os_path ("/" +:+ LOCAL_STORAGE_NAME) = Some os_path ->
  (json_source req = None \/ json_destination req = None ->
   handler req w = (Raise TypeError, w)) /\
  (forall src dst,
     json_source req = Some src -> json_destination req = Some dst ->
     (printing (join os_path src) w = true ->
      handler req w = (Raise FileCurrentlyPrinted, w)) /\
     (printing (join os_path src) w = false ->
      join os_path src = join os_path dst ->
      handler req w = (Raise DestinationSameAsSource, w)) /\
     (printing (join os_path src) w = false ->
      join os_path src <> join os_path dst ->
      exists_ (fs w) (join os_path src) = false ->
      handler req w = (Raise FileNotFound, w))).
Proof.
  intros Hos. split.
  - intros [Hn | Hn]; unfold api_modify; rewrite Hos, Hn; cbn [join_].
    + reflexivity.
    + destruct (json_source req); reflexivity.
  - intros src dst Hsrc Hdst.
    rewrite (api_modify_run req w os_path src dst Hos Hsrc Hdst).
    repeat split.
    + by intros ->.
    + intros -> Heq. by rewrite bool_decide_eq_true_2.
    + intros -> Hne ->. by rewrite bool_decide_eq_false_2.
Qed.

(** A rename inside the storage directory is never carried out.  With
    the storage directory an existing path that does not end in a
    separator, and the destination a plain name, the destination's
    directory is the storage directory itself; it exists, so the handler
    answers 201 Created and moves nothing. *)
Theorem api_modify_never_renames_in_place req (w : World FS) os_path src dst :
  get_os_path ("/" +:+ LOCAL_STORAGE_NAME) = Some os_path ->
  os_path <> "" -> endswith_sep os_path = false ->
  exists_ (fs w) os_path = true ->
  json_source req = Some src ->
  json_destination req = Some dst -> plain_name dst = true ->
  printing (join os_path src) w = false ->
  join os_path src <> join os_path dst ->
  exists_ (fs w) (join os_path src) = true ->
  handler req w = (Return {| status_code := 201 |}, w).
Proof.
  intros Hos Hne Hend Hroot Hsrc Hdst Hplain Hjob Hdiff Hex.
  rewrite (api_modify_run req w os_path src dst Hos Hsrc Hdst).
  rewrite Hjob, Hex, (bool_decide_eq_false_2 _ Hdiff). cbn [negb].
  rewrite (dirname_join os_path dst Hne Hend Hplain), Hroot. reflexivity.
Qed.

(** A destination given as an absolute path is taken as it is: the
    storage directory is dropped by [join], and the directory made and the
    path moved to are those of the request, wherever they lie. *)
Theorem api_modify_absolute_destination req (w : World FS)
    os_path src dst f1 f2 :
  get_os_path ("/" +:+ LOCAL_STORAGE_NAME) = Some os_path ->
  json_source req = Some src ->
  json_destination req = Some dst -> startswith_sep dst = true ->
  printing (join os_path src) w = false ->
  join os_path src <> dst ->
  exists_ (fs w) (join os_path src) = true ->
  exists_ (fs w) (dirname dst) = false ->
  makedirs (fs w) (dirname dst) = inr f1 ->
  move f1 (join os_path src) dst = inr f2 ->
  handler req w =
    (Return {| status_code := 201 |},
     {| fs := f2; job := job w;
        os_calls := os_calls w ++
          [Makedirs (dirname dst); Move (join os_path src) dst] |}).
Proof.
  intros Hos Hsrc Hdst Habs Hjob Hdiff Hex Hpar Hmk Hmv.
  rewrite (api_modify_run req w os_path src dst Hos Hsrc Hdst).
  rewrite (join_absolute_is_second os_path dst Habs).
  rewrite Hjob, Hex, Hpar, (bool_decide_eq_false_2 _ Hdiff), Hmk, Hmv.
  reflexivity.
Qed.

End ModifyFacts.

Section FolderFacts.

Import FilesLegacy FilesLegacyHandlers.

Variable FS : Type.
Variable exists_ : FS -> string -> bool.
Variable makedirs : FS -> string -> exn + FS.
Variable rmtree : FS -> string -> exn + FS.
Variable LOCAL_STORAGE_NAME : string.
Variable get_os_path : string -> option string.

Local Abbreviation create :=
  (api_create_folder FS exists_ makedirs LOCAL_STORAGE_NAME get_os_path).
Local Abbreviation delete :=
  (api_delete_folder FS exists_ rmtree LOCAL_STORAGE_NAME get_os_path).

(** Creating a folder that exists raises [FolderAlreadyExists] and
    deleting one that does not raises [FolderNotFound], each without a call
    to the file system.  On a file system where a directory that was made
    exists, a folder just created cannot be created again, and deleting it
    gets as far as removing it. *)
Theorem folder_created_once path (w : FolderWorld FS) os_path :
  get_os_path ("/" +:+ LOCAL_STORAGE_NAME) = Some os_path ->
  (forall f p f', makedirs f p = inr f' -> exists_ f' p = true) ->
  (exists_ (folder_fs w) (join os_path path) = true ->
   create path w = (Raise FolderAlreadyExists, w)) /\
  (exists_ (folder_fs w) (join os_path path) = false ->
   delete path w = (Raise FolderNotFound, w)) /\
  (forall r w', create path w = (Return r, w') ->
     r = {| status_code := 201 |} /\
     folder_calls w' = folder_calls w ++ [MakedirsCall (join os_path path)] /\
     create path w' = (Raise FolderAlreadyExists, w') /\
     folder_calls (snd (delete path w'))
       = folder_calls w' ++ [RmtreeCall (join os_path path)]).
Proof.
  intros Hos Hmk.
  unfold api_create_folder, api_delete_folder. rewrite Hos. cbn [join_os].
  unfold folder_call, bind, get, modify, ret, raise. cbn.
  split; [|split].
  - intros ->. reflexivity.
  - intros ->. reflexivity.
  - intros r w'.
    destruct (exists_ (folder_fs w) (join os_path path)) eqn:Hex;
      [discriminate|].
    destruct (makedirs (folder_fs w) (join os_path path)) as [e|f'] eqn:Hm;
      [discriminate|].
    intros [= <- <-]. cbn. rewrite (Hmk _ _ _ Hm). cbn.
    repeat split. by destruct (rmtree f' (join os_path path)).
Qed.

End FolderFacts.

Section StartPrintFacts.

Import FilesLegacy FilesLegacyHandlers.

Variable Job : Type.
Variable job_state : Job -> JobState.
Variable selected_file_path : Job -> string.
Variable deselect_file : Job -> Job.
Variable select_file : Job -> string -> Job.
Variable set_file_path : Job -> string -> Job.
Variable check_os_path : string -> option exn.
Variable do_command : string -> option exn.

Local Abbreviation start :=
  (api_start_print Job job_state selected_file_path deselect_file select_file
     set_file_path check_os_path do_command).

(** [api_start_print] starts a print only on an idle job.  While the job
    is not idle the handler calls nothing on the job or the queue: a "print"
    raises [CurrentlyPrinting], whereas a "select", like any other
    command, is answered 400 Bad Request.  On an idle job a "select" with
    [print] starts the path the job reports as selected after the
    selection, and a "print" starts the path of the request. *)
Theorem api_start_print_only_when_idle req path (w : PrintWorld Job) :
  check_os_path ("/" +:+ path) = None ->
  (job_state (the_job w) <> IDLE ->
   start req path w =
     if bool_decide (json_command req = Some "select")
     then (Return {| status_code := 400 |}, w)
     else if bool_decide (json_command req = Some "print")
     then (Raise CurrentlyPrinting, w)
     else (Return {| status_code := 400 |}, w)) /\
  (job_state (the_job w) = IDLE ->
   json_command req = Some "select" -> json_print req = true ->
   job_calls (snd (start req path w)) =
     job_calls w ++
     [DeselectFile; SelectFile path;
      StartPrint
        (selected_file_path
           (select_file (deselect_file (the_job w)) path))]) /\
  (job_state (the_job w) = IDLE -> json_command req = Some "print" ->
   job_calls (snd (start req path w)) =
     job_calls w ++ [SetFilePath path; StartPrint path]) /\
  (forall p, StartPrint p ∈ job_calls (snd (start req path w)) ->
     StartPrint p ∈ job_calls w \/ job_state (the_job w) = IDLE).
Proof.
  intros Hcheck. unfold api_start_print. rewrite Hcheck.
  split; [|split; [|split]].
  - intros Hbusy.
    destruct (bool_decide (json_command req = Some "select")).
    + unfold bind, get. cbn. by rewrite bool_decide_eq_false_2.
    + destruct (bool_decide (json_command req = Some "print")); [|done].
      unfold bind, get. cbn. by rewrite bool_decide_eq_false_2.
  - intros Hidle Hcmd Hprint. rewrite Hcmd, Hprint.
    rewrite bool_decide_eq_true_2 by done.
    unfold start_print, job_call, bind, get, modify, ret, raise. cbn.
    rewrite bool_decide_eq_true_2 by done. cbn.
    destruct (do_command _); cbn; by rewrite <- !app_assoc.
  - intros Hidle Hcmd. rewrite Hcmd.
    rewrite bool_decide_eq_false_2 by done.
    rewrite bool_decide_eq_true_2 by done.
    unfold start_print, job_call, bind, get, modify, ret, raise. cbn.
    rewrite bool_decide_eq_true_2 by done. cbn.
    destruct (do_command _); cbn; by rewrite <- !app_assoc.
  - intros p Hin.
    destruct (decide (job_state (the_job w) = IDLE)) as [|Hbusy];
      [by right|left].
    revert Hin.
    destruct (bool_decide (json_command req = Some "select")).
    + unfold bind, get. cbn. by rewrite bool_decide_eq_false_2.
    + destruct (bool_decide (json_command req = Some "print")); [|done].
      unfold bind, get. cbn. by rewrite bool_decide_eq_false_2.
Qed.

End StartPrintFacts.

Section ThumbnailFacts.

Import FilesLegacyHandlers.

Local Abbreviation pick :=
  (fun (biggest data : list Byte.byte) =>
     if (length biggest <? length data)%nat then data else biggest).

Lemma pick_bounds ts : forall acc,
  (length acc <= length (fold_left pick ts acc))%nat /\
  Forall (fun d => (length d <= length (fold_left pick ts acc))%nat) ts /\
  (fold_left pick ts acc = acc \/ fold_left pick ts acc ∈ ts).
Proof.
  induction ts as [|d ts IH]; intros acc.
  - cbn. repeat split; [lia|constructor|by left].
  - cbn [fold_left]. cbv beta.
    set (p := if (length acc <? length d)%nat then d else acc).
    destruct (IH p) as (Hle & Hall & Hin).
    assert (Hd : (length acc <= length p)%nat /\ (length d <= length p)%nat).
    { subst p. destruct (length acc <? length d)%nat eqn:Hlt.
      - apply Nat.ltb_lt in Hlt. lia.
      - apply Nat.ltb_ge in Hlt. lia. }
    split; [lia|]. split; [constructor; [lia|done]|].
    destruct Hin as [Heq | Hin]; [|right; by right].
    rewrite Heq. subst p. destruct (length acc <? length d)%nat;
      [right; by left | by left].
Qed.

Lemma pick_keeps post : forall acc,
  Forall (fun x => (length x <= length acc)%nat) post ->
  fold_left pick post acc = acc.
Proof.
  induction post as [|x post IH]; intros acc Hall; [done|].
  cbn [fold_left]. cbv beta.
  apply Forall_cons in Hall as [Hx Hall].
  rewrite (proj2 (Nat.ltb_ge _ _)) by exact Hx. by apply IH.
Qed.

Lemma pick_reaches pre : forall acc d post,
  Forall (fun x => (length x < length d)%nat) pre ->
  (length acc < length d)%nat ->
  fold_left pick (pre ++ d :: post) acc = fold_left pick post d.
Proof.
  induction pre as [|x pre IH]; intros acc d post Hall Hacc;
    cbn [app fold_left]; cbv beta.
  - by rewrite (proj2 (Nat.ltb_lt _ _)) by exact Hacc.
  - apply Forall_cons in Hall as [Hx Hall]. apply IH; [done|].
    destruct (length acc <? length x)%nat; lia.
Qed.

(** The preview [api_thumbnails] picks is a longest one: no thumbnail is
    longer; it is one of the thumbnails unless it is empty; and among
    several of the greatest length it is the first - any thumbnail that is
    not empty, longer than all those before it and not shorter than any
    after it is the one picked. *)
Theorem biggest_thumbnail_is_first_longest ts :
  Forall (fun d => (length d <= length (biggest_thumbnail ts))%nat) ts /\
  (biggest_thumbnail ts = [] \/ biggest_thumbnail ts ∈ ts) /\
  (forall pre d post,
     ts = pre ++ d :: post -> d <> [] ->
     Forall (fun x => (length x < length d)%nat) pre ->
     Forall (fun x => (length x <= length d)%nat) post ->
     biggest_thumbnail ts = d).
Proof.
  unfold biggest_thumbnail.
  destruct (pick_bounds ts []) as (_ & Hall & Hin).
  split; [exact Hall|]. split; [exact Hin|].
  intros pre d post -> Hd Hpre Hpost.
  rewrite (pick_reaches pre [] d post Hpre).
  - by apply pick_keeps.
  - destruct d; [done|]. cbn. lia.
Qed.

End ThumbnailFacts.

Section FilesLegacyMoreRuns.

Import FilesLegacy FilesLegacyHandlers.

Local Abbreviation modify_sample :=
  (api_modify Paths Paths_exists Paths_makedirs Paths_move "local"
     sample_os_path).

Lemma api_modify_makes_directory_then_moves_witness :
  sample_os_path ("/" +:+ "local") = Some "/data" /\
  json_source request_into_new = Some "a.gcode" /\
  json_destination request_into_new = Some "new/a.gcode" /\
  bool_decide (job_state (job sample_world) = IN_PROGRESS)
  && bool_decide (Some (join "/data" "a.gcode")
                  = sample_os_path (selected_file_path (job sample_world)))
    = false /\
  join "/data" "a.gcode" <> join "/data" "new/a.gcode" /\
  Paths_exists (fs sample_world) (join "/data" "a.gcode") = true /\
  Paths_exists (fs sample_world) (dirname (join "/data" "new/a.gcode"))
    = false /\
  (forall e,
     Paths_makedirs (fs sample_world) (dirname (join "/data" "new/a.gcode"))
       = inl e ->
     modify_sample request_into_new sample_world =
       (Raise e,
        {| fs := fs sample_world; job := job sample_world;
           os_calls := os_calls sample_world ++
             [Makedirs (dirname (join "/data" "new/a.gcode"))] |})) /\
  (forall f1 e,
     Paths_makedirs (fs sample_world) (dirname (join "/data" "new/a.gcode"))
       = inr f1 ->
     Paths_move f1 (join "/data" "a.gcode") (join "/data" "new/a.gcode")
       = inl e ->
     modify_sample request_into_new sample_world =
       (Raise e,
        {| fs := f1; job := job sample_world;
           os_calls := os_calls sample_world ++
             [Makedirs (dirname (join "/data" "new/a.gcode"));
              Move (join "/data" "a.gcode")
                (join "/data" "new/a.gcode")] |})) /\
  (forall f1 f2,
     Paths_makedirs (fs sample_world) (dirname (join "/data" "new/a.gcode"))
       = inr f1 ->
     Paths_move f1 (join "/data" "a.gcode") (join "/data" "new/a.gcode")
       = inr f2 ->
     modify_sample request_into_new sample_world =
       (Return {| status_code := 201 |},
        {| fs := f2; job := job sample_world;
           os_calls := os_calls sample_world ++
             [Makedirs (dirname (join "/data" "new/a.gcode"));
              Move (join "/data" "a.gcode")
                (join "/data" "new/a.gcode")] |})).
Proof.
  assert (Hne : join "/data" "a.gcode" <> join "/data" "new/a.gcode")
    by discriminate.
  do 4 (split; [reflexivity|]). split; [exact Hne|].
  do 2 (split; [reflexivity|]).
  exact (api_modify_makes_directory_then_moves Paths Paths_exists
           Paths_makedirs Paths_move "local" sample_os_path request_into_new
           sample_world "/data" "a.gcode" "new/a.gcode"
           eq_refl eq_refl eq_refl eq_refl Hne eq_refl eq_refl).
Defined.

(** Moving [a.gcode] into the new folder does happen. *)
Example api_modify_into_new_folder :
  modify_sample request_into_new sample_world =
    (Return {| status_code := 201 |},
     {| fs := ["/data/new/a.gcode"; "/data/new"; "/data"];
        job := job sample_world;
        os_calls := [Makedirs "/data/new";
                     Move "/data/a.gcode" "/data/new/a.gcode"] |}).
Proof. reflexivity. Qed.

Local Abbreviation modify_storage :=
  (api_modify Paths Paths_exists Paths_makedirs Paths_move "local"
     storage_os_path).

Lemma api_modify_refusals_witness :
  storage_os_path ("/" +:+ "local") = Some "/data" /\
  modify_storage request_no_destination sample_world
    = (Raise TypeError, sample_world) /\
  modify_storage request_same world_printing_file
    = (Raise FileCurrentlyPrinted, world_printing_file) /\
  modify_storage request_missing_same sample_world
    = (Raise DestinationSameAsSource, sample_world) /\
  modify_storage request_missing sample_world
    = (Raise FileNotFound, sample_world).
Proof.
  assert (Hne : join "/data" "c.gcode" <> join "/data" "b.gcode")
    by discriminate.
  split; [reflexivity|]. split; [|split; [|split]].
  - exact (proj1
             (api_modify_refusals Paths Paths_exists Paths_makedirs
                Paths_move "local" storage_os_path request_no_destination
                sample_world "/data" eq_refl)
             (or_intror eq_refl)).
  - exact (proj1
             (proj2
                (api_modify_refusals Paths Paths_exists Paths_makedirs
                   Paths_move "local" storage_os_path request_same
                   world_printing_file "/data" eq_refl)
                "a.gcode" "a.gcode" eq_refl eq_refl)
             eq_refl).
  - exact (proj1
             (proj2
                (proj2
                   (api_modify_refusals Paths Paths_exists Paths_makedirs
                      Paths_move "local" storage_os_path
                      request_missing_same sample_world "/data" eq_refl)
                   "c.gcode" "c.gcode" eq_refl eq_refl))
             eq_refl eq_refl).
  - exact (proj2
             (proj2
                (proj2
                   (api_modify_refusals Paths Paths_exists Paths_makedirs
                      Paths_move "local" storage_os_path request_missing
                      sample_world "/data" eq_refl)
                   "c.gcode" "b.gcode" eq_refl eq_refl))
             eq_refl Hne eq_refl).
Defined.

Lemma api_modify_never_renames_in_place_witness :
  sample_os_path ("/" +:+ "local") = Some "/data" /\
  "/data" <> "" /\ endswith_sep "/data" = false /\
  Paths_exists (fs sample_world) "/data" = true /\
  json_source sample_request = Some "a.gcode" /\
  json_destination sample_request = Some "b.gcode" /\
  plain_name "b.gcode" = true /\
  bool_decide (job_state (job sample_world) = IN_PROGRESS)
  && bool_decide (Some (join "/data" "a.gcode")
                  = sample_os_path (selected_file_path (job sample_world)))
    = false /\
  join "/data" "a.gcode" <> join "/data" "b.gcode" /\
  Paths_exists (fs sample_world) (join "/data" "a.gcode") = true /\
  modify_sample sample_request sample_world
    = (Return {| status_code := 201 |}, sample_world).
Proof.
  assert (H1 : "/data" <> "") by discriminate.
  assert (H2 : join "/data" "a.gcode" <> join "/data" "b.gcode")
    by discriminate.
  split; [reflexivity|]. split; [exact H1|]. do 6 (split; [reflexivity|]).
  split; [exact H2|]. split; [reflexivity|].
  exact (api_modify_never_renames_in_place Paths Paths_exists Paths_makedirs
           Paths_move "local" sample_os_path sample_request sample_world
           "/data" "a.gcode" "b.gcode" eq_refl H1 eq_refl eq_refl eq_refl
           eq_refl eq_refl eq_refl H2 eq_refl).
Defined.

Lemma api_modify_absolute_destination_witness :
  sample_os_path ("/" +:+ "local") = Some "/data" /\
  json_source request_absolute = Some "a.gcode" /\
  json_destination request_absolute = Some "/tmp/x/a.gcode" /\
  startswith_sep "/tmp/x/a.gcode" = true /\
  bool_decide (job_state (job sample_world) = IN_PROGRESS)
  && bool_decide (Some (join "/data" "a.gcode")
                  = sample_os_path (selected_file_path (job sample_world)))
    = false /\
  join "/data" "a.gcode" <> "/tmp/x/a.gcode" /\
  Paths_exists (fs sample_world) (join "/data" "a.gcode") = true /\
  Paths_exists (fs sample_world) (dirname "/tmp/x/a.gcode") = false /\
  Paths_makedirs (fs sample_world) (dirname "/tmp/x/a.gcode")
    = inr ["/tmp/x"; "/data"; "/data/a.gcode"] /\
  Paths_move ["/tmp/x"; "/data"; "/data/a.gcode"] (join "/data" "a.gcode")
    "/tmp/x/a.gcode" = inr ["/tmp/x/a.gcode"; "/tmp/x"; "/data"] /\
  modify_sample request_absolute sample_world
  = (Return {| status_code := 201 |},
     {| fs := ["/tmp/x/a.gcode"; "/tmp/x"; "/data"]; job := job sample_world;
        os_calls := os_calls sample_world ++
          [Makedirs (dirname "/tmp/x/a.gcode");
           Move (join "/data" "a.gcode") "/tmp/x/a.gcode"] |}).
Proof.
  assert (H : join "/data" "a.gcode" <> "/tmp/x/a.gcode") by discriminate.
  do 5 (split; [reflexivity|]). split; [exact H|].
  do 4 (split; [reflexivity|]).
  exact (api_modify_absolute_destination Paths Paths_exists Paths_makedirs
           Paths_move "local" sample_os_path request_absolute sample_world
           "/data" "a.gcode" "/tmp/x/a.gcode"
           ["/tmp/x"; "/data"; "/data/a.gcode"]
           ["/tmp/x/a.gcode"; "/tmp/x"; "/data"]
           eq_refl eq_refl eq_refl eq_refl eq_refl H eq_refl eq_refl
           eq_refl eq_refl).
Defined.

Lemma Paths_makedirs_exists (f : Paths) p f' :
  Paths_makedirs f p = inr f' -> Paths_exists f' p = true.
Proof.
  unfold Paths_makedirs, Paths_exists.
  destruct (bool_decide (p ∈ f)); [discriminate|]. intros [= <-].
  apply bool_decide_eq_true_2. by left.
Qed.

Local Abbreviation create_sample :=
  (api_create_folder Paths Paths_exists Paths_makedirs "local"
     sample_os_path).
Local Abbreviation delete_sample :=
  (api_delete_folder Paths Paths_exists Paths_rmtree "local" sample_os_path).

Lemma folder_created_once_witness :
  sample_os_path ("/" +:+ "local") = Some "/data" /\
  (forall f p f', Paths_makedirs f p = inr f' -> Paths_exists f' p = true) /\
  (Paths_exists (folder_fs world_folders) (join "/data" "new") = true ->
   create_sample "new" world_folders
     = (Raise FolderAlreadyExists, world_folders)) /\
  (Paths_exists (folder_fs world_folders) (join "/data" "new") = false ->
   delete_sample "new" world_folders = (Raise FolderNotFound, world_folders))
  /\
  (forall r w', create_sample "new" world_folders = (Return r, w') ->
     r = {| status_code := 201 |} /\
     folder_calls w'
       = folder_calls world_folders ++ [MakedirsCall (join "/data" "new")] /\
     create_sample "new" w' = (Raise FolderAlreadyExists, w') /\
     folder_calls (snd (delete_sample "new" w'))
       = folder_calls w' ++ [RmtreeCall (join "/data" "new")]).
Proof.
  split; [reflexivity|]. split; [exact Paths_makedirs_exists|].
  exact (folder_created_once Paths Paths_exists Paths_makedirs Paths_rmtree
           "local" sample_os_path "new" world_folders "/data" eq_refl
           Paths_makedirs_exists).
Defined.

Local Abbreviation start_sample :=
  (api_start_print SampleJob fst snd (fun j => (fst j, ""))
     (fun j p => (fst j, p)) (fun j p => (fst j, p)) sample_check
     sample_check).

Lemma api_start_print_only_when_idle_witness :
  sample_check ("/" +:+ "local/b.gcode") = None /\
  (fst (the_job world_printing) <> IDLE ->
   start_sample {| json_command := Some "select"; json_print := true |}
     "local/b.gcode" world_printing =
     if bool_decide (json_command
                       {| json_command := Some "select"; json_print := true |}
                     = Some "select")
     then (Return {| status_code := 400 |}, world_printing)
     else if bool_decide (json_command
                            {| json_command := Some "select";
                               json_print := true |} = Some "print")
     then (Raise CurrentlyPrinting, world_printing)
     else (Return {| status_code := 400 |}, world_printing)) /\
  (fst (the_job world_printing) = IDLE ->
   json_command {| json_command := Some "select"; json_print := true |}
     = Some "select" ->
   json_print {| json_command := Some "select"; json_print := true |} = true ->
   job_calls
     (snd (start_sample {| json_command := Some "select"; json_print := true |}
             "local/b.gcode" world_printing)) =
     job_calls world_printing ++
     [DeselectFile; SelectFile "local/b.gcode";
      StartPrint
        (snd ((fun j p => (fst j, p))
                ((fun j : SampleJob => (fst j, "")) (the_job world_printing))
                "local/b.gcode"))]) /\
  (fst (the_job world_printing) = IDLE ->
   json_command {| json_command := Some "select"; json_print := true |}
     = Some "print" ->
   job_calls
     (snd (start_sample {| json_command := Some "select"; json_print := true |}
             "local/b.gcode" world_printing)) =
     job_calls world_printing
       ++ [SetFilePath "local/b.gcode"; StartPrint "local/b.gcode"]) /\
  (forall p,
     StartPrint p ∈
       job_calls
         (snd (start_sample
                 {| json_command := Some "select"; json_print := true |}
                 "local/b.gcode" world_printing)) ->
     StartPrint p ∈ job_calls world_printing
     \/ fst (the_job world_printing) = IDLE).
Proof.
  split; [reflexivity|].
  exact (api_start_print_only_when_idle SampleJob fst snd
           (fun j => (fst j, "")) (fun j p => (fst j, p))
           (fun j p => (fst j, p)) sample_check sample_check
           {| json_command := Some "select"; json_print := true |}
           "local/b.gcode" world_printing eq_refl).
Defined.

(** On an idle job the same request selects the file and starts it. *)
Example api_start_print_idle :
  start_sample {| json_command := Some "select"; json_print := true |}
    "local/b.gcode" world_idle =
  (Return {| status_code := 204 |},
   {| the_job := (IDLE, "local/b.gcode");
      job_calls := [DeselectFile; SelectFile "local/b.gcode";
                    StartPrint "local/b.gcode"] |}).
Proof. reflexivity. Qed.

(** Of two previews of three bytes, the first is picked. *)
Example biggest_thumbnail_tie :
  biggest_thumbnail
    [[Byte.x01]; [Byte.x02; Byte.x03; Byte.x04]; [Byte.x05; Byte.x06; Byte.x07]]
  = [Byte.x02; Byte.x03; Byte.x04].
Proof. reflexivity. Qed.

End FilesLegacyMoreRuns.
